(** * A shallow embedding of the Go AI agent

    The first part is the model, one module per package of the repository:
    - [GoLib]: the fragment of Go's [strings], [fmt] and [os] packages the
      program calls, over byte strings and a finite-map file system;
    - [Tools]: package [tools] (the four tools, [FileEditTool.Execute]);
    - [LLM]: package [llm] (the gateway client, [Client.Query]);
    - [JSON]: UTF-8 and the JSON strings behind [SaveContext] and
      [loadContext];
    - [Agent]: package [agent] ([NewAgent], [Process], tool detection, the
      persisted conversation);
    - [Stated]: definitions that follow the words of the specification;
    - [Samples]: concrete inputs.

    The second part is the verification: [StringFacts], [FileEditSpec],
    [GatewaySpec], [AgentSpec] and [PersistenceSpec].

    Go strings are byte sequences: they are modelled by [string], whose
    characters are the 256 values of [ascii].  Go's [int] is a 64-bit
    integer; the program only compares line numbers and subtracts one from
    a number that is at least one, so no operation wraps and [Z] is used.
    Functions of Go's library whose tables are not in the repository
    (Unicode case mapping and white space, the directory walk, the JSON
    decoder of the file-edit payload, the network) are variables of the
    sections that use them. *)

From Stdlib Require Import ZArith Ascii String List Lia Bool.
From stdpp Require Import base tactics option list gmap strings pretty.

Local Open Scope Z_scope.

(** ** Errors and results *)

(** Errors of the operating system layer, as [os.PathError] carries them. *)
Inductive os_error :=
| ErrNotExist (op path : string)
| ErrIsDir (op path : string)
| ErrOther (op path msg : string).

(** The errors the program builds with [fmt.Errorf], one constructor per
    format string of the source. *)
Inductive error :=
| ErrInvalidJSON (detail input : string)
| ErrFilePathRequired
| ErrOperationRequired
| ErrCreateFile (e : os_error)
| ErrFileNotFound (path : string)
| ErrAccessFile (e : os_error)
| ErrIsDirectory (path : string)
| ErrReadFile (e : os_error)
| ErrStartLineRange (lineCount : Z)
| ErrUnsupportedOperation (op : string)
| ErrWriteFile (e : os_error)
| ErrOs (e : os_error)
| ErrToolNotFound (name : string)
| ErrToolExecution (e : error)
| ErrCreateRequest (detail : string)
| ErrSendRequest (detail : string)
| ErrAPIStatus (status : Z) (body : option string)
| ErrDecodeResponse (detail : string)
| ErrNoResponse
| ErrNoTextContent
| ErrUnmarshal (detail : string).

(** A Go call either returns a value, returns a non-nil error, or panics
    (a run-time error such as an index out of range). *)
Inductive result (A : Type) :=
| Ok (a : A)
| Err (e : error)
| Panic (msg : string).
Arguments Ok {A} a.
Arguments Err {A} e.
Arguments Panic {A} msg.

Definition is_Ok {A} (r : result A) : bool :=
  match r with Ok _ => true | _ => false end.

Module GoLib.

(** *** [fmt] *)

(** The verb [%d] applied to an integer. *)
Definition fmt_d (n : Z) : string := pretty n.

(** [len(s)] for a string: its number of bytes. *)
Definition len (s : string) : Z := Z.of_nat (String.length s).

(** *** [strings] *)

Definition newline : ascii := "010"%char.
Definition nl : string := String newline "".

(** [strings.Split(s, "\n")]: the pieces between the newline bytes; a
    string with no newline (the empty one too) is its own single piece. *)
Fixpoint SplitLines (s : string) : list string :=
  match s with
  | "" => [""]
  | String c s' =>
      if Ascii.eqb c newline then "" :: SplitLines s'
      else match SplitLines s' with
           | l :: ls => String c l :: ls
           | [] => [String c ""]
           end
  end.

(** [strings.Join(elems, sep)]. *)
Fixpoint Join (elems : list string) (sep : string) : string :=
  match elems with
  | [] => ""
  | [e] => e
  | e :: rest => e +:+ sep +:+ Join rest sep
  end.

(** [strings.HasPrefix(s, prefix)]. *)
Fixpoint HasPrefix (s prefix : string) : bool :=
  match prefix, s with
  | "", _ => true
  | String p prefix', String c s' => Ascii.eqb c p && HasPrefix s' prefix'
  | String _ _, "" => false
  end.

(** The bytes of [s] from offset [n] on. *)
Fixpoint drop_bytes (n : nat) (s : string) : string :=
  match n, s with
  | O, _ => s
  | S n', String _ s' => drop_bytes n' s'
  | S _, "" => ""
  end.

(** [strings.HasSuffix(s, suffix)]:
    [len(s) >= len(suffix) && s[len(s)-len(suffix):] == suffix]. *)
Definition HasSuffix (s suffix : string) : bool :=
  (String.length suffix <=? String.length s)%nat &&
  String.eqb (drop_bytes (String.length s - String.length suffix) s) suffix.

(** [strings.Contains(s, substr)]: [substr] starts at some offset of [s]. *)
Fixpoint Contains (s substr : string) : bool :=
  HasPrefix s substr ||
  match s with
  | "" => false
  | String _ s' => Contains s' substr
  end.

(** [strings.Index(s, substr)]: the first offset at which [substr] starts,
    [-1] when there is none. *)
Fixpoint Index (s substr : string) : Z :=
  if HasPrefix s substr then 0
  else match s with
       | "" => -1
       | String _ s' => let i := Index s' substr in if i <? 0 then -1 else i + 1
       end.

(** [strings.LastIndex(s, substr)]: the last such offset, or [-1]. *)
Fixpoint LastIndex (s substr : string) : Z :=
  match s with
  | "" => if HasPrefix s substr then 0 else -1
  | String _ s' =>
      let i := LastIndex s' substr in
      if 0 <=? i then i + 1
      else if HasPrefix s substr then 0 else -1
  end.

(** The first [n] bytes of [s]. *)
Fixpoint take_bytes (n : nat) (s : string) : string :=
  match n, s with
  | O, _ => ""
  | S n', String c s' => String c (take_bytes n' s')
  | S _, "" => ""
  end.

(** The slice expression [s[lo:hi]] on a string ([s[lo:]] is
    [s[lo:len(s)]]); bounds out of range panic. *)
Definition str_slice (s : string) (lo hi : Z) : result string :=
  if (0 <=? lo) && (lo <=? hi) && (hi <=? len s)
  then Ok (take_bytes (Z.to_nat (hi - lo)) (drop_bytes (Z.to_nat lo) s))
  else Panic "slice bounds out of range".

(** [strings.ReplaceAll(s, old, "")] for a non-empty [old]: the leftmost
    occurrences, none overlapping, are removed.  [skip] counts the bytes of
    an occurrence still to be dropped. *)
Fixpoint remove_all_go (old : string) (skip : nat) (s : string) : string :=
  match skip, s with
  | S k, String _ s' => remove_all_go old k s'
  | S _, "" => ""
  | O, "" => ""
  | O, String c s' =>
      if HasPrefix s old
      then remove_all_go old (Nat.pred (String.length old)) s'
      else String c (remove_all_go old O s')
  end.

Definition RemoveAll (s old : string) : string := remove_all_go old O s.

(** The slice expressions [l[:hi]] and [l[lo:]] on a slice whose capacity is
    its length, as [strings.Split] returns it. *)
Definition slice_to {A} (l : list A) (hi : Z) : result (list A) :=
  if (0 <=? hi) && (hi <=? Z.of_nat (length l))
  then Ok (take (Z.to_nat hi) l)
  else Panic "slice bounds out of range".

Definition slice_from {A} (l : list A) (lo : Z) : result (list A) :=
  if (0 <=? lo) && (lo <=? Z.of_nat (length l))
  then Ok (drop (Z.to_nat lo) l)
  else Panic "slice bounds out of range".

(** The ASCII path of [strings.ToLower]. *)
Definition is_ascii_byte (c : ascii) : bool := (nat_of_ascii c <? 128)%nat.

Fixpoint isASCII (s : string) : bool :=
  match s with
  | "" => true
  | String c s' => is_ascii_byte c && isASCII s'
  end.

Definition lower_byte (c : ascii) : ascii :=
  let n := nat_of_ascii c in
  if ((65 <=? n) && (n <=? 90))%nat then ascii_of_nat (n + 32) else c.

Fixpoint lower_bytes (s : string) : string :=
  match s with
  | "" => ""
  | String c s' => String (lower_byte c) (lower_bytes s')
  end.

(** *** [os]: the file system

    A finite map from paths, as the program writes them, to what the
    operating system finds there.  A path absent from the map names
    nothing, in a directory that exists: the file can be created.
    [Orphan] is a path that names nothing because a directory on the way
    is missing ([ENOENT], also when the file is to be created), [UnderFile]
    a path that runs through something that is not a directory
    ([ENOTDIR]).  Paths are compared as written: the map does not know
    that two spellings name one file.  Other faults of the medium
    (permissions, a full disk) are outside this model: a regular file can
    always be read and rewritten. *)

Inductive node :=
| File (data : string) (mode : Z)
| Dir (mode : Z)
| Orphan
| UnderFile.

Abbreviation FS := (gmap string node).

Record FileInfo := mkFileInfo { IsDir : bool; Mode : Z }.

Definition Stat (fs : FS) (path : string) : os_error + FileInfo :=
  match fs !! path with
  | None | Some Orphan => inl (ErrNotExist "stat" path)
  | Some UnderFile => inl (ErrOther "stat" path "not a directory")
  | Some (File _ m) => inr (mkFileInfo false m)
  | Some (Dir m) => inr (mkFileInfo true m)
  end.

Definition IsNotExist (e : os_error) : bool :=
  match e with ErrNotExist _ _ => true | _ => false end.

Definition ReadFile (fs : FS) (path : string) : os_error + string :=
  match fs !! path with
  | None | Some Orphan => inl (ErrNotExist "open" path)
  | Some UnderFile => inl (ErrOther "open" path "not a directory")
  | Some (File d _) => inr d
  | Some (Dir _) => inl (ErrIsDir "read" path)
  end.

(** [WriteFile] truncates an existing file and keeps its mode; [perm] is
    used only when the file is created, which takes the directory that is
    to hold it. *)
Definition WriteFile (fs : FS) (path data : string) (perm : Z)
  : option os_error * FS :=
  match fs !! path with
  | None => (None, <[path := File data perm]> fs)
  | Some (File _ m) => (None, <[path := File data m]> fs)
  | Some (Dir _) => (Some (ErrIsDir "open" path), fs)
  | Some Orphan => (Some (ErrNotExist "open" path), fs)
  | Some UnderFile => (Some (ErrOther "open" path "not a directory"), fs)
  end.

End GoLib.

(** The text of an error, as its [Error()] method prints it. *)
Definition os_Error (e : os_error) : string :=
  match e with
  | ErrNotExist op path => op +:+ " " +:+ path +:+ ": no such file or directory"
  | ErrIsDir op path => op +:+ " " +:+ path +:+ ": is a directory"
  | ErrOther op path msg => op +:+ " " +:+ path +:+ ": " +:+ msg
  end.

Fixpoint Error (e : error) : string :=
  match e with
  | ErrInvalidJSON detail input =>
      "invalid JSON input: " +:+ detail +:+ ", input was: " +:+ input
  | ErrFilePathRequired => "file_path is required"
  | ErrOperationRequired => "operation is required"
  | ErrCreateFile e => "failed to create file: " +:+ os_Error e
  | ErrFileNotFound path => "file not found: " +:+ path
  | ErrAccessFile e => "error accessing file: " +:+ os_Error e
  | ErrIsDirectory path => path +:+ " is a directory, not a file"
  | ErrReadFile e => "failed to read file: " +:+ os_Error e
  | ErrStartLineRange lineCount =>
      "start_line out of range: valid range is 1-" +:+ GoLib.fmt_d lineCount
  | ErrUnsupportedOperation op =>
      "unsupported operation: " +:+ op +:+ ". Use 'replace' or 'append'"
  | ErrWriteFile e => "failed to write to file: " +:+ os_Error e
  | ErrOs e => os_Error e
  | ErrToolNotFound name => "tool " +:+ name +:+ " not found"
  | ErrToolExecution e => "tool execution error: " +:+ Error e
  | ErrCreateRequest detail => "failed to create request: " +:+ detail
  | ErrSendRequest detail => "failed to send request: " +:+ detail
  | ErrAPIStatus status None => "API error: status " +:+ GoLib.fmt_d status
  | ErrAPIStatus status (Some body) =>
      "API error: status " +:+ GoLib.fmt_d status +:+ ", message: " +:+ body
  | ErrDecodeResponse detail => "failed to decode response: " +:+ detail
  | ErrNoResponse => "no response from Claude"
  | ErrNoTextContent => "no text content in response"
  | ErrUnmarshal detail => "json: " +:+ detail
  end.

(** ** Package [tools] *)

Module Tools.
Import GoLib.

(** The interface [Tool].  A tool reads and writes the file system. *)
Record Tool := mkTool {
  Execute : string -> FS -> result string * FS;
  GetName : string;
  GetDescription : string
}.

(** [FileEditRequest]: the decoded JSON payload of the file-edit tool.  A
    field absent from the payload has its zero value. *)
Record FileEditRequest := mkRequest {
  FilePath : string;
  Operation : string;
  Content : string;
  StartLine : Z;
  EndLine : Z
}.

Definition nonempty (s : string) : bool := negb (String.eqb s "").

(** The [switch request.Operation] of [FileEditTool.Execute]: the bytes to
    write back, from the request and the current content of the file.  In
    the [replace] case the inner [append] copies [lines[EndLine:]] behind
    the split content before the outer one writes over the array of
    [lines], so the result is the concatenation of the three parts. *)
Definition editContent (request : FileEditRequest) (currentContent : string)
  : result string :=
  if String.eqb (Operation request) "replace" then
    if (StartLine request =? 0) && (EndLine request =? 0) then
      Ok (Content request)
    else
      let lines := SplitLines currentContent in
      let lineCount := Z.of_nat (length lines) in
      if (StartLine request <? 1) || (lineCount <? StartLine request) then
        Err (ErrStartLineRange lineCount)
      else
        let endLine :=
          if (EndLine request <? StartLine request) || (lineCount <? EndLine request)
          then lineCount else EndLine request in
        match slice_to lines (StartLine request - 1), slice_from lines endLine with
        | Ok before, Ok after =>
            Ok (Join (before ++ (SplitLines (Content request) ++ after)) nl)
        | Panic m, _ | _, Panic m => Panic m
        | Err e, _ | _, Err e => Err e
        end
  else if String.eqb (Operation request) "append" then
    if HasSuffix currentContent nl then
      Ok (currentContent +:+ Content request)
    else
      Ok (currentContent +:+ (nl +:+ Content request))
  else
    Err (ErrUnsupportedOperation (Operation request)).

(** [FileEditTool.Execute], from the validation of the decoded request on.
    The line the tool prints on standard output is left out. *)
Definition ExecuteRequest (request : FileEditRequest) (fs : FS)
  : result string * FS :=
  if String.eqb (FilePath request) "" then (Err ErrFilePathRequired, fs)
  else if String.eqb (Operation request) "" then (Err ErrOperationRequired, fs)
  else
    match Stat fs (FilePath request) with
    | inl e =>
        if IsNotExist e then
          if nonempty (Content request) then
            match WriteFile fs (FilePath request) (Content request) 420 (* 0644 *) with
            | (Some e', fs') => (Err (ErrCreateFile e'), fs')
            | (None, fs') =>
                (Ok ("Created new file " +:+ FilePath request +:+ " with "
                     +:+ fmt_d (len (Content request)) +:+ " bytes"), fs')
            end
          else (Err (ErrFileNotFound (FilePath request)), fs)
        else (Err (ErrAccessFile e), fs)
    | inr fileInfo =>
        if IsDir fileInfo then (Err (ErrIsDirectory (FilePath request)), fs)
        else
          match ReadFile fs (FilePath request) with
          | inl e => (Err (ErrReadFile e), fs)
          | inr currentContent =>
              match editContent request currentContent with
              | Err e => (Err e, fs)
              | Panic m => (Panic m, fs)
              | Ok newContent =>
                  match WriteFile fs (FilePath request) newContent (Mode fileInfo) with
                  | (Some e, fs') => (Err (ErrWriteFile e), fs')
                  | (None, fs') =>
                      (Ok ("Successfully edited " +:+ FilePath request +:+ " ("
                           +:+ fmt_d (len newContent) +:+ " bytes written)"), fs')
                  end
              end
          end
    end.

Section Library.

(** Library functions whose tables are not part of the repository:
    [strings.TrimSpace] (Unicode white space), [strings.Map(unicode.ToLower, s)]
    (the path of [strings.ToLower] for a string with a byte above 127),
    [filepath.Walk] as the list of its visits, a path with the name of the
    entry or the error of the visit, and [json.Unmarshal] into a
    [FileEditRequest]. *)
Variable TrimSpace : string -> string.
Variable MapToLower : string -> string.
Variable Walk : FS -> string -> list (string * (os_error + string)).
Variable UnmarshalRequest : string -> string + FileEditRequest.

(** [strings.ToLower]. *)
Definition ToLower (s : string) : string :=
  if isASCII s then lower_bytes s else MapToLower s.

(** [WebSearchTool]. *)
Definition WebSearchTool : Tool := {|
  Execute := fun input fs =>
    let query := TrimSpace input in
    (Ok ("Mock search results for '" +:+ query
         +:+ "': [Result 1, Result 2, Result 3]"), fs);
  GetName := "web_search";
  GetDescription := "Search the web for information"
|}.

(** [FileSearchTool]: the walk stops at the first visit that fails. *)
Fixpoint matchedFiles (searchTerm : string)
    (visits : list (string * (os_error + string))) : os_error + list string :=
  match visits with
  | [] => inr []
  | (_, inl e) :: _ => inl e
  | (path, inr name) :: rest =>
      match matchedFiles searchTerm rest with
      | inl e => inl e
      | inr found =>
          if Contains (ToLower name) (ToLower searchTerm)
          then inr (path :: found) else inr found
      end
  end.

Definition FileSearchTool (RootDir : string) : Tool := {|
  Execute := fun input fs =>
    let searchTerm := TrimSpace input in
    match matchedFiles searchTerm (Walk fs RootDir) with
    | inl e => (Err (ErrOs e), fs)
    | inr [] => (Ok ("No files matching '" +:+ searchTerm +:+ "' found"), fs)
    | inr files =>
        (Ok (fold_left (fun result file => result +:+ "- " +:+ file +:+ nl) files
               ("Files matching '" +:+ searchTerm +:+ "':" +:+ nl)), fs)
    end;
  GetName := "file_search";
  GetDescription := "Search for files by name in the filesystem"
|}.

(** [FileReadTool]. *)
Definition FileReadTool : Tool := {|
  Execute := fun input fs =>
    let filePath := TrimSpace input in
    match Stat fs filePath with
    | inl (ErrNotExist _ _) => (Err (ErrFileNotFound filePath), fs)
    | _ =>
        match ReadFile fs filePath with
        | inl e => (Err (ErrOs e), fs)
        | inr data => (Ok data, fs)
        end
    end;
  GetName := "file_read";
  GetDescription := "Read the contents of a file at the specified path"
|}.

(** [FileEditTool]. *)
Definition FileEditTool : Tool := {|
  Execute := fun input fs =>
    match UnmarshalRequest input with
    | inl detail => (Err (ErrInvalidJSON detail input), fs)
    | inr request => ExecuteRequest request fs
    end;
  GetName := "file_edit";
  GetDescription :=
    "Edit a file - can replace entire file, replace specific lines, or append content (input is JSON)"
|}.

End Library.

End Tools.

(** ** Package [llm] *)

Module LLM.
Import GoLib.

(** [llm.Message]. *)
Record Message := mkMessage { Role : string; Content : string }.

(** [llm.Client]. *)
Record Client := mkClient { apiKey : string; endpoint : string }.

(** [NewClient], from the environment as [godotenv.Load] leaves it. *)
Definition NewClient (Getenv : string -> string) : Client :=
  let apiKey := Getenv "ANTHROPIC_API_KEY" in
  let endpoint := Getenv "ANTHROPIC_ENDPOINT" in
  let endpoint :=
    if String.eqb endpoint "" then "https://api.anthropic.com/v1/messages"
    else endpoint in
  {| apiKey := apiKey; endpoint := endpoint |}.

(** An element of [apiMessages]: a map with the keys [role] and [content]. *)
Record ApiMessage := mkApiMessage { role : string; content : string }.

(** The request payload: the map [payload] of [Query].  The key [system]
    is present only when [systemPrompt] is not empty. *)
Record Payload := mkPayload {
  model : string;
  max_tokens : Z;
  messages : list ApiMessage;
  system : option string
}.

(** One iteration of the loop of [Query] over the transcript, on the pair
    of [systemPrompt] and [apiMessages]. *)
Definition extractStep (st : string * list ApiMessage) (msg : Message)
  : string * list ApiMessage :=
  let '(systemPrompt, apiMessages) := st in
  if String.eqb (Role msg) "system" then (Content msg, apiMessages)
  else if String.eqb (Role msg) "user" || String.eqb (Role msg) "assistant" then
    (systemPrompt, apiMessages ++ [mkApiMessage (Role msg) (Content msg)])
  else if String.eqb (Role msg) "tool" then
    (systemPrompt,
     apiMessages ++ [mkApiMessage "user" ("[Tool Output] " +:+ Content msg)])
  else (systemPrompt, apiMessages).

Definition extract (msgs : list Message) : string * list ApiMessage :=
  fold_left extractStep msgs ("", []).

Definition buildPayload (msgs : list Message) : Payload :=
  let '(systemPrompt, apiMessages) := extract msgs in
  {| model := "claude-3-5-sonnet-20241022";
     max_tokens := 1024;
     messages := apiMessages;
     system := if String.eqb systemPrompt "" then None else Some systemPrompt |}.

(** The HTTP request handed to [client.Do]; its body is the JSON encoding
    of the payload. *)
Record Request := mkRequest {
  url : string;
  headers : list (string * string);
  body : Payload
}.

(** A block of the response's [content] list. *)
Record ContentBlock := mkBlock { Type_ : string; Text : string }.

(** What [client.Do] gives back: a transport error, or a response with its
    status code and its body under the two decodings [Query] applies: as a
    generic map printed with [%v] (for a status other than 200) and as the
    result structure (for 200); [inl] and [None] are decoding failures. *)
Inductive HttpOutcome :=
| SendFailed (detail : string)
| Response (StatusCode : Z) (asMap : option string)
           (asResult : string + list ContentBlock).

(** [responseText]: the texts of the blocks of type [text], in order. *)
Definition combineText (blocks : list ContentBlock) : string :=
  fold_left
    (fun responseText b =>
       if String.eqb (Type_ b) "text" then responseText +:+ Text b
       else responseText)
    blocks "".

(** The element [messages[len(messages)-1]]; indexing an empty slice
    panics. *)
Definition lastMessage (msgs : list Message) : result Message :=
  match last msgs with
  | Some m => Ok m
  | None => Panic "index out of range [-1]"
  end.

Section Network.

(** The network: a state [Net] and the round trip [Do] made by
    [client.Do]; [NewRequestOk] tells whether [http.NewRequest] accepts
    the endpoint. *)
Variable Net : Type.
Variable Do : Request -> Net -> HttpOutcome * Net.
Variable NewRequestOk : string -> bool.

(** The gateway seen from its caller: the network, and the log of the
    transcripts [Query] was called with, one entry per call. *)
Record Gateway := mkGateway { net : Net; queries : list (list Message) }.

(** The request [Query] builds for a payload. *)
Definition newRequest (c : Client) (payload : Payload) : Request :=
  {| url := endpoint c;
     headers := [("Content-Type", "application/json");
                 ("X-API-Key", apiKey c);
                 ("anthropic-version", "2023-06-01");
                 ("Authorization", "Bearer " +:+ apiKey c)];
     body := payload |}.

(** What [Query] returns for the outcome of the round trip. *)
Definition readResponse (resp : HttpOutcome) : result string :=
  match resp with
  | SendFailed detail => Err (ErrSendRequest detail)
  | Response StatusCode asMap asResult =>
      if negb (StatusCode =? 200) then Err (ErrAPIStatus StatusCode asMap)
      else
        match asResult with
        | inl detail => Err (ErrDecodeResponse detail)
        | inr [] => Err ErrNoResponse
        | inr blocks =>
            let responseText := combineText blocks in
            if String.eqb responseText "" then Err ErrNoTextContent
            else Ok responseText
        end
  end.

(** [Client.Query].  The marshalling of the payload, a map of strings,
    numbers and a slice of string maps, has no error case. *)
Definition Query (c : Client) (msgs : list Message) (g : Gateway)
  : result string * Gateway :=
  let g := {| net := net g; queries := queries g ++ [msgs] |} in
  if String.eqb (apiKey c) "" then
    match lastMessage msgs with
    | Ok m => (Ok ("Mock Claude response to: " +:+ Content m), g)
    | Err e => (Err e, g)
    | Panic p => (Panic p, g)
    end
  else
    let payload := buildPayload msgs in
    if negb (NewRequestOk (endpoint c)) then
      (Err (ErrCreateRequest (endpoint c)), g)
    else
      let '(resp, n) := Do (newRequest c payload) (net g) in
      (readResponse resp, {| net := n; queries := queries g |}).

End Network.

Arguments mkGateway {Net} net queries.
Arguments net {Net} g.
Arguments queries {Net} g.

End LLM.

(** ** [unicode/utf8] and the strings of [encoding/json]

    Go's standard library is not part of the repository.  This module states
    the behaviour of the functions [SaveContext] and [loadContext] rely on
    for a JSON string: [utf8.DecodeRuneInString], [utf8.EncodeRune], the
    string encoder of [json.Marshal] (with HTML escaping, its default) and
    the string decoder of [json.Unmarshal]. *)

Module JSON.
Import GoLib.

Definition byte (c : ascii) : Z := Z.of_N (N_of_ascii c).
Definition chr (b : Z) : ascii := ascii_of_N (Z.to_N b).

Definition quote : ascii := "034"%char.
Definition backslash : ascii := "092"%char.

Definition RuneError : Z := 0xFFFD.

(** A continuation byte. *)
Definition cont (b : Z) : bool := (0x80 <=? b) && (b <=? 0xBF).

Definition between (lo b hi : Z) : bool := (lo <=? b) && (b <=? hi).

(** [utf8.DecodeRuneInString]: the first rune of [s] and its width in
    bytes.  An encoding that is cut short, too long for its rune, of a
    surrogate half or above U+10FFFF gives [(RuneError, 1)]. *)
Definition DecodeRune (s : string) : Z * nat :=
  match s with
  | "" => (RuneError, 0%nat)
  | String c0 s1 =>
      let b0 := byte c0 in
      if b0 <? 0x80 then (b0, 1%nat)
      else if between 0xC2 b0 0xDF then
        match s1 with
        | String c1 _ =>
            let b1 := byte c1 in
            if cont b1 then ((b0 - 0xC0) * 64 + (b1 - 0x80), 2%nat)
            else (RuneError, 1%nat)
        | _ => (RuneError, 1%nat)
        end
      else if between 0xE0 b0 0xEF then
        match s1 with
        | String c1 (String c2 _) =>
            let b1 := byte c1 in
            let b2 := byte c2 in
            let lo := if b0 =? 0xE0 then 0xA0 else 0x80 in
            let hi := if b0 =? 0xED then 0x9F else 0xBF in
            if between lo b1 hi && cont b2
            then ((b0 - 0xE0) * 4096 + (b1 - 0x80) * 64 + (b2 - 0x80), 3%nat)
            else (RuneError, 1%nat)
        | _ => (RuneError, 1%nat)
        end
      else if between 0xF0 b0 0xF4 then
        match s1 with
        | String c1 (String c2 (String c3 _)) =>
            let b1 := byte c1 in
            let b2 := byte c2 in
            let b3 := byte c3 in
            let lo := if b0 =? 0xF0 then 0x90 else 0x80 in
            let hi := if b0 =? 0xF4 then 0x8F else 0xBF in
            if between lo b1 hi && cont b2 && cont b3
            then ((b0 - 0xF0) * 262144 + (b1 - 0x80) * 4096
                  + (b2 - 0x80) * 64 + (b3 - 0x80), 4%nat)
            else (RuneError, 1%nat)
        | _ => (RuneError, 1%nat)
        end
      else (RuneError, 1%nat)
  end.

(** The first byte of [s] starts no well-formed encoding. *)
Definition invalidAt (s : string) : bool :=
  let '(r, size) := DecodeRune s in (r =? RuneError) && (size =? 1)%nat.

(** [utf8.ValidString]. *)
Fixpoint valid_go (fuel : nat) (s : string) : bool :=
  match fuel with
  | O => String.eqb s ""
  | S fuel' =>
      match s with
      | "" => true
      | _ => negb (invalidAt s) && valid_go fuel' (drop_bytes (snd (DecodeRune s)) s)
      end
  end.

Definition ValidString (s : string) : bool := valid_go (String.length s) s.

Definition isSurrogate (r : Z) : bool := between 0xD800 r 0xDFFF.

(** [utf8.EncodeRune]; a value that is no Unicode scalar is written as
    U+FFFD. *)
Definition EncodeRune (r : Z) : string :=
  let r := if (r <? 0) || (0x10FFFF <? r) || isSurrogate r then RuneError else r in
  if r <=? 0x7F then String (chr r) ""
  else if r <=? 0x7FF then
    String (chr (0xC0 + r / 64)) (String (chr (0x80 + r mod 64)) "")
  else if r <=? 0xFFFF then
    String (chr (0xE0 + r / 4096))
      (String (chr (0x80 + (r / 64) mod 64)) (String (chr (0x80 + r mod 64)) ""))
  else
    String (chr (0xF0 + r / 262144))
      (String (chr (0x80 + (r / 4096) mod 64))
         (String (chr (0x80 + (r / 64) mod 64)) (String (chr (0x80 + r mod 64)) ""))).

(** *** Encoding a string *)

Definition hex (n : Z) : ascii :=
  if n <? 10 then chr (48 + n) else chr (87 + n).

(** [htmlSafeSet]: the ASCII bytes written as they are. *)
Definition htmlSafe (b : Z) : bool :=
  between 0x20 b 0x7F &&
  negb ((b =? 34) || (b =? 38) || (b =? 60) || (b =? 62) || (b =? 92)).

(** The escape of an ASCII byte outside [htmlSafeSet]. *)
Definition escapeByte (c : ascii) : string :=
  let b := byte c in
  if (b =? 92) || (b =? 34) then String backslash (String c "")
  else if b =? 8 then String backslash "b"
  else if b =? 12 then String backslash "f"
  else if b =? 10 then String backslash "n"
  else if b =? 13 then String backslash "r"
  else if b =? 9 then String backslash "t"
  else String backslash (String "u" (String "0" (String "0"
         (String (hex (b / 16)) (String (hex (b mod 16)) ""))))).

(** The loop of [appendString] between the two quotes. *)
Fixpoint appendString_go (fuel : nat) (src : string) : string :=
  match fuel with
  | O => ""
  | S fuel' =>
      match src with
      | "" => ""
      | String c rest =>
          if byte c <? 0x80 then
            (if htmlSafe (byte c) then String c "" else escapeByte c)
            +:+ appendString_go fuel' rest
          else
            let '(r, size) := DecodeRune src in
            if (r =? RuneError) && (size =? 1)%nat then
              String backslash "ufffd" +:+ appendString_go fuel' rest
            else if (r =? 0x2028) || (r =? 0x2029) then
              String backslash (String "u" (String "2" (String "0" (String "2"
                (String (hex (r mod 16)) "")))))
              +:+ appendString_go fuel' (drop_bytes size src)
            else
              take_bytes size src +:+ appendString_go fuel' (drop_bytes size src)
      end
  end.

Definition encodeString (s : string) : string :=
  String quote (appendString_go (String.length s) s +:+ String quote "").

(** *** Decoding a string *)

Definition hexval (c : ascii) : option Z :=
  let b := byte c in
  if between 48 b 57 then Some (b - 48)
  else if between 97 b 102 then Some (b - 87)
  else if between 65 b 70 then Some (b - 55)
  else None.

(** Four hexadecimal digits: their value and what follows them. *)
Definition hex4 (s : string) : option (Z * string) :=
  match s with
  | String c1 (String c2 (String c3 (String c4 rest))) =>
      match hexval c1, hexval c2, hexval c3, hexval c4 with
      | Some h1, Some h2, Some h3, Some h4 =>
          Some (h1 * 4096 + h2 * 256 + h3 * 16 + h4, rest)
      | _, _, _, _ => None
      end
  | _ => None
  end.

(** [getu4]: the value of [\uXXXX] at the head of [s]. *)
Definition getu4 (s : string) : option (Z * string) :=
  match s with
  | String c (String u rest) =>
      if Ascii.eqb c backslash && Ascii.eqb u "u" then hex4 rest else None
  | _ => None
  end.

(** The escapes of one character. *)
Definition unescape (e : ascii) : option ascii :=
  let b := byte e in
  if (b =? 34) || (b =? 92) || (b =? 47) then Some e
  else if b =? 98 then Some (chr 8)
  else if b =? 102 then Some (chr 12)
  else if b =? 110 then Some (chr 10)
  else if b =? 114 then Some (chr 13)
  else if b =? 116 then Some (chr 9)
  else None.

Definition prepend (p : string) (r : option (string * string))
  : option (string * string) :=
  match r with
  | Some (s, rest) => Some (p +:+ s, rest)
  | None => None
  end.

(** The string literal that follows an opening quote: its value and the
    input after its closing quote.  [None] is a syntax error: a control
    character, an unknown escape, or no closing quote.  Ill-formed UTF-8
    and lone surrogate escapes are read as U+FFFD. *)
Fixpoint unquote_go (fuel : nat) (s : string) : option (string * string) :=
  match fuel with
  | O => None
  | S fuel' =>
      match s with
      | "" => None
      | String c rest =>
          let b := byte c in
          if b =? 34 then Some ("", rest)
          else if b =? 92 then
            match rest with
            | "" => None
            | String e rest' =>
                match unescape e with
                | Some d => prepend (String d "") (unquote_go fuel' rest')
                | None =>
                    if Ascii.eqb e "u" then
                      match hex4 rest' with
                      | None => None
                      | Some (rr, rest'') =>
                          if isSurrogate rr then
                            match getu4 rest'' with
                            | Some (rr1, rest3) =>
                                if between 0xD800 rr 0xDBFF && between 0xDC00 rr1 0xDFFF
                                then prepend
                                       (EncodeRune ((rr - 0xD800) * 1024 + (rr1 - 0xDC00) + 0x10000))
                                       (unquote_go fuel' rest3)
                                else prepend (EncodeRune RuneError) (unquote_go fuel' rest'')
                            | None => prepend (EncodeRune RuneError) (unquote_go fuel' rest'')
                            end
                          else prepend (EncodeRune rr) (unquote_go fuel' rest'')
                      end
                    else None
                end
            end
          else if b <? 0x20 then None
          else if b <? 0x80 then prepend (String c "") (unquote_go fuel' rest)
          else
            let '(rr, size) := DecodeRune s in
            prepend (EncodeRune rr) (unquote_go fuel' (drop_bytes size s))
      end
  end.

(** JSON white space. *)
Definition isSpace (c : ascii) : bool :=
  let b := byte c in (b =? 32) || (b =? 9) || (b =? 13) || (b =? 10).

Fixpoint skipSpace (s : string) : string :=
  match s with
  | String c rest => if isSpace c then skipSpace rest else s
  | "" => ""
  end.

End JSON.

(** ** Package [agent] *)

Module Agent.
Import GoLib.

(** [agent.Message]. *)
Record Message := mkMessage { Role : string; Content : string }.

(** *** The persisted conversation

    [json.MarshalIndent(a.context, "", "  ")] on a slice of messages, and
    [json.Unmarshal(data, &a.context)].  The decoder below reads the
    documents made of an array (or [null]) of objects (or [null]) whose
    members have string or [null] values, which is what [SaveContext]
    writes; a document outside this fragment is answered by an error
    here, whatever Go makes of it. *)

Definition q : string := String JSON.quote "".

Definition encodeMessage (m : Message) : string :=
  "{" +:+ nl +:+ "    " +:+ q +:+ "role" +:+ q +:+ ": " +:+ JSON.encodeString (Role m)
  +:+ "," +:+ nl +:+ "    " +:+ q +:+ "content" +:+ q +:+ ": "
  +:+ JSON.encodeString (Content m) +:+ nl +:+ "  }".

Fixpoint encodeElements (ms : list Message) : string :=
  match ms with
  | [] => ""
  | [m] => encodeMessage m
  | m :: rest => encodeMessage m +:+ "," +:+ nl +:+ "  " +:+ encodeElements rest
  end.

(** An empty slice is written [[]].  (A nil slice, which the decoding of
    [null] leaves, Go writes [null]; a list does not tell the two
    apart.) *)
Definition MarshalIndent (ms : list Message) : string :=
  match ms with
  | [] => "[]"
  | _ => "[" +:+ nl +:+ "  " +:+ encodeElements ms +:+ nl +:+ "]"
  end.

(** The value of a member: a string literal or [null]. *)
Definition parseStringOrNull (s : string) : option (option string * string) :=
  match s with
  | String c rest =>
      if Ascii.eqb c JSON.quote then
        match JSON.unquote_go (String.length rest) rest with
        | Some (v, rest') => Some (Some v, rest')
        | None => None
        end
      else if HasPrefix s "null" then Some (None, drop_bytes 4 s)
      else None
  | "" => None
  end.

(** A key names a field when it equals the field's tag up to case; a
    [null] value and an unknown key leave the message as it is. *)
Definition setField (m : Message) (key : string) (v : option string) : Message :=
  match v with
  | None => m
  | Some v =>
      if String.eqb (lower_bytes key) "role" then {| Role := v; Content := Content m |}
      else if String.eqb (lower_bytes key) "content" then {| Role := Role m; Content := v |}
      else m
  end.

(** The members of an object, from the quote that opens the first key to
    the closing brace. *)
Fixpoint parseMembers (fuel : nat) (m : Message) (s : string)
  : option (Message * string) :=
  match fuel with
  | O => None
  | S fuel' =>
      match s with
      | String c rest =>
          if Ascii.eqb c JSON.quote then
            match JSON.unquote_go (String.length rest) rest with
            | None => None
            | Some (key, s1) =>
                match JSON.skipSpace s1 with
                | String ":" s2 =>
                    match parseStringOrNull (JSON.skipSpace s2) with
                    | None => None
                    | Some (v, s3) =>
                        let m' := setField m key v in
                        match JSON.skipSpace s3 with
                        | String "," s4 => parseMembers fuel' m' (JSON.skipSpace s4)
                        | String "}" s4 => Some (m', s4)
                        | _ => None
                        end
                    end
                | _ => None
                end
            end
          else None
      | "" => None
      end
  end.

(** An element of the array, decoded into [init]: the element the slice
    already holds at this index, or the zero message. *)
Definition parseElement (fuel : nat) (init : Message) (s : string)
  : option (Message * string) :=
  match s with
  | String "{" rest =>
      match JSON.skipSpace rest with
      | String "}" rest' => Some (init, rest')
      | s' => parseMembers fuel init s'
      end
  | _ => if HasPrefix s "null" then Some (init, drop_bytes 4 s) else None
  end.

Definition zeroMessage : Message := {| Role := ""; Content := "" |}.

(** The elements of a non-empty array, up to its closing bracket. *)
Fixpoint parseElements (fuel : nat) (old : list Message) (s : string)
  : option (list Message * string) :=
  match fuel with
  | O => None
  | S fuel' =>
      match parseElement (String.length s) (hd zeroMessage old) s with
      | None => None
      | Some (m, s1) =>
          match JSON.skipSpace s1 with
          | String "," s2 =>
              match parseElements fuel' (tl old) (JSON.skipSpace s2) with
              | Some (ms, rest) => Some (m :: ms, rest)
              | None => None
              end
          | String "]" s2 => Some ([m], s2)
          | _ => None
          end
      end
  end.

(** [json.Unmarshal(data, &old)]: the new value of the slice, or the text
    of the error. *)
Definition Unmarshal (data : string) (old : list Message) : string + list Message :=
  let trailing rest (ms : list Message) :=
    if String.eqb (JSON.skipSpace rest) "" then inr ms
    else inl "invalid character after top-level value" in
  match JSON.skipSpace data with
  | String "[" rest =>
      match JSON.skipSpace rest with
      | String "]" rest' => trailing rest' []
      | s =>
          match parseElements (String.length s) old s with
          | Some (ms, rest') => trailing rest' ms
          | None => inl "cannot unmarshal into []agent.Message"
          end
      end
  | s =>
      if HasPrefix s "null" then trailing (drop_bytes 4 s) []
      else inl "cannot unmarshal into []agent.Message"
  end.

(** *** The agent *)

(** [Agent]. *)
Record Agent := mkAgent {
  context : list Message;
  contextFile : string;
  llmClient : LLM.Client;
  toolRegistry : gmap string Tools.Tool
}.

Definition setContext (a : Agent) (ms : list Message) : Agent :=
  {| context := ms; contextFile := contextFile a;
     llmClient := llmClient a; toolRegistry := toolRegistry a |}.

(** [convertToLLMMessages]. *)
Definition convertToLLMMessages (agentMessages : list Message) : list LLM.Message :=
  map (fun msg => {| LLM.Role := Role msg; LLM.Content := Content msg |}) agentMessages.

(** A [for ... range] over a Go map visits the keys in an order the
    language leaves open and that may change from one loop to the next.
    The loops below take that order as the list of the keys they visit;
    [rangeOrder] says that a list is such an order. *)
Definition rangeOrder {V} (m : gmap string V) (order : list string) : Prop :=
  NoDup order /\ forall k, k ∈ order <-> is_Some (m !! k).

(** [loadContext]. *)
Definition loadContext (a : Agent) (fs : FS) : option error * Agent :=
  match ReadFile fs (contextFile a) with
  | inl e => (Some (ErrOs e), a)
  | inr data =>
      match Unmarshal data (context a) with
      | inl detail => (Some (ErrUnmarshal detail), a)
      | inr ms => (None, setContext a ms)
      end
  end.

(** [SaveContext]. *)
Definition SaveContext (a : Agent) (fs : FS) : option error * FS :=
  let data := MarshalIndent (context a) in
  match WriteFile fs (contextFile a) data 420 (* 0644 *) with
  | (Some e, fs') => (Some (ErrOs e), fs')
  | (None, fs') => (None, fs')
  end.

(** The state outside the agent: the file system and the gateway. *)
Record World {Net : Type} := mkWorld { fs : FS; gateway : LLM.Gateway Net }.
Arguments World : clear implicits.

Section Agent.

Variable TrimSpace : string -> string.
Variable MapToLower : string -> string.
Variable Walk : FS -> string -> list (string * (os_error + string)).
Variable UnmarshalRequest : string -> string + Tools.FileEditRequest.
Variable Net : Type.
Variable Do : LLM.Request -> Net -> LLM.HttpOutcome * Net.
Variable NewRequestOk : string -> bool.

Let ToLower := Tools.ToLower MapToLower.
Let Query := LLM.Query Net Do NewRequestOk.

(** The registry [NewAgent] builds. *)
Definition newRegistry : gmap string Tools.Tool :=
  let webSearchTool := Tools.WebSearchTool TrimSpace in
  let fileSearchTool := Tools.FileSearchTool TrimSpace MapToLower Walk "." in
  let fileReadTool := Tools.FileReadTool TrimSpace in
  let fileEditTool := Tools.FileEditTool UnmarshalRequest in
  <[Tools.GetName fileEditTool := fileEditTool]>
    (<[Tools.GetName fileReadTool := fileReadTool]>
       (<[Tools.GetName fileSearchTool := fileSearchTool]>
          (<[Tools.GetName webSearchTool := webSearchTool]> ∅))).

(** The system message of [NewAgent]; [order] is the order of its loop
    over the registry. *)
Definition systemMessage (registry : gmap string Tools.Tool) (order : list string)
  : string :=
  let listing :=
    fold_left
      (fun msg name =>
         match registry !! name with
         | Some tool =>
             msg +:+ "- " +:+ Tools.GetName tool +:+ ": "
             +:+ Tools.GetDescription tool +:+ nl
         | None => msg
         end)
      order
      ("You are a helpful AI assistant powered by Claude. You have access to these tools:"
       +:+ nl +:+ nl) in
  listing
  +:+ nl +:+ "To use a tool, simply mention its name and what you want to do with it. For example: 'I need to use the web_search tool to find information about...' or 'I'll use file_search to look for...'."
  +:+ nl +:+ nl +:+ "To use the file_edit tool, include a JSON object with the following structure:"
  +:+ nl +:+ "```json"
  +:+ nl +:+ "{"
  +:+ nl +:+ "  " +:+ q +:+ "file_path" +:+ q +:+ ": " +:+ q +:+ "path/to/file.txt" +:+ q
  +:+ ", // Required: Path to the file to edit"
  +:+ nl +:+ "  " +:+ q +:+ "operation" +:+ q +:+ ": " +:+ q +:+ "replace" +:+ q
  +:+ ", // Required: Either 'replace' or 'append'"
  +:+ nl +:+ "  " +:+ q +:+ "content" +:+ q +:+ ": " +:+ q +:+ "new content" +:+ q
  +:+ ", // Required: The content to write"
  +:+ nl +:+ "  " +:+ q +:+ "start_line" +:+ q
  +:+ ": 1, // Optional: Line number to start replacing (only for replace)"
  +:+ nl +:+ "  " +:+ q +:+ "end_line" +:+ q
  +:+ ": 5 // Optional: Line number to end replacing (only for replace)"
  +:+ nl +:+ "}"
  +:+ nl +:+ "```"
  +:+ nl +:+ "For example: 'I'll use the file_edit tool to update the README.md file: {"
  +:+ q +:+ "file_path" +:+ q +:+ ": " +:+ q +:+ "README.md" +:+ q +:+ ", "
  +:+ q +:+ "operation" +:+ q +:+ ": " +:+ q +:+ "replace" +:+ q +:+ ", "
  +:+ q +:+ "content" +:+ q +:+ ": " +:+ q +:+ "# Updated README" +:+ q +:+ "}'.".

(** [NewAgent]: a missing context file is not an error. *)
Definition NewAgent (contextFile : string) (Getenv : string -> string)
    (order : list string) (fs : FS) : result Agent :=
  let llmClient := LLM.NewClient Getenv in
  let toolRegistry := newRegistry in
  let ag := {| context := [mkMessage "system" (systemMessage toolRegistry order)];
               contextFile := contextFile;
               llmClient := llmClient;
               toolRegistry := toolRegistry |} in
  match loadContext ag fs with
  | (Some (ErrOs e), ag') => if IsNotExist e then Ok ag' else Err (ErrOs e)
  | (Some e, _) => Err e
  | (None, ag') => Ok ag'
  end.

(** The loop shared by [shouldUseTool] and [detectToolName]: the first
    tool name visited whose lower case occurs in the lower case of
    [input]. *)
Fixpoint firstMentioned (input : string) (order : list string) : option string :=
  match order with
  | [] => None
  | toolName :: rest =>
      if Contains (ToLower input) (ToLower toolName) then Some toolName
      else firstMentioned input rest
  end.

(** [shouldUseTool]. *)
Definition shouldUseTool (order : list string) (input : string) : bool :=
  match firstMentioned input order with
  | Some _ => true
  | None => Contains (ToLower input) "use the" && Contains (ToLower input) "tool"
  end.

(** [detectToolName]. *)
Definition detectToolName (order : list string) (input : string) : string :=
  match firstMentioned input order with
  | Some toolName => toolName
  | None => "web_search"
  end.

Definition phrases : list string :=
  ["tool"; "to"; "with"; "for"; "using"; "use"; "the"; ":"].

(** [extractToolInput]. *)
Definition extractToolInput (toolName input : string) : result string :=
  if String.eqb toolName "file_edit" then
    let jsonStart := Index input "{" in
    let jsonEnd := LastIndex input "}" in
    if negb (jsonStart =? -1) && negb (jsonEnd =? -1) && (jsonStart <? jsonEnd) then
      str_slice input jsonStart (jsonEnd + 1)
    else
      Ok ("{" +:+ q +:+ "error" +:+ q +:+ ": " +:+ q
          +:+ "Could not extract valid JSON from input. Please provide a valid JSON object with file_path, operation, and content fields."
          +:+ q +:+ "}")
  else
    let toolNameIndex := Index (ToLower input) (ToLower toolName) in
    if toolNameIndex =? -1 then Ok input
    else
      match str_slice input (toolNameIndex + len toolName) (len input) with
      | Ok afterToolName =>
          Ok (TrimSpace (fold_left RemoveAll phrases afterToolName))
      | other => other
      end.

(** [executeTool]. *)
Definition executeTool (a : Agent) (toolName input : string) (fs : FS)
  : result string * FS :=
  match toolRegistry a !! toolName with
  | None => (Err (ErrToolNotFound toolName), fs)
  | Some tool =>
      match extractToolInput toolName input with
      | Ok toolInput => Tools.Execute tool toolInput fs
      | Err e => (Err e, fs)
      | Panic p => (Panic p, fs)
      end
  end.

Definition appendMessage (a : Agent) (m : Message) : Agent :=
  setContext a (context a ++ [m]).

(** [Process].  [order1] and [order2] are the orders in which the loops of
    [shouldUseTool] and [detectToolName] visit the registry. *)
Definition Process (a : Agent) (input : string) (order1 order2 : list string)
    (w : World Net) : result string * Agent * World Net :=
  let a := appendMessage a (mkMessage "user" input) in
  let llmMessages := convertToLLMMessages (context a) in
  let '(r, g) := Query (llmClient a) llmMessages (gateway w) in
  let w := {| fs := fs w; gateway := g |} in
  match r with
  | Err e => (Err e, a, w)
  | Panic p => (Panic p, a, w)
  | Ok llmResponse =>
      if shouldUseTool order1 llmResponse then
        let toolName := detectToolName order2 llmResponse in
        let a := appendMessage a (mkMessage "assistant" llmResponse) in
        let '(tr, fs') := executeTool a toolName llmResponse (fs w) in
        let w := {| fs := fs'; gateway := gateway w |} in
        match tr with
        | Err e => (Err (ErrToolExecution e), a, w)
        | Panic p => (Panic p, a, w)
        | Ok toolResponse =>
            let toolRoleMessage :=
              "Tool '" +:+ toolName +:+ "' returned: " +:+ toolResponse in
            let a := appendMessage a (mkMessage "tool" toolRoleMessage) in
            let llmMessages := convertToLLMMessages (context a) in
            let '(r2, g2) := Query (llmClient a) llmMessages (gateway w) in
            let w := {| fs := fs w; gateway := g2 |} in
            match r2 with
            | Err e => (Err e, a, w)
            | Panic p => (Panic p, a, w)
            | Ok finalResponse =>
                let a := appendMessage a (mkMessage "assistant" finalResponse) in
                (Ok finalResponse, a, w)
            end
        end
      else
        let a := appendMessage a (mkMessage "assistant" llmResponse) in
        (Ok llmResponse, a, w)
  end.

End Agent.

End Agent.

(** ** The specification's words

    Definitions that follow the text of the specification, to be compared
    with the ones above, which follow the code. *)

Module Stated.
Import GoLib Tools.

(** The content a replace request leaves in the file as the specification
    words it: the request's content when both line numbers are zero, and
    otherwise lines [1..start_line-1], the lines of the request's content,
    then lines [end_line+1..lineCount], joined by newlines. *)
Definition statedReplace (request : FileEditRequest) (currentContent : string)
  : string :=
  if (StartLine request =? 0) && (EndLine request =? 0) then Content request
  else
    let lines := SplitLines currentContent in
    Join (take (Z.to_nat (StartLine request - 1)) lines
          ++ SplitLines (Content request)
          ++ drop (Z.to_nat (EndLine request)) lines) nl.

(** The request with [end_line] read as [lineCount] when it is below
    [start_line] or above [lineCount]. *)
Definition clampEndLine (request : FileEditRequest) (lineCount : Z)
  : FileEditRequest :=
  if (EndLine request <? StartLine request) || (lineCount <? EndLine request)
  then {| FilePath := FilePath request; Operation := Operation request;
          Content := Content request; StartLine := StartLine request;
          EndLine := lineCount |}
  else request.

(** The request with [end_line] set to a given line. *)
Definition setEndLine (request : FileEditRequest) (endLine : Z) : FileEditRequest :=
  {| FilePath := FilePath request; Operation := Operation request;
     Content := Content request; StartLine := StartLine request;
     EndLine := endLine |}.

(** The number of lines of a content. *)
Definition lineCount (currentContent : string) : Z :=
  Z.of_nat (length (SplitLines currentContent)).

(** [sub] is a substring of [s]. *)
Definition occursIn (sub s : string) : Prop :=
  exists before after, s = before +:+ sub +:+ after.




(** The names under which [NewAgent] registers its tools. *)
Definition registeredNames : list string :=
  ["web_search"; "file_search"; "file_read"; "file_edit"].

(** A message whose role and content are well-formed UTF-8. *)
Definition validMessage (m : Agent.Message) : bool :=
  JSON.ValidString (Agent.Role m) && JSON.ValidString (Agent.Content m).

End Stated.

(** ** Sample inputs

    The inputs at which the theorems below are instantiated. *)

Module Samples.
Import GoLib Tools Agent Stated.

(** A file of three lines. *)
Definition abc : string := "A" +:+ nl +:+ "B" +:+ nl +:+ "C".
Definition fs_abc : FS := <["notes.txt" := File abc 420]> ∅.




(** An agent whose library functions are the identity, for which no file
    is found by a walk and no payload is decoded, with the network down
    and no API key in the environment: the gateway is in placeholder
    mode. *)
Definition noWalk (fs : FS) (root : string) : list (string * (os_error + string)) := [].
Definition noDecode (input : string) : string + FileEditRequest :=
  inl "unexpected end of JSON input".
Definition offline (req : LLM.Request) (n : unit) : LLM.HttpOutcome * unit :=
  (LLM.SendFailed "offline", n).
Definition noEnv (name : string) : string := "".

Definition registry0 : gmap string Tool := Agent.newRegistry id id noWalk noDecode.

Definition agent0 : Agent :=
  {| context := [mkMessage "system" (Agent.systemMessage registry0 registeredNames)];
     contextFile := "conversation.json";
     llmClient := LLM.NewClient noEnv;
     toolRegistry := registry0 |}.

Definition world0 : World unit := {| fs := ∅; gateway := LLM.mkGateway tt [] |}.

Definition process0 (input : string) : result string * Agent * World unit :=
  Agent.Process id id unit offline (fun _ => true) agent0 input
    registeredNames registeredNames world0.

(** A first turn: [hello]. *)
Definition helloReply : string := "Mock Claude response to: hello".
Definition helloGateway : LLM.Gateway unit :=
  LLM.mkGateway tt [convertToLLMMessages (context agent0 ++ [mkMessage "user" "hello"])].

(** Another first turn: a request that names the web search. *)
Definition catsInput : string := "use web_search for cats".
Definition catsReply : string := "Mock Claude response to: use web_search for cats".
Definition catsOutput : string :=
  "Mock search results for '  cats': [Result 1, Result 2, Result 3]".
Definition catsFinal : string :=
  "Mock Claude response to: Tool 'web_search' returned: " +:+ catsOutput.
Definition catsGateway1 : LLM.Gateway unit :=
  LLM.mkGateway tt [convertToLLMMessages (context agent0 ++ [mkMessage "user" catsInput])].
Definition catsGateway2 : LLM.Gateway unit :=
  LLM.mkGateway tt
    [convertToLLMMessages (context agent0 ++ [mkMessage "user" catsInput]);
     convertToLLMMessages
       (context agent0 ++ [mkMessage "user" catsInput; mkMessage "assistant" catsReply;
                           mkMessage "tool" ("Tool 'web_search' returned: " +:+ catsOutput)])].

(** A conversation with markup, a quotation, a line break and letters
    outside ASCII. *)
Definition talk : Agent :=
  {| context := [mkMessage "system" "Be brief.";
                 mkMessage "user" ("Is a<b && b>c? " +:+ q +:+ "é" +:+ q +:+ nl);
                 mkMessage "assistant" "Oui."];
     contextFile := "conversation.json";
     llmClient := LLM.NewClient noEnv;
     toolRegistry := registry0 |}.

(** A conversation whose user message is the single byte 255, which is
    not UTF-8. *)
Definition rawByte : Agent :=
  {| context := [mkMessage "user" (String "255" "")];
     contextFile := "conversation.json";
     llmClient := LLM.NewClient noEnv;
     toolRegistry := registry0 |}.

End Samples.

(** ** Notions used by further statements *)

Module Notions.
Import GoLib Tools.

(** [s] holds a newline byte. *)
Fixpoint hasNewline (s : string) : bool :=
  match s with
  | "" => false
  | String c s' => Ascii.eqb c newline || hasNewline s'
  end.

(** [s] holds the byte [c]. *)
Fixpoint hasByte (c : ascii) (s : string) : bool :=
  match s with
  | "" => false
  | String d s' => Ascii.eqb d c || hasByte c s'
  end.

(** The line range a ranged replace rewrites ends at [effectiveEnd]. *)
Definition effectiveEnd (request : FileEditRequest) (lineCount : Z) : Z :=
  if (EndLine request <? StartLine request) || (lineCount <? EndLine request)
  then lineCount else EndLine request.

(** The operation is one the tool knows. *)
Definition knownOperation (op : string) : bool :=
  String.eqb op "replace" || String.eqb op "append".

(** The text [FileSearchTool.Execute] builds for a search term and the
    paths it matched. *)
Definition listing (term : string) (files : list string) : string :=
  match files with
  | [] => "No files matching '" +:+ term +:+ "' found"
  | _ => fold_left (fun result file => result +:+ "- " +:+ file +:+ nl) files
           ("Files matching '" +:+ term +:+ "':" +:+ nl)
  end.

(** The payload [extractToolInput] hands to the file-edit tool when it
    finds no JSON object in the reply. *)
Definition extractionError : string :=
  "{" +:+ Agent.q +:+ "error" +:+ Agent.q +:+ ": " +:+ Agent.q
  +:+ "Could not extract valid JSON from input. Please provide a valid JSON object with file_path, operation, and content fields."
  +:+ Agent.q +:+ "}".

(** The texts of the blocks of type [text], in order, one after the
    other. *)
Definition textOf (blocks : list LLM.ContentBlock) : string :=
  foldr String.app ""
    (map LLM.Text (filter (fun b => LLM.Type_ b = "text") blocks)).

End Notions.

(** ** Package [main]

    The program: it builds the agent on [conversation.json], reads lines
    until the input ends or a line says [exit], and saves the conversation
    when [main] unwinds. *)

Module Main.
Import GoLib Agent.

(** What [main] itself writes, in order.  (The line the file-edit tool
    prints and the report of the runtime on a panic are not part of it.) *)
Inductive output :=
| Stdout (text : string)
| Stderr (text : string).

(** How the process ends: [os.Exit(1)], the return of [main], or a panic
    that unwinds it. *)
Inductive exit :=
| Exit1
| Returned
| Panicked (p : string).

(** How the [for] loop is left: [scanner.Scan()] gave [false], the line
    [exit] was read, or [Process] panicked. *)
Inductive ending :=
| EndOfInput
| ExitLine
| Panicking (p : string).

Definition welcome : string :=
  "Welcome to the AI Agent (powered by Claude)! Type 'exit' to quitPo.".

Section Main.

Variable TrimSpace : string -> string.
Variable MapToLower : string -> string.
Variable Walk : FS -> string -> list (string * (os_error + string)).
Variable UnmarshalRequest : string -> string + Tools.FileEditRequest.
Variable Net : Type.
Variable Do : LLM.Request -> Net -> LLM.HttpOutcome * Net.
Variable NewRequestOk : string -> bool.

(** The orders in which the two loops over the registry run in the call of
    [Process] number [turn]. *)
Variable orders : nat -> list string * list string.

(** The state of the loop: the agent, the world, and what was written. *)
Record State := mkState {
  agent : Agent;
  world : World Net;
  out : list output
}.

Definition print (st : State) (o : output) : State :=
  {| agent := agent st; world := world st; out := out st ++ [o] |}.

(** The [for] loop.  [lines] are the texts of the lines [scanner.Scan()]
    delivers before it gives [false]; [turn] counts the calls of
    [Process]. *)
Fixpoint loop (lines : list string) (turn : nat) (st : State) : ending * State :=
  let st := print st (Stdout "> ") in
  match lines with
  | [] => (EndOfInput, st)
  | line :: rest =>
      let input := TrimSpace line in
      if String.eqb input "exit" then (ExitLine, st)
      else if String.eqb input "" then loop rest turn st
      else
        let '(r, a, w) :=
          Process TrimSpace MapToLower Net Do NewRequestOk
            (agent st) input (fst (orders turn)) (snd (orders turn)) (world st) in
        let st := {| agent := a; world := w; out := out st |} in
        match r with
        | Panic p => (Panicking p, st)
        | Err err => loop rest (S turn) (print st (Stderr ("Error: " +:+ Error err +:+ nl)))
        | Ok response => loop rest (S turn) (print st (Stdout (response +:+ nl)))
        end
  end.

(** The lines after the loop: [scanner.Err()] is looked at however the
    loop was left; a panic skips them. *)
Definition reportErr (e : ending) (scanErr : option string) (st : State) : State :=
  match e, scanErr with
  | Panicking _, _ | _, None => st
  | _, Some err => print st (Stderr ("Error reading input: " +:+ err +:+ nl))
  end.

(** The end of a run: the status of the process, the agent [main] held (if
    it got one), the world and the output. *)
Record Run := mkRun {
  status : exit;
  held : option Agent;
  after : World Net;
  written : list output
}.

(** [main].  [order0] is the order of the loop of [NewAgent] over the
    registry, [scanErr] what [scanner.Err()] returns when the loop is
    left, on the end of the input or on the line [exit] alike.  The
    deferred [SaveContext] runs when [main] returns and when a panic
    unwinds it; its error is dropped. *)
Definition main (Getenv : string -> string) (order0 : list string)
    (lines : list string) (scanErr : option string) (w : World Net) : Run :=
  match NewAgent TrimSpace MapToLower Walk UnmarshalRequest
          "conversation.json" Getenv order0 (fs w) with
  | Err err =>
      {| status := Exit1; held := None; after := w;
         written := [Stderr ("Failed to initialize agent: " +:+ Error err +:+ nl)] |}
  | Panic p => {| status := Panicked p; held := None; after := w; written := [] |}
  | Ok ag =>
      let st := {| agent := ag; world := w; out := [Stdout (welcome +:+ nl)] |} in
      let '(e, st) := loop lines 0 st in
      let st := reportErr e scanErr st in
      let '(_, fs') := SaveContext (agent st) (fs (world st)) in
      {| status := match e with Panicking p => Panicked p | _ => Returned end;
         held := Some (agent st);
         after := {| fs := fs'; gateway := gateway (world st) |};
         written := out st |}
  end.

End Main.

Arguments agent {Net} s.
Arguments world {Net} s.
Arguments out {Net} s.
Arguments print {Net} st o.
Arguments reportErr {Net} e scanErr st.
Arguments status {Net} r.
Arguments held {Net} r.
Arguments after {Net} r.
Arguments written {Net} r.

(** What the loop leaves apart from the output. *)
Definition core {Net} (r : ending * State Net) : ending * Agent * World Net :=
  (r.1, agent r.2, world r.2).

End Main.

(** ** Further sample data *)

Module Samples2.
Import GoLib Tools Agent Stated Samples.

(** A walk that visits the root and two files. *)
Definition walk3 (fs : FS) (root : string) : list (string * (os_error + string)) :=
  [(".", inr "."); ("notes.txt", inr "notes.txt"); ("src/Main.go", inr "Main.go")].

(** The same walk, failing at its second visit. *)
Definition walkDenied (fs : FS) (root : string) : list (string * (os_error + string)) :=
  [(".", inr "."); ("secret", inl (ErrOther "lstat" "secret" "permission denied"));
   ("src/Main.go", inr "Main.go")].

(** A payload for the file-edit tool, and a decoder that knows it. *)
Definition editPayload : string :=
  "{" +:+ Agent.q +:+ "file_path" +:+ Agent.q +:+ ": " +:+ Agent.q +:+ "log.txt" +:+ Agent.q
  +:+ ", " +:+ Agent.q +:+ "operation" +:+ Agent.q +:+ ": " +:+ Agent.q +:+ "append" +:+ Agent.q
  +:+ ", " +:+ Agent.q +:+ "content" +:+ Agent.q +:+ ": " +:+ Agent.q +:+ "done" +:+ Agent.q
  +:+ "}".

Definition editInput : string := "file_edit " +:+ editPayload.

Definition decodePayload (input : string) : string + FileEditRequest :=
  if String.eqb input editPayload
  then inr (Tools.mkRequest "log.txt" "append" "done" 0 0)
  else inl "invalid character".

(** The agent of [Samples] with that decoder. *)
Definition registry1 : gmap string Tool := Agent.newRegistry id id noWalk decodePayload.

Definition agent1 : Agent :=
  {| context := [mkMessage "system" (Agent.systemMessage registry1 registeredNames)];
     contextFile := "conversation.json";
     llmClient := LLM.NewClient noEnv;
     toolRegistry := registry1 |}.

Definition process1 (input : string) : result string * Agent * World unit :=
  Agent.Process id id unit offline (fun _ => true) agent1 input
    registeredNames registeredNames world0.

(** Every turn visits the registry in the same order. *)
Definition sameOrders (turn : nat) : list string * list string :=
  (registeredNames, registeredNames).

(** A session: an empty line, a request for the file-edit tool, the line
    that ends the session and a line behind it. *)
Definition session : list string := [""; editInput; "exit"; "never read"].

Definition run (lines : list string) (scanErr : option string) : Main.Run unit :=
  Main.main id id noWalk decodePayload unit offline (fun _ => true) sameOrders
    noEnv registeredNames lines scanErr world0.

(** A network that answers every request with one text block. *)
Definition answering (req : LLM.Request) (n : nat) : LLM.HttpOutcome * nat :=
  (LLM.Response 200 None (inr [LLM.mkBlock "text" "Hi"; LLM.mkBlock "image" "x";
                               LLM.mkBlock "text" " there"]), S n).

End Samples2.

(** * Verification *)

(** ** Byte strings *)

Module StringFacts.
Import GoLib.

Lemma str_app_nil_r (s : string) : s +:+ "" = s.
Proof. induction s as [|c s IH]; [done|]. unfold String.app in *. simpl. by rewrite IH. Qed.

Lemma str_app_cons (c : ascii) (s t : string) : String c s +:+ t = String c (s +:+ t).
Proof. done. Qed.

Lemma str_app_nil_l (s : string) : "" +:+ s = s.
Proof. done. Qed.

Lemma str_app_assoc (s t u : string) : (s +:+ t) +:+ u = s +:+ (t +:+ u).
Proof. induction s as [|c s IH]; [done|]. by rewrite !str_app_cons, IH. Qed.

Lemma str_length_app (s t : string) :
  String.length (s +:+ t) = (String.length s + String.length t)%nat.
Proof. induction s as [|c s IH]; [done|]. rewrite str_app_cons. simpl. by rewrite IH. Qed.

Lemma drop_bytes_app (p s : string) : drop_bytes (String.length p) (p +:+ s) = s.
Proof. induction p as [|c p IH]; [by destruct s|]. by rewrite str_app_cons. Qed.

Lemma take_bytes_app (p s : string) : take_bytes (String.length p) (p +:+ s) = p.
Proof.
  induction p as [|c p IH]; [by destruct s|].
  rewrite str_app_cons. simpl. by rewrite IH.
Qed.

Lemma take_drop_bytes (n : nat) (s : string) : take_bytes n s +:+ drop_bytes n s = s.
Proof.
  revert s. induction n as [|n IH]; intros [|c s]; try done.
  simpl. by rewrite str_app_cons, IH.
Qed.

Lemma length_take_bytes (n : nat) (s : string) :
  (n <= String.length s)%nat -> String.length (take_bytes n s) = n.
Proof.
  revert s. induction n as [|n IH]; intros [|c s] Hn; simpl in *; try done; try lia.
  rewrite IH; lia.
Qed.

Lemma eqb_eq (s t : string) : String.eqb s t = true <-> s = t.
Proof. apply String.eqb_eq. Qed.

Lemma eqb_false (s t : string) : s <> t -> String.eqb s t = false.
Proof. apply String.eqb_neq. Qed.

(** [HasSuffix s suffix] holds exactly when [s] is some prefix followed by
    [suffix]. *)
Lemma HasSuffix_spec (s suffix : string) :
  HasSuffix s suffix = true <-> exists p, s = p +:+ suffix.
Proof.
  unfold HasSuffix. rewrite andb_true_iff, Nat.leb_le, eqb_eq. split.
  - intros [Hlen Hdrop].
    exists (take_bytes (String.length s - String.length suffix) s).
    rewrite <- Hdrop at 2. by rewrite take_drop_bytes.
  - intros [p ->]. rewrite str_length_app. split; [lia|].
    replace (String.length p + String.length suffix - String.length suffix)%nat
      with (String.length p) by lia.
    apply drop_bytes_app.
Qed.

Lemma HasSuffix_false (s suffix : string) :
  HasSuffix s suffix = false <-> ~ exists p, s = p +:+ suffix.
Proof.
  rewrite <- HasSuffix_spec. by destruct (HasSuffix s suffix).
Qed.

(** [HasPrefix s prefix] holds exactly when [s] is [prefix] followed by
    something, and [Contains s substr] exactly when [substr] occurs in [s]. *)
Lemma HasPrefix_spec (s prefix : string) :
  HasPrefix s prefix = true <-> exists r, s = prefix +:+ r.
Proof.
  revert s. induction prefix as [|c prefix IH]; intros s; simpl.
  { split; [by exists s|]. by destruct s. }
  destruct s as [|d s]; simpl.
  { split; [done|]. by intros [r Hr]. }
  rewrite andb_true_iff, IH. split.
  - intros [Hc [r ->]]. apply Ascii.eqb_eq in Hc as ->. by exists r.
  - intros [r Hr]. rewrite str_app_cons in Hr. injection Hr as -> ->.
    split; [apply Ascii.eqb_refl|by exists r].
Qed.

Lemma Contains_unfold (s substr : string) :
  Contains s substr
  = HasPrefix s substr || match s with "" => false | String _ s' => Contains s' substr end.
Proof. by destruct s. Qed.

Lemma Contains_spec (s substr : string) :
  Contains s substr = true <-> exists before after, s = before +:+ substr +:+ after.
Proof.
  split.
  - induction s as [|c s IH]; rewrite Contains_unfold, orb_true_iff.
    + intros [H|H]; [|done]. apply HasPrefix_spec in H as [r Hr]. by exists "", r.
    + intros [H|H].
      * apply HasPrefix_spec in H as [r Hr]. by exists "", r.
      * destruct (IH H) as (b & a & ->). by exists (String c b), a.
  - intros (b & a & ->). induction b as [|c b IH].
    + rewrite Contains_unfold, orb_true_iff. left. apply HasPrefix_spec. by exists a.
    + rewrite str_app_cons, Contains_unfold, orb_true_iff. by right.
Qed.

(** [SplitLines] returns at least one piece, and joining the pieces with
    newlines gives the string back. *)
Lemma SplitLines_nonempty (s : string) : SplitLines s <> [].
Proof.
  induction s as [|c s IH]; simpl; [done|].
  destruct (Ascii.eqb c newline); [done|]. by destruct (SplitLines s).
Qed.

Lemma length_SplitLines (s : string) : (1 <= length (SplitLines s))%nat.
Proof. pose proof (SplitLines_nonempty s). destruct (SplitLines s); simpl; [done|lia]. Qed.

Lemma Join_cons (e : string) (rest : list string) (sep : string) :
  rest <> [] -> Join (e :: rest) sep = e +:+ sep +:+ Join rest sep.
Proof. by destruct rest. Qed.

Lemma Join_SplitLines (s : string) : Join (SplitLines s) nl = s.
Proof.
  induction s as [|c s IH]; [done|]. simpl.
  pose proof (SplitLines_nonempty s) as Hne.
  destruct (Ascii.eqb_spec c newline) as [->|Hc].
  - rewrite Join_cons by done. by rewrite IH.
  - destruct (SplitLines s) as [|l ls]; [done|].
    destruct ls as [|l' ls].
    + simpl in *. by rewrite IH.
    + rewrite Join_cons by done. rewrite Join_cons in IH by done.
      rewrite str_app_cons. by rewrite IH.
Qed.

End StringFacts.

(** ** The file-edit tool *)

Module FileEditSpec.
Import GoLib Tools Stated Samples StringFacts.


Lemma Stat_file (fs : FS) path data mode :
  fs !! path = Some (File data mode) -> Stat fs path = inr (mkFileInfo false mode).
Proof. unfold Stat. by intros ->. Qed.

Lemma ReadFile_file (fs : FS) path data mode :
  fs !! path = Some (File data mode) -> ReadFile fs path = inr data.
Proof. unfold ReadFile. by intros ->. Qed.

Lemma WriteFile_file (fs : FS) path data mode new perm :
  fs !! path = Some (File data mode) ->
  WriteFile fs path new perm = (None, <[path := File new mode]> fs).
Proof. unfold WriteFile. by intros ->. Qed.

(** On an existing regular file, [ExecuteRequest] writes what
    [editContent] computes and fails as it fails, leaving the file system
    as it was. *)
Lemma ExecuteRequest_file request (fs : FS) cur mode :
  FilePath request <> "" ->
  Operation request <> "" ->
  fs !! FilePath request = Some (File cur mode) ->
  ExecuteRequest request fs =
    match editContent request cur with
    | Ok newContent =>
        (Ok ("Successfully edited " +:+ FilePath request +:+ " ("
             +:+ fmt_d (len newContent) +:+ " bytes written)"),
         <[FilePath request := File newContent mode]> fs)
    | Err e => (Err e, fs)
    | Panic m => (Panic m, fs)
    end.
Proof.
  intros Hp Ho Hf. unfold ExecuteRequest.
  rewrite (eqb_false _ _ Hp), (eqb_false _ _ Ho).
  rewrite (Stat_file _ _ _ _ Hf). simpl.
  rewrite (ReadFile_file _ _ _ _ Hf).
  destruct (editContent request cur); try done.
  by rewrite (WriteFile_file _ _ _ _ _ _ Hf).
Qed.

Lemma slice_to_ok {A} (l : list A) (hi : Z) :
  0 <= hi <= Z.of_nat (length l) -> slice_to l hi = Ok (take (Z.to_nat hi) l).
Proof.
  intros [H1 H2]. unfold slice_to.
  apply Z.leb_le in H1, H2. by rewrite H1, H2.
Qed.

Lemma slice_from_ok {A} (l : list A) (lo : Z) :
  0 <= lo <= Z.of_nat (length l) -> slice_from l lo = Ok (drop (Z.to_nat lo) l).
Proof.
  intros [H1 H2]. unfold slice_from.
  apply Z.leb_le in H1, H2. by rewrite H1, H2.
Qed.

(** The effective request of a ranged replace: the three slices are in
    range, and the result is the splice the specification words. *)
Lemma editContent_replace_range request cur :
  Operation request = "replace" ->
  ~ (StartLine request = 0 /\ EndLine request = 0) ->
  1 <= StartLine request <= lineCount cur ->
  editContent request cur
  = Ok (statedReplace (clampEndLine request (lineCount cur)) cur).
Proof.
  intros Hop Hns [Hlo Hhi]. unfold editContent, statedReplace, clampEndLine, lineCount in *.
  rewrite Hop. simpl String.eqb. cbv iota.
  destruct ((StartLine request =? 0) && (EndLine request =? 0)) eqn:Hs.
  { apply andb_true_iff in Hs as [?%Z.eqb_eq ?%Z.eqb_eq]. tauto. }
  set (lines := SplitLines cur) in *.
  set (n := Z.of_nat (length lines)) in *.
  assert ((StartLine request <? 1) || (n <? StartLine request) = false) as ->.
  { apply orb_false_iff. split; apply Z.ltb_ge; lia. }
  destruct ((EndLine request <? StartLine request) || (n <? EndLine request)) eqn:Hc; simpl.
  - assert ((StartLine request =? 0) && (n =? 0) = false) as ->.
    { apply andb_false_iff. left. apply Z.eqb_neq. lia. }
    rewrite slice_to_ok by lia. by rewrite slice_from_ok by lia.
  - rewrite Hs. apply orb_false_iff in Hc as [?%Z.ltb_ge ?%Z.ltb_ge].
    rewrite slice_to_ok by lia. by rewrite slice_from_ok by lia.
Qed.

Lemma editContent_replace_whole request cur :
  Operation request = "replace" ->
  StartLine request = 0 -> EndLine request = 0 ->
  editContent request cur = Ok (Content request).
Proof. intros Hop Hs He. unfold editContent. by rewrite Hop, Hs, He. Qed.

Lemma editContent_replace_out_of_range request cur :
  Operation request = "replace" ->
  ~ (StartLine request = 0 /\ EndLine request = 0) ->
  StartLine request < 1 \/ lineCount cur < StartLine request ->
  editContent request cur = Err (ErrStartLineRange (lineCount cur)).
Proof.
  intros Hop Hns Hr. unfold editContent, lineCount in *.
  rewrite Hop. simpl String.eqb. cbv iota.
  destruct ((StartLine request =? 0) && (EndLine request =? 0)) eqn:Hs.
  { apply andb_true_iff in Hs as [?%Z.eqb_eq ?%Z.eqb_eq]. tauto. }
  cbv zeta.
  assert ((StartLine request <? 1)
          || (Z.of_nat (length (SplitLines cur)) <? StartLine request) = true) as ->; [|done].
  apply orb_true_iff. destruct Hr; [left|right]; by apply Z.ltb_lt.
Qed.

Lemma editContent_append request cur :
  Operation request = "append" ->
  editContent request cur
  = Ok (if HasSuffix cur nl then cur +:+ Content request
        else cur +:+ nl +:+ Content request).
Proof.
  intros Hop. unfold editContent. rewrite Hop. simpl String.eqb. cbv iota.
  by destruct (HasSuffix cur nl).
Qed.

(** C1 (as amended).  A replace request on an existing regular file, whose
    line numbers are both zero or whose [start_line] lies within
    [1..lineCount], succeeds and leaves in the file: the request's content,
    when both line numbers are zero; otherwise the newline-join of lines
    [1..start_line-1], the lines of the request's content, and lines
    [end_line+1..lineCount], where [end_line] counts as [lineCount] when it
    is below [start_line] or above [lineCount]. *)
Theorem replace_new_content request (fs : FS) cur mode :
  FilePath request <> "" ->
  fs !! FilePath request = Some (File cur mode) ->
  Operation request = "replace" ->
  (StartLine request = 0 /\ EndLine request = 0)
  \/ 1 <= StartLine request <= lineCount cur ->
  is_Ok (fst (ExecuteRequest request fs)) = true /\
  snd (ExecuteRequest request fs) !! FilePath request
  = Some (File (statedReplace (clampEndLine request (lineCount cur)) cur) mode).
Proof.
  intros Hp Hf Hop Hr.
  rewrite (ExecuteRequest_file request fs cur mode) by (by rewrite ?Hop).
  destruct (decide (StartLine request = 0 /\ EndLine request = 0)) as [[Hs He]|Hns].
  - rewrite editContent_replace_whole by done. simpl. split; [done|].
    rewrite lookup_insert_eq. unfold statedReplace, clampEndLine.
    rewrite Hs, He. simpl.
    assert ((lineCount cur <? 0) = false) as ->
      by (apply Z.ltb_ge; unfold lineCount; lia).
    by rewrite Hs, He.
  - destruct Hr as [?|Hr]; [done|].
    rewrite editContent_replace_range by done. simpl. split; [done|].
    by rewrite lookup_insert_eq.
Qed.

(** The example of the specification: lines 2 to 2 of [A/B/C] replaced by
    [X/Y] give [A/X/Y/C]; and a whole-file replace. *)
Lemma replace_new_content_witness :
  snd (ExecuteRequest (Tools.mkRequest "notes.txt" "replace" ("X" +:+ nl +:+ "Y") 2 2) fs_abc)
    !! "notes.txt"
  = Some (File ("A" +:+ nl +:+ "X" +:+ nl +:+ "Y" +:+ nl +:+ "C") 420).
Proof.
  apply (replace_new_content
           (Tools.mkRequest "notes.txt" "replace" ("X" +:+ nl +:+ "Y") 2 2) fs_abc abc 420).
  - discriminate.
  - reflexivity.
  - reflexivity.
  - right. vm_compute. split; discriminate.
Defined.

(** C1, as the specification states it, fails.  With [start_line = 2] and
    [end_line = 1] on [A/B/C] and content [X], the code leaves [A/X] (the
    end of the range is moved to the last line) where the stated splice is
    [A/X/B/C].  With [start_line = 5] the call fails and the file keeps
    [A/B/C], where the stated splice is [A/B/C/X]. *)
Lemma replace_as_stated_counterexample :
  (snd (ExecuteRequest (Tools.mkRequest "notes.txt" "replace" "X" 2 1) fs_abc) !! "notes.txt"
   = Some (File ("A" +:+ nl +:+ "X") 420)
   /\ statedReplace (Tools.mkRequest "notes.txt" "replace" "X" 2 1) abc
      = "A" +:+ nl +:+ "X" +:+ nl +:+ "B" +:+ nl +:+ "C"
   /\ snd (ExecuteRequest (Tools.mkRequest "notes.txt" "replace" "X" 2 1) fs_abc)
        !! "notes.txt"
      <> Some (File (statedReplace (Tools.mkRequest "notes.txt" "replace" "X" 2 1) abc) 420))
  /\ (ExecuteRequest (Tools.mkRequest "notes.txt" "replace" "X" 5 5) fs_abc
      = (Err (ErrStartLineRange 3), fs_abc)
      /\ statedReplace (Tools.mkRequest "notes.txt" "replace" "X" 5 5) abc
         = "A" +:+ nl +:+ "B" +:+ nl +:+ "C" +:+ nl +:+ "X"
      /\ fs_abc !! "notes.txt"
         <> Some (File (statedReplace (Tools.mkRequest "notes.txt" "replace" "X" 5 5) abc)
                   420)).
Proof. vm_compute. repeat split; discriminate. Qed.

(** C2.  A replace request with a line range (not both numbers zero) on an
    existing regular file of [lineCount] lines: when [start_line] is below
    1 or above [lineCount], [Execute] fails with the error whose text names
    the range [1-lineCount] and the file system is unchanged; otherwise,
    when [end_line] is below [start_line] or above [lineCount], the call
    succeeds and does exactly what it does with [end_line = lineCount]. *)
Theorem replace_range_check request (fs : FS) cur mode :
  FilePath request <> "" ->
  fs !! FilePath request = Some (File cur mode) ->
  Operation request = "replace" ->
  ~ (StartLine request = 0 /\ EndLine request = 0) ->
  (StartLine request < 1 \/ lineCount cur < StartLine request ->
     ExecuteRequest request fs = (Err (ErrStartLineRange (lineCount cur)), fs)
     /\ Error (ErrStartLineRange (lineCount cur))
        = "start_line out of range: valid range is 1-" +:+ fmt_d (lineCount cur))
  /\ (1 <= StartLine request <= lineCount cur ->
      EndLine request < StartLine request \/ lineCount cur < EndLine request ->
      is_Ok (fst (ExecuteRequest request fs)) = true
      /\ ExecuteRequest request fs
         = ExecuteRequest (setEndLine request (lineCount cur)) fs).
Proof.
  intros Hp Hf Hop Hns. split.
  - intros Hr. split; [|done].
    rewrite (ExecuteRequest_file request fs cur mode) by (by rewrite ?Hop).
    by rewrite editContent_replace_out_of_range.
  - intros Hr Hc.
    rewrite (ExecuteRequest_file request fs cur mode) by (by rewrite ?Hop).
    rewrite (ExecuteRequest_file (setEndLine request (lineCount cur)) fs cur mode)
      by (simpl; by rewrite ?Hop).
    rewrite editContent_replace_range by done.
    rewrite editContent_replace_range; simpl; try done; [|lia].
    split; [done|].
    assert (clampEndLine request (lineCount cur) = setEndLine request (lineCount cur)) as ->.
    { unfold clampEndLine.
      assert ((EndLine request <? StartLine request) || (lineCount cur <? EndLine request)
              = true) as ->; [|done].
      apply orb_true_iff. destruct Hc; [left|right]; by apply Z.ltb_lt. }
    assert (clampEndLine (setEndLine request (lineCount cur)) (lineCount cur)
            = setEndLine request (lineCount cur)) as ->; [|done].
    unfold clampEndLine. simpl.
    by destruct ((lineCount cur <? StartLine request) || (lineCount cur <? lineCount cur)).
Qed.

(** The example of the specification: [start_line = 5] on the three lines
    [A/B/C] fails, the error names the range [1-3], and the file is
    untouched; an [end_line] of 9 is read as 3. *)
Lemma replace_range_check_witness :
  (ExecuteRequest (Tools.mkRequest "notes.txt" "replace" "X" 5 5) fs_abc
   = (Err (ErrStartLineRange 3), fs_abc)
   /\ Error (ErrStartLineRange 3) = "start_line out of range: valid range is 1-3")
  /\ ExecuteRequest (Tools.mkRequest "notes.txt" "replace" "X" 2 9) fs_abc
     = ExecuteRequest (Tools.mkRequest "notes.txt" "replace" "X" 2 3) fs_abc.
Proof.
  split.
  - destruct (replace_range_check
                (Tools.mkRequest "notes.txt" "replace" "X" 5 5) fs_abc abc 420)
      as [H _]; [discriminate|reflexivity|reflexivity|simpl; lia|].
    apply H. right. vm_compute. reflexivity.
  - destruct (replace_range_check
                (Tools.mkRequest "notes.txt" "replace" "X" 2 9) fs_abc abc 420)
      as [_ H]; [discriminate|reflexivity|reflexivity|simpl; lia|].
    apply H.
    + vm_compute. split; discriminate.
    + right. vm_compute. reflexivity.
Defined.




(** C5.  An append request on an existing regular file succeeds and leaves
    in the file: the current content followed by the request's content when
    the current content ends with a newline, and otherwise the current
    content, one newline, then the request's content. *)
Theorem append_new_content request (fs : FS) cur mode :
  FilePath request <> "" ->
  fs !! FilePath request = Some (File cur mode) ->
  Operation request = "append" ->
  is_Ok (fst (ExecuteRequest request fs)) = true
  /\ ((exists p, cur = p +:+ nl) ->
      snd (ExecuteRequest request fs) !! FilePath request
      = Some (File (cur +:+ Content request) mode))
  /\ (~ (exists p, cur = p +:+ nl) ->
      snd (ExecuteRequest request fs) !! FilePath request
      = Some (File (cur +:+ nl +:+ Content request) mode)).
Proof.
  intros Hp Hf Hop.
  rewrite (ExecuteRequest_file request fs cur mode) by (by rewrite ?Hop).
  rewrite editContent_append by done. simpl. rewrite lookup_insert_eq.
  split; [done|]. split.
  - intros Hs. apply HasSuffix_spec in Hs. by rewrite Hs.
  - intros Hs. apply HasSuffix_false in Hs. by rewrite Hs.
Qed.

(** The examples of the specification: appending [B] to [A] and to [A]
    followed by a newline both give [A], a newline, [B]. *)
Lemma append_new_content_witness :
  snd (ExecuteRequest (Tools.mkRequest "a.txt" "append" "B" 0 0)
         (<["a.txt" := File "A" 420]> ∅)) !! "a.txt"
  = Some (File ("A" +:+ nl +:+ "B") 420)
  /\ snd (ExecuteRequest (Tools.mkRequest "a.txt" "append" "B" 0 0)
            (<["a.txt" := File ("A" +:+ nl) 420]> ∅)) !! "a.txt"
     = Some (File ("A" +:+ nl +:+ "B") 420).
Proof.
  split.
  - apply (append_new_content (Tools.mkRequest "a.txt" "append" "B" 0 0)
             (<["a.txt" := File "A" 420]> ∅) "A" 420); try done.
    intros [p Hp]. destruct p as [|c [|c' p]]; discriminate.
  - apply (append_new_content (Tools.mkRequest "a.txt" "append" "B" 0 0)
             (<["a.txt" := File ("A" +:+ nl) 420]> ∅) ("A" +:+ nl) 420); try done.
    by exists "A".
Defined.

End FileEditSpec.

(** ** The gateway *)

Module GatewaySpec.
Import GoLib LLM Stated Samples StringFacts.





Section Network.

Variable Net : Type.
Variable Do : Request -> Net -> HttpOutcome * Net.
Variable NewRequestOk : string -> bool.

Let Query := LLM.Query Net Do NewRequestOk.

(** Every call of [Query] adds its transcript, and nothing else, to the
    log of the gateway. *)
Lemma Query_logged (c : Client) (msgs : list Message) (g : Gateway Net) :
  queries (snd (Query c msgs g)) = queries g ++ [msgs].
Proof.
  unfold Query, LLM.Query.
  destruct (String.eqb (apiKey c) "").
  { by destruct (lastMessage msgs). }
  destruct (negb (NewRequestOk (endpoint c))); [done|].
  by destruct (Do _ _).
Qed.

(** In placeholder mode a transcript that is not empty is answered by the
    labelled echo of its last message. *)
Lemma Query_placeholder_nonempty (endpoint : string) (msgs : list Message)
    (m : Message) (g : Gateway Net) :
  fst (Query (mkClient "" endpoint) (msgs ++ [m]) g)
  = Ok ("Mock Claude response to: " +:+ Content m).
Proof.
  unfold Query, LLM.Query, lastMessage. simpl. by rewrite last_snoc.
Qed.

(** C8 (the code at the failing input).  In placeholder mode, [Query] on
    the empty transcript indexes the element before the first one: it
    panics and returns no reply. *)
Theorem Query_placeholder_empty_transcript (endpoint : string) (g : Gateway Net) :
  fst (Query (mkClient "" endpoint) [] g) = Panic "index out of range [-1]".
Proof. reflexivity. Qed.


End Network.



End GatewaySpec.

(** ** The agent *)

Module AgentSpec.
Import GoLib Tools Agent Stated Samples StringFacts.

Section Detection.

Variable MapToLower : string -> string.

Let ToLower := Tools.ToLower MapToLower.
Let firstMentioned := Agent.firstMentioned MapToLower.
Let shouldUseTool := Agent.shouldUseTool MapToLower.
Let detectToolName := Agent.detectToolName MapToLower.

Lemma firstMentioned_Some (input : string) (order : list string) (name : string) :
  firstMentioned input order = Some name ->
  name ∈ order /\ Contains (ToLower input) (ToLower name) = true.
Proof.
  unfold firstMentioned, ToLower.
  induction order as [|k order IH]; simpl; [done|].
  destruct (Contains (Tools.ToLower MapToLower input) (Tools.ToLower MapToLower k)) eqn:Hk.
  - intros [= <-]. split; [left|done].
  - intros H. destruct (IH H) as [Hin Hc]. split; [by right|done].
Qed.

Lemma firstMentioned_None (input : string) (order : list string) :
  firstMentioned input order = None ->
  forall name, name ∈ order -> Contains (ToLower input) (ToLower name) = false.
Proof.
  unfold firstMentioned, ToLower.
  induction order as [|k order IH]; simpl; intros H name Hin.
  { by apply elem_of_nil in Hin. }
  destruct (Contains (Tools.ToLower MapToLower input) (Tools.ToLower MapToLower k)) eqn:Hk;
    [done|].
  apply elem_of_cons in Hin as [->|Hin]; [done|by apply IH].
Qed.

(** C7.  [shouldUseTool] answers true exactly when the lower case of the
    reply contains the lower case of the name of a registered tool, or
    contains both [use the] and [tool]; whatever the order in which the
    loop visits the registry. *)
Theorem shouldUseTool_iff {V} (registry : gmap string V) (order : list string)
    (reply : string) :
  rangeOrder registry order ->
  shouldUseTool order reply = true
  <-> (exists name, is_Some (registry !! name)
                    /\ occursIn (ToLower name) (ToLower reply))
      \/ (occursIn "use the" (ToLower reply) /\ occursIn "tool" (ToLower reply)).
Proof.
  intros [_ Hkeys]. unfold shouldUseTool, Agent.shouldUseTool, occursIn.
  destruct (Agent.firstMentioned MapToLower reply order) as [name|] eqn:Hfirst.
  - apply firstMentioned_Some in Hfirst as [Hin Hc]. split; [intros _|done].
    left. exists name. split; [by apply Hkeys|]. by apply Contains_spec.
  - pose proof (firstMentioned_None _ _ Hfirst) as Hnone.
    rewrite andb_true_iff, !Contains_spec. split; [by right|].
    intros [(name & Hreg & Hocc)|H]; [|done].
    apply Hkeys in Hreg. apply Contains_spec in Hocc.
    specialize (Hnone name Hreg). unfold ToLower in *. congruence.
Qed.

End Detection.

Section Registry.

Variable TrimSpace : string -> string.
Variable MapToLower : string -> string.
Variable Walk : FS -> string -> list (string * (os_error + string)).
Variable UnmarshalRequest : string -> string + FileEditRequest.

Let ToLower := Tools.ToLower MapToLower.
Let newRegistry := Agent.newRegistry TrimSpace MapToLower Walk UnmarshalRequest.
Let NewAgent := Agent.NewAgent TrimSpace MapToLower Walk UnmarshalRequest.
Let detectToolName := Agent.detectToolName MapToLower.
Let extractToolInput := Agent.extractToolInput TrimSpace MapToLower.
Let executeTool := Agent.executeTool TrimSpace MapToLower.

Lemma newRegistry_keys (k : string) :
  is_Some (newRegistry !! k) <-> k ∈ registeredNames.
Proof.
  unfold newRegistry, Agent.newRegistry, registeredNames. simpl.
  rewrite !lookup_insert_is_Some, lookup_empty, !elem_of_cons, elem_of_nil.
  split.
  - intros [?|[_ [?|[_ [?|[_ [?|[_ H]]]]]]]]; auto. by destruct H.
  - intros [->|[->|[->|[->|[]]]]]; auto 10.
Qed.

Lemma newRegistry_rangeOrder : rangeOrder newRegistry registeredNames.
Proof.
  split; [|intros k; symmetry; apply newRegistry_keys].
  unfold registeredNames. apply (bool_decide_unpack _). by vm_compute.
Qed.

Lemma registered_lower (k : string) : k ∈ registeredNames -> ToLower k = k.
Proof.
  unfold registeredNames. rewrite !elem_of_cons, elem_of_nil.
  intros [->|[->|[->|[->|[]]]]]; reflexivity.
Qed.

(** [NewAgent] always returns an agent with the four tools. *)
Lemma NewAgent_registry contextFile Getenv order0 (fs0 : FS) (a : Agent) :
  NewAgent contextFile Getenv order0 fs0 = Ok a -> toolRegistry a = newRegistry.
Proof.
  unfold NewAgent, Agent.NewAgent, loadContext. simpl.
  destruct (ReadFile fs0 contextFile) as [e|data].
  { destruct (IsNotExist e); [|done]. by intros [= <-]. }
  destruct (Unmarshal data _); [done|]. by intros [= <-].
Qed.

(** The name [detectToolName] returns: a visited name that occurs in the
    reply, or [web_search]. *)
Lemma detectToolName_cases (a : Agent) (order : list string) (reply : string) :
  toolRegistry a = newRegistry ->
  rangeOrder (toolRegistry a) order ->
  (is_Some (toolRegistry a !! detectToolName order reply)
   /\ occursIn (detectToolName order reply) (ToLower reply))
  \/ detectToolName order reply = "web_search".
Proof.
  intros Hnew [_ Hkeys]. unfold detectToolName, Agent.detectToolName.
  destruct (Agent.firstMentioned MapToLower reply order) as [name|] eqn:Hfirst;
    [left|by right].
  apply firstMentioned_Some in Hfirst as [Hin Hc].
  apply (proj1 (Hkeys name)) in Hin. split; [done|].
  apply Contains_spec in Hc.
  rewrite Hnew in Hin. apply newRegistry_keys in Hin.
  apply registered_lower in Hin.
  unfold ToLower in *. by rewrite Hin in Hc.
Qed.

Lemma web_search_registered (a : Agent) :
  toolRegistry a = newRegistry -> is_Some (toolRegistry a !! "web_search").
Proof.
  intros ->. apply newRegistry_keys. unfold registeredNames.
  apply elem_of_cons. by left.
Qed.

Lemma detectToolName_in_registry (a : Agent) (order : list string) (reply : string) :
  toolRegistry a = newRegistry ->
  rangeOrder (toolRegistry a) order ->
  is_Some (toolRegistry a !! detectToolName order reply).
Proof.
  intros Hnew Hord.
  destruct (detectToolName_cases a order reply Hnew Hord) as [[? _]| ->]; [done|].
  by apply web_search_registered.
Qed.

(** [extractToolInput] returns a string or panics on a slice; it returns
    no error. *)
Lemma str_slice_not_Err (s : string) (lo hi : Z) (e : error) : str_slice s lo hi <> Err e.
Proof. unfold str_slice. by destruct (_ && _). Qed.

Lemma extractToolInput_not_Err (name input : string) (e : error) :
  extractToolInput name input <> Err e.
Proof.
  unfold extractToolInput, Agent.extractToolInput.
  destruct (String.eqb name "file_edit").
  - destruct (_ && _); [apply str_slice_not_Err|done].
  - destruct (_ =? -1); [done|].
    destruct (str_slice _ _ _) eqn:Hs; try done.
    by apply str_slice_not_Err in Hs.
Qed.

Lemma ExecuteRequest_error (request : FileEditRequest) (fs : FS) (n : string) :
  fst (ExecuteRequest request fs) <> Err (ErrToolNotFound n).
Proof.
  unfold ExecuteRequest, editContent, WriteFile, ReadFile, Stat, slice_to, slice_from.
  repeat (case_match; simplify_eq; simpl; try done).
Qed.

(** None of the four tools returns the tool-not-found error. *)
Lemma registered_tool_error (name : string) (tool : Tool) (input : string) (fs : FS)
    (n : string) :
  newRegistry !! name = Some tool ->
  fst (Execute tool input fs) <> Err (ErrToolNotFound n).
Proof.
  unfold newRegistry, Agent.newRegistry. simpl.
  rewrite !lookup_insert. repeat case_decide; try (rewrite lookup_empty; done).
  all: intros [= <-]; simpl.
  - destruct (UnmarshalRequest input); [done|]. apply ExecuteRequest_error.
  - unfold Stat, ReadFile. repeat (case_match; simplify_eq; simpl; try done).
  - repeat (case_match; simplify_eq; simpl; try done).
  - done.
Qed.

(** For the registry of [NewAgent], [executeTool] on the detected name
    does not return the tool-not-found error. *)
Lemma executeTool_detected_error (a : Agent) (order : list string) (reply : string)
    (fs : FS) (n : string) :
  toolRegistry a = newRegistry ->
  rangeOrder (toolRegistry a) order ->
  fst (executeTool a (detectToolName order reply) reply fs) <> Err (ErrToolNotFound n).
Proof.
  intros Hnew Hord.
  destruct (detectToolName_in_registry a order reply Hnew Hord) as [tool Htool].
  unfold executeTool, Agent.executeTool. rewrite Htool.
  destruct (Agent.extractToolInput TrimSpace MapToLower _ reply) as [i|e|p] eqn:Hx.
  - rewrite Hnew in Htool. by eapply registered_tool_error.
  - by apply extractToolInput_not_Err in Hx.
  - done.
Qed.

End Registry.

Section Turn.

Variable TrimSpace : string -> string.
Variable MapToLower : string -> string.
Variable Walk : FS -> string -> list (string * (os_error + string)).
Variable UnmarshalRequest : string -> string + FileEditRequest.
Variable Net : Type.
Variable Do : LLM.Request -> Net -> LLM.HttpOutcome * Net.
Variable NewRequestOk : string -> bool.

Let ToLower := Tools.ToLower MapToLower.
Let Query := LLM.Query Net Do NewRequestOk.
Let newRegistry := Agent.newRegistry TrimSpace MapToLower Walk UnmarshalRequest.
Let NewAgent := Agent.NewAgent TrimSpace MapToLower Walk UnmarshalRequest.
Let shouldUseTool := Agent.shouldUseTool MapToLower.
Let detectToolName := Agent.detectToolName MapToLower.
Let extractToolInput := Agent.extractToolInput TrimSpace MapToLower.
Let executeTool := Agent.executeTool TrimSpace MapToLower.
Let Process := Agent.Process TrimSpace MapToLower Net Do NewRequestOk.

Lemma Query_log (c : LLM.Client) (msgs : list LLM.Message) (g g' : LLM.Gateway Net)
    (r : result string) :
  Query c msgs g = (r, g') -> LLM.queries g' = LLM.queries g ++ [msgs].
Proof.
  intros H. pose proof (GatewaySpec.Query_logged Net Do NewRequestOk c msgs g) as Hl.
  unfold Query in H. by rewrite H in Hl.
Qed.

(** The errors of [Query] are its own: none is a tool execution error. *)
Lemma Query_error (c : LLM.Client) (msgs : list LLM.Message) (g : LLM.Gateway Net)
    (e : error) :
  fst (Query c msgs g) <> Err (ErrToolExecution e).
Proof.
  unfold Query, LLM.Query, LLM.readResponse, LLM.lastMessage.
  repeat (case_match; simplify_eq; simpl; try done).
Qed.

(** A turn of an agent with the registry of [NewAgent] never ends with the
    tool-not-found error. *)
Lemma Process_tool_found (a : Agent) (input : string) (order1 order2 : list string)
    (w : World Net) (n : string) :
  toolRegistry a = newRegistry ->
  rangeOrder (toolRegistry a) order2 ->
  fst (fst (Process a input order1 order2 w)) <> Err (ErrToolExecution (ErrToolNotFound n)).
Proof.
  intros Hnew Hord. unfold Process, Agent.Process.
  destruct (LLM.Query _ _ _ _ _ (gateway w)) as [r g] eqn:HQ1.
  destruct r as [reply|e|p]; simpl.
  - destruct (Agent.shouldUseTool MapToLower order1 reply); [|done].
    destruct (Agent.executeTool _ _ _ _ _ _) as [tr fs'] eqn:Hex.
    destruct tr as [output|e|p]; simpl.
    + match goal with
      | |- context [LLM.Query ?N ?D ?K ?c ?ms ?g0] =>
          destruct (LLM.Query N D K c ms g0) as [r2 g2] eqn:HQ2
      end.
      destruct r2 as [final|e|p]; simpl; try done.
      intros [= ->]. by eapply (Query_error _ _ _ _), (f_equal fst HQ2).
    + intros [= ->].
      apply (executeTool_detected_error TrimSpace MapToLower Walk UnmarshalRequest
               (appendMessage (appendMessage a (mkMessage "user" input))
                  (mkMessage "assistant" reply))
               order2 reply (fs w) n Hnew Hord).
      by rewrite Hex.
    + done.
  - intros [= ->]. by eapply (Query_error _ _ _ _), (f_equal fst HQ1).
  - done.
Qed.

(** C9.  For an agent built by [NewAgent] and any reply, the name
    [detectToolName] returns is a key of the registry: a registered name
    that occurs in the lower case of the reply, or the fallback
    [web_search], which is registered.  So the lookup of [executeTool]
    finds a tool and the call runs it, and no turn of [Process] ends with
    the tool-not-found error. *)
Theorem detectToolName_registered contextFile Getenv order0 (fs0 : FS) (a : Agent)
    (order : list string) (reply : string) :
  NewAgent contextFile Getenv order0 fs0 = Ok a ->
  rangeOrder (toolRegistry a) order ->
  is_Some (toolRegistry a !! "web_search")
  /\ ((is_Some (toolRegistry a !! detectToolName order reply)
       /\ occursIn (detectToolName order reply) (ToLower reply))
      \/ detectToolName order reply = "web_search")
  /\ (forall fs : FS, exists tool,
        toolRegistry a !! detectToolName order reply = Some tool
        /\ executeTool a (detectToolName order reply) reply fs
           = match extractToolInput (detectToolName order reply) reply with
             | Ok toolInput => Execute tool toolInput fs
             | Err e => (Err e, fs)
             | Panic p => (Panic p, fs)
             end)
  /\ (forall (input : string) (order1 : list string) (w : World Net) (n : string),
        fst (fst (Process a input order1 order w))
        <> Err (ErrToolExecution (ErrToolNotFound n))).
Proof.
  intros Hnew Hord.
  apply (NewAgent_registry TrimSpace MapToLower Walk UnmarshalRequest) in Hnew.
  split; [by eapply web_search_registered|].
  split; [by eapply detectToolName_cases|].
  split.
  - intros fs.
    destruct (detectToolName_in_registry TrimSpace MapToLower Walk UnmarshalRequest
                a order reply Hnew Hord) as [tool Htool].
    exists tool. split; [done|].
    unfold executeTool, Agent.executeTool, detectToolName in *. by rewrite Htool.
  - intros input order1 w n. by apply Process_tool_found.
Qed.

(** C4.  A turn in which every call succeeds.  When the first reply does
    not ask for a tool, [Process] returns it after one query, and the
    transcript has two more messages: the user's and the assistant's.
    When it asks for a tool and the tool runs, [Process] returns the second
    reply after two queries, and the transcript has four more messages:
    the user's, the assistant's request, the tool's result and the
    assistant's final reply. *)
Theorem turn_queries_and_messages (a : Agent) (input : string)
    (order1 order2 : list string) (w : World Net)
    (reply : string) (g1 : LLM.Gateway Net) :
  input <> "" ->
  Query (llmClient a)
    (convertToLLMMessages (context a ++ [mkMessage "user" input])) (gateway w)
  = (Ok reply, g1) ->
  (shouldUseTool order1 reply = false ->
     Process a input order1 order2 w
     = (Ok reply,
        setContext a (context a ++ [mkMessage "user" input; mkMessage "assistant" reply]),
        {| fs := fs w; gateway := g1 |})
     /\ LLM.queries g1
        = LLM.queries (gateway w)
          ++ [convertToLLMMessages (context a ++ [mkMessage "user" input])])
  /\ (shouldUseTool order1 reply = true ->
      forall (output final : string) (fs' : FS) (g2 : LLM.Gateway Net),
        executeTool a (detectToolName order2 reply) reply (fs w) = (Ok output, fs') ->
        Query (llmClient a)
          (convertToLLMMessages
             (context a ++ [mkMessage "user" input; mkMessage "assistant" reply;
                            mkMessage "tool"
                              ("Tool '" +:+ detectToolName order2 reply
                               +:+ "' returned: " +:+ output)])) g1
        = (Ok final, g2) ->
        is_Some (toolRegistry a !! detectToolName order2 reply)
        /\ Process a input order1 order2 w
           = (Ok final,
              setContext a
                (context a ++ [mkMessage "user" input; mkMessage "assistant" reply;
                               mkMessage "tool"
                                 ("Tool '" +:+ detectToolName order2 reply
                                  +:+ "' returned: " +:+ output);
                               mkMessage "assistant" final]),
              {| fs := fs'; gateway := g2 |})
        /\ LLM.queries g2
           = LLM.queries (gateway w)
             ++ [convertToLLMMessages (context a ++ [mkMessage "user" input]);
                 convertToLLMMessages
                   (context a ++ [mkMessage "user" input; mkMessage "assistant" reply;
                                  mkMessage "tool"
                                    ("Tool '" +:+ detectToolName order2 reply
                                     +:+ "' returned: " +:+ output)])]).
Proof.
  intros _ HQ1. pose proof (Query_log _ _ _ _ _ HQ1) as Hlog1.
  unfold Process, Agent.Process, appendMessage, setContext. simpl.
  unfold Query in HQ1. rewrite HQ1. simpl. split.
  - intros Hno. unfold shouldUseTool in Hno. rewrite Hno.
    rewrite <- List.app_assoc. simpl. by split.
  - intros Hyes output final fs' g2 Hexec HQ2.
    pose proof (Query_log _ _ _ _ _ HQ2) as Hlog2.
    unfold shouldUseTool in Hyes. rewrite Hyes.
    unfold executeTool, Agent.executeTool in Hexec. simpl in Hexec.
    unfold Agent.executeTool. simpl. fold detectToolName.
    split.
    { destruct (toolRegistry a !! detectToolName order2 reply); [done|].
      by injection Hexec. }
    rewrite Hexec. simpl.
    rewrite <- !List.app_assoc. simpl.
    unfold Query in HQ2. rewrite HQ2. simpl.
    rewrite <- !List.app_assoc. simpl. split; [done|].
    by rewrite Hlog2, Hlog1, <- List.app_assoc.
Qed.

End Turn.

Lemma NewAgent_agent0 :
  Agent.NewAgent id id noWalk noDecode "conversation.json" noEnv registeredNames ∅
  = Ok agent0.
Proof. vm_compute. reflexivity. Qed.

(** A reply that names [file_read] in capitals asks for a tool. *)
Lemma shouldUseTool_iff_witness :
  Agent.shouldUseTool id registeredNames "I will use FILE_READ on it" = true.
Proof.
  apply (shouldUseTool_iff id registry0 registeredNames "I will use FILE_READ on it").
  - apply newRegistry_rangeOrder.
  - left. exists "file_read". split.
    + apply newRegistry_keys. unfold registeredNames. rewrite !elem_of_cons. auto.
    + exists "i will use ", " on it". vm_compute. reflexivity.
Defined.

(** A reply that names no tool resolves to a registered one. *)
Lemma detectToolName_registered_witness :
  is_Some (toolRegistry agent0
             !! Agent.detectToolName id registeredNames "Let me look that up").
Proof.
  destruct (detectToolName_registered id id noWalk noDecode unit offline (fun _ => true)
              "conversation.json" noEnv registeredNames ∅ agent0 registeredNames
              "Let me look that up")
    as (_ & _ & Htool & _).
  - apply NewAgent_agent0.
  - apply newRegistry_rangeOrder.
  - destruct (Htool ∅) as (tool & -> & _). by exists tool.
Defined.

(** Two turns in placeholder mode: one without a tool (two messages more,
    one query), one with the web search (four messages more, two
    queries). *)
Lemma turn_queries_and_messages_witness :
  (length (context (snd (fst (process0 "hello")))) = 3%nat
   /\ length (LLM.queries (gateway (snd (process0 "hello")))) = 1%nat)
  /\ (length (context (snd (fst (process0 catsInput)))) = 5%nat
      /\ length (LLM.queries (gateway (snd (process0 catsInput)))) = 2%nat).
Proof.
  split.
  - destruct (turn_queries_and_messages id id unit offline (fun _ => true) agent0
                "hello" registeredNames registeredNames world0 helloReply helloGateway)
      as [H _]; [discriminate|vm_compute; reflexivity|].
    destruct H as [HP Hlen]; [vm_compute; reflexivity|].
    unfold process0. rewrite HP. split; vm_compute; reflexivity.
  - destruct (turn_queries_and_messages id id unit offline (fun _ => true) agent0
                catsInput registeredNames registeredNames world0 catsReply catsGateway1)
      as [_ H]; [discriminate|vm_compute; reflexivity|].
    destruct (H ltac:(vm_compute; reflexivity) catsOutput catsFinal ∅ catsGateway2)
      as (_ & HP & Hlen); [vm_compute; reflexivity|vm_compute; reflexivity|].
    unfold process0. rewrite HP. split; vm_compute; reflexivity.
Defined.

End AgentSpec.

(** ** The persisted conversation *)

Module PersistenceSpec.
Import GoLib JSON Agent Stated Samples StringFacts.

Lemma byte_range (c : ascii) : 0 <= byte c < 256.
Proof.
  unfold byte. pose proof (N_ascii_bounded c). lia.
Qed.

Lemma chr_byte (c : ascii) : chr (byte c) = c.
Proof. unfold chr, byte. rewrite N2Z.id. apply ascii_N_embedding. Qed.

Lemma chr_eq (c : ascii) (b : Z) : b = byte c -> chr b = c.
Proof. intros ->. apply chr_byte. Qed.

(** Decide the comparisons of the goal by linear arithmetic. *)
Ltac zdecide1 :=
  match goal with
  | |- context [?a <? ?b] =>
      first [ rewrite (proj2 (Z.ltb_lt a b)) by lia
            | rewrite (proj2 (Z.ltb_ge a b)) by lia ]
  | |- context [?a <=? ?b] =>
      first [ rewrite (proj2 (Z.leb_le a b)) by lia
            | rewrite (proj2 (Z.leb_gt a b)) by lia ]
  | |- context [?a =? ?b] =>
      first [ rewrite (proj2 (Z.eqb_eq a b)) by lia
            | rewrite (proj2 (Z.eqb_neq a b)) by lia ]
  end.

Ltac zdecide := repeat (zdecide1; cbn [orb andb negb]).

Ltac solve_chr := apply chr_eq; Z.div_mod_to_equations; lia.

Lemma between_true lo b hi : between lo b hi = true <-> lo <= b <= hi.
Proof. unfold between. rewrite andb_true_iff, !Z.leb_le. tauto. Qed.

Lemma cont_true b : cont b = true <-> 0x80 <= b <= 0xBF.
Proof. apply between_true. Qed.

(** A well-formed encoding at the head of [s]: [EncodeRune] writes the
    same bytes back, and the decoding looks at these bytes only. *)
Lemma DecodeRune_wellformed (s : string) :
  s <> "" -> invalidAt s = false ->
  EncodeRune (fst (DecodeRune s)) = take_bytes (snd (DecodeRune s)) s
  /\ (1 <= snd (DecodeRune s) <= String.length s)%nat
  /\ (forall t, DecodeRune (take_bytes (snd (DecodeRune s)) s +:+ t) = DecodeRune s).
Proof.
  intros Hne. unfold invalidAt.
  destruct s as [|c0 s1]; [done|]. clear Hne.
  pose proof (byte_range c0) as H0.
  unfold DecodeRune. fold (byte c0). set (b0 := byte c0) in *.
  assert (Hc0 : chr b0 = c0) by apply chr_byte.
  destruct (b0 <? 128) eqn:E1.
  { intros _. apply Z.ltb_lt in E1. cbn [fst snd take_bytes String.length].
    split; [|split; [lia|]].
    - unfold EncodeRune, isSurrogate, between, RuneError. zdecide. by rewrite Hc0.
    - intros t. rewrite str_app_cons. fold b0.
      by rewrite (proj2 (Z.ltb_lt _ _) E1). }
  apply Z.ltb_ge in E1.
  destruct (between 194 b0 223) eqn:E2.
  { apply between_true in E2.
    destruct s1 as [|c1 s2]; [done|].
    pose proof (byte_range c1) as H1. set (b1 := byte c1) in *.
    assert (Hc1 : chr b1 = c1) by apply chr_byte.
    destruct (cont b1) eqn:Ec1; [|done]. apply cont_true in Ec1.
    intros _. cbn [fst snd take_bytes String.length].
    split; [|split; [lia|]].
    - unfold EncodeRune, isSurrogate, between, RuneError. zdecide.
      f_equal; [solve_chr|]. f_equal. solve_chr.
    - intros t. rewrite !str_app_cons. fold b0. fold b1.
      rewrite (proj2 (Z.ltb_ge _ _) E1), (proj2 (between_true _ _ _) E2).
      by rewrite (proj2 (cont_true _) Ec1). }
  destruct (between 224 b0 239) eqn:E3.
  { apply between_true in E3.
    destruct s1 as [|c1 [|c2 s3]]; try done.
    pose proof (byte_range c1) as H1. set (b1 := byte c1) in *.
    assert (Hc1 : chr b1 = c1) by apply chr_byte.
    pose proof (byte_range c2) as H2. set (b2 := byte c2) in *.
    assert (Hc2 : chr b2 = c2) by apply chr_byte.
    destruct (between _ b1 _ && cont b2) eqn:Hb; [|done].
    apply andb_true_iff in Hb as [Hb1 Hb2].
    apply between_true in Hb1. apply cont_true in Hb2.
    intros _. cbn [fst snd take_bytes String.length].
    destruct (Z.eqb_spec b0 224), (Z.eqb_spec b0 237); try lia;
      (assert (b0 <= 237 \/ 238 <= b0) as [?|?] by lia); try lia;
      (split; [|split; [lia|]];
       [ unfold EncodeRune, isSurrogate, between, RuneError; zdecide;
         f_equal; [solve_chr|]; f_equal; [solve_chr|]; f_equal; solve_chr
       | intros t; rewrite !str_app_cons; fold b0; fold b1; fold b2;
         unfold between, cont; zdecide; reflexivity ]). }
  destruct (between 240 b0 244) eqn:E4; [|done].
  apply between_true in E4.
  destruct s1 as [|c1 [|c2 [|c3 s4]]]; try done.
  pose proof (byte_range c1) as H1. set (b1 := byte c1) in *.
  assert (Hc1 : chr b1 = c1) by apply chr_byte.
  pose proof (byte_range c2) as H2. set (b2 := byte c2) in *.
  assert (Hc2 : chr b2 = c2) by apply chr_byte.
  pose proof (byte_range c3) as H3. set (b3 := byte c3) in *.
  assert (Hc3 : chr b3 = c3) by apply chr_byte.
  destruct (between _ b1 _ && cont b2 && cont b3) eqn:Hb; [|done].
  apply andb_true_iff in Hb as [Hb Hb3]. apply andb_true_iff in Hb as [Hb1 Hb2].
  apply between_true in Hb1. apply cont_true in Hb2. apply cont_true in Hb3.
  intros _. cbn [fst snd take_bytes String.length].
  destruct (Z.eqb_spec b0 240), (Z.eqb_spec b0 244); try lia;
    (split; [|split; [lia|]];
     [ unfold EncodeRune, isSurrogate, between, RuneError; zdecide;
       f_equal; [solve_chr|]; f_equal; [solve_chr|]; f_equal; [solve_chr|]; f_equal; solve_chr
     | intros t; rewrite !str_app_cons; fold b0; fold b1; fold b2; fold b3;
       unfold between, cont; zdecide; reflexivity ]).
Qed.

Lemma prepend_Some p s rest : prepend p (Some (s, rest)) = Some (p +:+ s, rest).
Proof. done. Qed.

(** One step of the decoder over what the encoder writes for an ASCII
    byte. *)
Lemma unquote_ascii (c : ascii) (d : nat) (X : string) :
  byte c < 128 ->
  unquote_go (S d) ((if htmlSafe (byte c) then String c "" else escapeByte c) +:+ X)
  = prepend (String c "") (unquote_go d X).
Proof.
  intros H.
  destruct c as [[] [] [] [] [] [] [] []];
    try (exfalso; vm_compute in H; discriminate); reflexivity.
Qed.

Lemma drop_take_app (n : nat) (s t : string) :
  (n <= String.length s)%nat -> drop_bytes n (take_bytes n s +:+ t) = t.
Proof.
  intros H. rewrite <- (length_take_bytes n s H) at 1. apply drop_bytes_app.
Qed.

(** A rune that starts with a byte above 127 is above 127. *)
Lemma DecodeRune_high (c : ascii) (t : string) :
  128 <= byte c -> 128 <= fst (DecodeRune (String c t)).
Proof.
  intros Hc. unfold DecodeRune, between, cont, RuneError.
  repeat match goal with
         | |- context [if ?b then _ else _] => destruct b eqn:?
         | |- context [match ?s with "" => _ | String _ _ => _ end] => destruct s
         end; cbn [fst]; try lia.
  all: repeat match goal with
              | H : _ && _ = true |- _ => apply andb_true_iff in H as [? ?]
              | H : (_ <=? _) = true |- _ => apply Z.leb_le in H
              | H : (_ <? _) = false |- _ => apply Z.ltb_ge in H
              | H : (_ =? _) = true |- _ => apply Z.eqb_eq in H
              | H : (_ =? _) = false |- _ => apply Z.eqb_neq in H
              end; lia.
Qed.

(** One step of the decoder over a well-formed encoding written as it
    is. *)
Lemma unquote_rune (s : string) (d : nat) (Y : string) :
  s <> "" -> invalidAt s = false -> 128 <= fst (DecodeRune s) ->
  unquote_go (S d) (take_bytes (snd (DecodeRune s)) s +:+ Y)
  = prepend (take_bytes (snd (DecodeRune s)) s) (unquote_go d Y).
Proof.
  intros Hne Hv Hr.
  destruct (DecodeRune_wellformed s Hne Hv) as (Henc & [Hn1 Hn2] & Hloc).
  specialize (Hloc Y).
  destruct s as [|c t]; [done|].
  destruct (snd (DecodeRune (String c t))) as [|n] eqn:Hn; [lia|].
  cbn [take_bytes] in *. rewrite str_app_cons in *.
  assert (128 <= byte c) as Hc.
  { unfold DecodeRune in Hr. destruct (Z.ltb_spec (byte c) 128); [|done].
    cbn [fst] in Hr. lia. }
  cbn [unquote_go].
  replace (byte c =? 34) with false by (symmetry; apply Z.eqb_neq; lia).
  replace (byte c =? 92) with false by (symmetry; apply Z.eqb_neq; lia).
  replace (byte c <? 32) with false by (symmetry; apply Z.ltb_ge; lia).
  replace (byte c <? 128) with false by (symmetry; apply Z.ltb_ge; lia).
  rewrite Hloc.
  destruct (DecodeRune (String c t)) as [r n'] eqn:Hd. simpl in Hn, Henc. subst n'.
  rewrite Henc.
  change (String c (take_bytes n t +:+ Y))
    with (take_bytes (S n) (String c t) +:+ Y).
  by rewrite drop_take_app by exact Hn2.
Qed.

(** One step of the decoder over the escape of U+2028 or U+2029. *)
Lemma unquote_linesep (r : Z) (d : nat) (Y : string) :
  r = 0x2028 \/ r = 0x2029 ->
  unquote_go (S d)
    (String backslash (String "u" (String "2" (String "0" (String "2"
       (String (hex (r mod 16)) "")))))
     +:+ Y)
  = prepend (EncodeRune r) (unquote_go d Y).
Proof. intros [-> | ->]; reflexivity. Qed.

Lemma length_escape_pos (c : ascii) :
  (1 <= String.length (if htmlSafe (byte c) then String c "" else escapeByte c))%nat.
Proof.
  destruct (htmlSafe (byte c)); [simpl; lia|]. unfold escapeByte.
  repeat match goal with |- context [if ?b then _ else _] => destruct b end; simpl; lia.
Qed.

(** The decoder reads back what the encoder writes for a well-formed
    string. *)
Lemma unquote_appendString (fuel : nat) (s : string) :
  valid_go fuel s = true ->
  forall (rest : string) (d : nat),
    (String.length (appendString_go fuel s) < d)%nat ->
    unquote_go d (appendString_go fuel s +:+ String quote rest) = Some (s, rest).
Proof.
  revert s. induction fuel as [|fuel IH]; intros s Hv rest d Hd.
  { simpl in Hv. apply eqb_eq in Hv as ->. destruct d; [simpl in Hd; lia|]. reflexivity. }
  destruct s as [|c t].
  { destruct d; [simpl in Hd; lia|]. reflexivity. }
  cbn [valid_go] in Hv. apply andb_true_iff in Hv as [Hinv Hrest].
  apply negb_true_iff in Hinv.
  cbn [appendString_go] in *.
  destruct (Z.ltb_spec (byte c) 128) as [Hc|Hc].
  - assert (DecodeRune (String c t) = (byte c, 1%nat)) as Hdec.
    { unfold DecodeRune. by rewrite (proj2 (Z.ltb_lt _ _) Hc). }
    rewrite Hdec in Hrest. cbn [snd drop_bytes] in Hrest.
    rewrite str_length_app in Hd. pose proof (length_escape_pos c).
    destruct d as [|d]; [lia|].
    rewrite str_app_assoc, unquote_ascii by done.
    rewrite (IH t Hrest) by lia. done.
  - destruct (DecodeRune_wellformed (String c t)) as (Henc & [Hn1 Hn2] & _); [done..|].
    assert (128 <= fst (DecodeRune (String c t))) as Hr
      by (by apply DecodeRune_high).
    destruct (DecodeRune (String c t)) as [r n] eqn:Hdec.
    cbn [fst snd] in *.
    unfold invalidAt in Hinv. rewrite Hdec in Hinv.
    cbv beta iota in Hd |- *. rewrite Hinv in Hd |- *.
    destruct ((r =? 8232) || (r =? 8233)) eqn:Hsep.
    + rewrite str_length_app in Hd. cbn [String.length] in Hd.
      destruct d as [|d]; [lia|].
      rewrite str_app_assoc, unquote_linesep.
      2: { apply orb_true_iff in Hsep as [?%Z.eqb_eq|?%Z.eqb_eq]; auto. }
      rewrite (IH _ Hrest) by lia. rewrite prepend_Some, Henc.
      by rewrite take_drop_bytes.
    + rewrite str_length_app in Hd.
      destruct d as [|d]; [lia|].
      rewrite str_app_assoc.
      pose proof (unquote_rune (String c t) d
                    (appendString_go fuel (drop_bytes n (String c t)) +:+ String quote rest))
        as Hstep.
      rewrite Hdec in Hstep. cbn [fst snd] in Hstep.
      unfold invalidAt in Hstep. rewrite Hdec in Hstep.
      rewrite Hstep by done.
      rewrite (IH _ Hrest).
      2: { rewrite length_take_bytes in Hd by done. lia. }
      rewrite prepend_Some. by rewrite take_drop_bytes.
Qed.

(** What follows the opening quote of an encoded string is read back. *)
Lemma unquote_encodeString (s X : string) :
  ValidString s = true ->
  parseStringOrNull (encodeString s +:+ X) = Some (Some s, X).
Proof.
  intros Hv. unfold encodeString. rewrite str_app_cons, str_app_assoc, str_app_cons.
  rewrite str_app_nil_l. unfold parseStringOrNull.
  rewrite Ascii.eqb_refl.
  rewrite unquote_appendString; [done|done|].
  rewrite str_length_app. simpl. lia.
Qed.

Ltac str_norm :=
  rewrite ?str_app_assoc; repeat (rewrite str_app_cons || rewrite str_app_nil_l).

Lemma skipSpace_space (s : string) : skipSpace (String " " s) = skipSpace s.
Proof. reflexivity. Qed.

Lemma skipSpace_newline (s : string) : skipSpace (String newline s) = skipSpace s.
Proof. reflexivity. Qed.

Lemma skipSpace_stop (c : ascii) (s : string) :
  isSpace c = false -> skipSpace (String c s) = String c s.
Proof. intros H. simpl. by rewrite H. Qed.

Lemma unquote_key_role (Y : string) (d : nat) :
  unquote_go (S (S (S (S (S d)))))
    (String "r" (String "o" (String "l" (String "e" (String "034" Y)))))
  = Some ("role", Y).
Proof. reflexivity. Qed.

Lemma unquote_key_content (Y : string) (d : nat) :
  unquote_go (S (S (S (S (S (S (S (S d))))))))
    (String "c" (String "o" (String "n" (String "t" (String "e" (String "n"
       (String "t" (String "034" Y))))))))
  = Some ("content", Y).
Proof. reflexivity. Qed.

Lemma skipSpace_encodeString (s Y : string) :
  skipSpace (encodeString s +:+ Y) = encodeString s +:+ Y.
Proof. reflexivity. Qed.

Lemma parseElement_encodeMessage (m init : Message) (X : string) (fuel : nat) :
  ValidString (Role m) = true -> ValidString (Content m) = true ->
  (2 <= fuel)%nat ->
  parseElement fuel init (encodeMessage m +:+ X) = Some (m, X).
Proof.
  intros Hr Hc Hfuel.
  destruct fuel as [|[|fuel]]; [lia..|].
  unfold encodeMessage, q, nl. str_norm.
  unfold parseElement. unfold quote, newline. cbv beta iota.
  rewrite skipSpace_newline, !skipSpace_space, skipSpace_stop by done.
  cbv beta iota.
  cbn [parseMembers String.length].
  rewrite Ascii.eqb_refl, unquote_key_role.
  rewrite skipSpace_stop by done. cbv beta iota.
  rewrite skipSpace_space, skipSpace_encodeString, unquote_encodeString by done.
  rewrite skipSpace_stop by done. cbv beta iota.
  rewrite skipSpace_newline, !skipSpace_space, skipSpace_stop by done.
  cbn [String.length]. rewrite Ascii.eqb_refl, unquote_key_content.
  rewrite skipSpace_stop by done. cbv beta iota.
  rewrite skipSpace_space, skipSpace_encodeString, unquote_encodeString by done.
  rewrite skipSpace_newline, !skipSpace_space, skipSpace_stop by done.
  cbv beta iota. by destruct m.
Qed.

Lemma encodeMessage_head (m : Message) (Y : string) :
  exists K, encodeMessage m +:+ Y = String "{" (String "010" K).
Proof. unfold encodeMessage, nl, newline. str_norm. by eexists. Qed.

Lemma encodeElements_head (ms : list Message) (Y : string) :
  ms <> [] -> exists K, encodeElements ms +:+ Y = String "{" (String "010" K).
Proof.
  destruct ms as [|m [|m' ms]]; [done| |]; intros _; simpl encodeElements.
  - apply encodeMessage_head.
  - rewrite str_app_assoc. apply encodeMessage_head.
Qed.

Lemma skipSpace_encodeElements (ms : list Message) (Y : string) :
  ms <> [] -> skipSpace (encodeElements ms +:+ Y) = encodeElements ms +:+ Y.
Proof. intros H. destruct (encodeElements_head ms Y H) as [K ->]. reflexivity. Qed.

Lemma length_encodeElements (ms : list Message) (Y : string) :
  ms <> [] -> (S (length ms) <= String.length (encodeElements ms +:+ Y))%nat.
Proof.
  induction ms as [|m ms IH]; [done|]. intros _.
  destruct ms as [|m' ms].
  - simpl encodeElements. destruct (encodeMessage_head m Y) as [K ->]. simpl. lia.
  - change (encodeElements (m :: m' :: ms))
      with (encodeMessage m +:+ "," +:+ nl +:+ "  " +:+ encodeElements (m' :: ms)).
    rewrite !str_app_assoc.
    destruct (encodeMessage_head m ("," +:+ nl +:+ "  " +:+ encodeElements (m' :: ms) +:+ Y))
      as [K HK].
    rewrite HK. 
    assert (String.length (encodeMessage m +:+ "," +:+ nl +:+ "  " +:+ encodeElements (m' :: ms) +:+ Y)
            = (String.length (encodeMessage m) + (4 + String.length (encodeElements (m' :: ms) +:+ Y)))%nat) as Hlen.
    { rewrite !str_length_app. simpl. lia. }
    rewrite HK in Hlen. rewrite Hlen.
    specialize (IH ltac:(done)). simpl in *. lia.
Qed.

(** The elements [encodeElements] writes are read back, whatever the slice
    held before. *)
Lemma parseElements_encodeElements (ms : list Message) :
  ms <> [] -> Forall (fun m => validMessage m = true) ms ->
  forall (old : list Message) (fuel : nat) (X : string),
    (length ms <= fuel)%nat ->
    parseElements fuel old (encodeElements ms +:+ String "010" (String "]" X))
    = Some (ms, X).
Proof.
  induction ms as [|m ms IH]; [done|]. intros _ Hv old fuel X Hfuel.
  apply Forall_cons in Hv as [Hm Hv].
  apply andb_true_iff in Hm as [Hr Hc].
  destruct fuel as [|fuel]; [simpl in Hfuel; lia|].
  destruct ms as [|m' ms].
  - simpl encodeElements. cbn [parseElements].
    rewrite parseElement_encodeMessage; [|done|done|].
    2: { destruct (encodeMessage_head m (String "010" (String "]" X))) as [K ->]. simpl. lia. }
    rewrite skipSpace_newline, skipSpace_stop by done. done.
  - change (encodeElements (m :: m' :: ms))
      with (encodeMessage m +:+ "," +:+ nl +:+ "  " +:+ encodeElements (m' :: ms)).
    rewrite !str_app_assoc. cbn [parseElements].
    rewrite parseElement_encodeMessage; [|done|done|].
    2: { destruct (encodeMessage_head m
                     ("," +:+ nl +:+ "  " +:+ encodeElements (m' :: ms)
                      +:+ String "010" (String "]" X))) as [K ->]. simpl. lia. }
    unfold nl, newline. str_norm.
    rewrite skipSpace_stop by done. cbv beta iota.
    rewrite skipSpace_newline, !skipSpace_space, skipSpace_encodeElements by done.
    rewrite IH; [done|done|done|]. simpl in *. lia.
Qed.

(** Decoding what [MarshalIndent] writes gives the transcript back. *)
Lemma Unmarshal_MarshalIndent (ms old : list Message) :
  Forall (fun m => validMessage m = true) ms ->
  Unmarshal (MarshalIndent ms) old = inr ms.
Proof.
  intros Hv. destruct ms as [|m ms]; [reflexivity|].
  unfold MarshalIndent, Unmarshal, nl, newline. str_norm.
  rewrite skipSpace_stop by done. cbv beta iota.
  rewrite skipSpace_newline, !skipSpace_space, skipSpace_encodeElements by done.
  pose proof (length_encodeElements (m :: ms) (String "010" "]") ltac:(done)) as Hlen.
  destruct (encodeElements_head (m :: ms) (String "010" "]")) as [K HK]; [done|].
  rewrite HK. cbv beta iota. rewrite <- HK.
  rewrite parseElements_encodeElements; [done|done|done|lia].
Qed.

Lemma SaveContext_written (a : Agent) (fs fs' : FS) :
  SaveContext a fs = (None, fs') ->
  ReadFile fs' (contextFile a) = inr (MarshalIndent (context a)).
Proof.
  unfold SaveContext, WriteFile, ReadFile.
  destruct (fs !! contextFile a) as [[data mode|mode| |]|] eqn:Hf; try done;
    intros [= <-]; by rewrite lookup_insert_eq.
Qed.

(** C6 (as amended).  For a transcript whose roles and contents are
    well-formed UTF-8: once [SaveContext] has written it, [loadContext] on
    the same file, from whatever transcript the loading agent holds,
    succeeds and restores the saved sequence of messages: same length, same
    order, same roles and contents. *)
Theorem save_then_load (a a' : Agent) (fs fs' : FS) :
  Forall (fun m => validMessage m = true) (context a) ->
  SaveContext a fs = (None, fs') ->
  contextFile a' = contextFile a ->
  loadContext a' fs' = (None, setContext a' (context a)).
Proof.
  intros Hv Hsave Hfile. unfold loadContext.
  rewrite Hfile, (SaveContext_written _ _ _ Hsave).
  by rewrite Unmarshal_MarshalIndent.
Qed.

(** A conversation with markup, a quotation, a line break and accented
    letters is restored by a freshly built agent. *)
Lemma save_then_load_witness :
  context (snd (loadContext agent0 (snd (SaveContext talk ∅)))) = context talk.
Proof.
  rewrite (save_then_load talk agent0 ∅ (snd (SaveContext talk ∅))).
  - reflexivity.
  - repeat constructor.
  - vm_compute. reflexivity.
  - reflexivity.
Defined.

(** C6, as the specification states it, fails: a content that is the
    single byte 255 is written as the escape of U+FFFD and comes back as
    the three bytes 239, 191, 189. *)
Lemma save_then_load_counterexample :
  fst (SaveContext rawByte ∅) = None
  /\ context (snd (loadContext rawByte (snd (SaveContext rawByte ∅))))
     = [mkMessage "user" (String "239" (String "191" (String "189" "")))]
  /\ context (snd (loadContext rawByte (snd (SaveContext rawByte ∅))))
     <> context rawByte.
Proof. vm_compute. repeat split; discriminate. Qed.

End PersistenceSpec.

(** * Further properties of the code *)

(** ** The file-edit tool: frame, failures, reports *)

Module FileEditExtra.
Import GoLib Tools Stated Notions Samples StringFacts FileEditSpec.

Lemma WriteFile_other (fs : FS) path data perm p :
  p <> path -> snd (WriteFile fs path data perm) !! p = fs !! p.
Proof.
  intros Hp. unfold WriteFile.
  destruct (fs !! path) as [[d m|m| |]|]; simpl; try done;
    by rewrite lookup_insert_ne.
Qed.

Lemma WriteFile_error_unchanged (fs : FS) path data perm e (fs' : FS) :
  WriteFile fs path data perm = (Some e, fs') -> fs' = fs.
Proof.
  unfold WriteFile. destruct (fs !! path) as [[d m|m| |]|]; by intros [= <-].
Qed.

(** [editContent] returns no panic: after the checks on [start_line] and
    [end_line] both slice expressions are in range. *)
Lemma editContent_no_panic request cur p : editContent request cur <> Panic p.
Proof.
  unfold editContent.
  destruct (String.eqb (Operation request) "replace").
  - destruct ((StartLine request =? 0) && (EndLine request =? 0)); [done|].
    cbv zeta.
    destruct ((StartLine request <? 1)
              || (Z.of_nat (length (SplitLines cur)) <? StartLine request)) eqn:Hs; [done|].
    apply orb_false_iff in Hs as [Hs1%Z.ltb_ge Hs2%Z.ltb_ge].
    rewrite slice_to_ok by lia.
    destruct ((EndLine request <? StartLine request)
              || (Z.of_nat (length (SplitLines cur)) <? EndLine request)) eqn:He.
    + by rewrite slice_from_ok by lia.
    + apply orb_false_iff in He as [He1%Z.ltb_ge He2%Z.ltb_ge].
      by rewrite slice_from_ok by lia.
  - destruct (String.eqb (Operation request) "append"); [|done].
    by destruct (HasSuffix cur nl).
Qed.

(** What [ExecuteRequest] does to a path of the map: nothing, or it is
    the path of the request, which held a regular file or nothing and now
    holds a regular file, of the same mode if there was one. *)
Lemma ExecuteRequest_nodes request (fs : FS) (p : string) :
  snd (ExecuteRequest request fs) !! p = fs !! p
  \/ exists data mode,
       snd (ExecuteRequest request fs) !! p = Some (File data mode)
       /\ (fs !! p = None \/ exists old, fs !! p = Some (File old mode)).
Proof.
  unfold ExecuteRequest.
  destruct (String.eqb (FilePath request) ""); [by left|].
  destruct (String.eqb (Operation request) ""); [by left|].
  unfold Stat, ReadFile, WriteFile.
  destruct (fs !! FilePath request) as [[cur mode|mode| |]|] eqn:Hf; simpl;
    try by left.
  - destruct (editContent request cur) as [new|e|m]; try by left.
    simpl. destruct (decide (p = FilePath request)) as [->|Hp].
    + right. exists new, mode. rewrite lookup_insert_eq, Hf. split; [done|]. right. by eauto.
    + left. by rewrite lookup_insert_ne.
  - destruct (nonempty (Content request)); by left.
  - destruct (nonempty (Content request)); [|by left].
    simpl. destruct (decide (p = FilePath request)) as [->|Hp].
    + right. exists (Content request), 420. rewrite lookup_insert_eq, Hf. by split; [|left].
    + left. by rewrite lookup_insert_ne.
Qed.

(** Between two states related as by [ExecuteRequest_nodes], a regular
    file stays one and keeps its mode, and the directories are the
    same. *)
Lemma nodes_kept (fs fs' : FS) (p : string) :
  (fs' !! p = fs !! p
   \/ exists data mode,
        fs' !! p = Some (File data mode)
        /\ (fs !! p = None \/ exists old, fs !! p = Some (File old mode))) ->
  (forall data mode, fs !! p = Some (File data mode) ->
                     exists data', fs' !! p = Some (File data' mode))
  /\ (forall mode, fs' !! p = Some (Dir mode) <-> fs !! p = Some (Dir mode)).
Proof.
  intros [Heq|(data' & mode' & Hnew & [Hold|[old Hold]])].
  - rewrite Heq. split; [by eauto|done].
  - rewrite Hnew, Hold. split; [done|]. by split.
  - rewrite Hnew, Hold. split; [|by split].
    intros data mode [= <- <-]. by eauto.
Qed.

(** X1.  The file-edit tool deletes nothing, changes no mode and makes no
    directory: whatever the request and its outcome, a path that held a
    regular file holds a regular file of the same mode afterwards, and a
    path holds a directory afterwards exactly when it held that directory
    before. *)
Theorem ExecuteRequest_keeps request (fs : FS) (p : string) :
  (forall data mode, fs !! p = Some (File data mode) ->
     exists data', snd (ExecuteRequest request fs) !! p = Some (File data' mode))
  /\ (forall mode, snd (ExecuteRequest request fs) !! p = Some (Dir mode)
                   <-> fs !! p = Some (Dir mode)).
Proof. apply nodes_kept, ExecuteRequest_nodes. Qed.

(** The file that is appended to is still a regular file of mode 0644. *)
Lemma ExecuteRequest_keeps_witness :
  exists data',
    snd (ExecuteRequest (Tools.mkRequest "notes.txt" "append" "D" 0 0) fs_abc) !! "notes.txt"
    = Some (File data' 420).
Proof.
  destruct (ExecuteRequest_keeps (Tools.mkRequest "notes.txt" "append" "D" 0 0) fs_abc
              "notes.txt") as [H _].
  apply (H abc 420). reflexivity.
Defined.

(** X2.  When the file-edit tool does not succeed, the file system is
    exactly as it was: a failed request creates, truncates and rewrites
    nothing (on a file system without faults of the medium, as modelled). *)
Theorem ExecuteRequest_failure_unchanged request (fs : FS) :
  is_Ok (fst (ExecuteRequest request fs)) = false ->
  snd (ExecuteRequest request fs) = fs.
Proof.
  unfold ExecuteRequest.
  destruct (String.eqb (FilePath request) ""); [done|].
  destruct (String.eqb (Operation request) ""); [done|].
  destruct (Stat fs (FilePath request)) as [e|info].
  - destruct (IsNotExist e); [|done].
    destruct (nonempty (Content request)); [|done].
    destruct (WriteFile fs _ _ _) as [[e'|] fs'] eqn:Hw; [|done].
    intros _. simpl. by eapply WriteFile_error_unchanged.
  - destruct (IsDir info); [done|].
    destruct (ReadFile fs (FilePath request)) as [e|cur]; [done|].
    destruct (editContent request cur) as [new|e|m]; try done.
    destruct (WriteFile fs _ _ _) as [[e'|] fs'] eqn:Hw; [|done].
    intros _. simpl. by eapply WriteFile_error_unchanged.
Qed.

Lemma ExecuteRequest_failure_unchanged_witness :
  snd (ExecuteRequest (Tools.mkRequest "notes.txt" "truncate" "X" 0 0) fs_abc) = fs_abc.
Proof.
  apply (ExecuteRequest_failure_unchanged
           (Tools.mkRequest "notes.txt" "truncate" "X" 0 0) fs_abc).
  vm_compute. reflexivity.
Defined.

(** [ExecuteRequest] returns no panic, whatever the line numbers of the
    request. *)
Lemma ExecuteRequest_no_panic request (fs : FS) (p : string) :
  fst (ExecuteRequest request fs) <> Panic p.
Proof.
  unfold ExecuteRequest.
  destruct (String.eqb (FilePath request) ""); [done|].
  destruct (String.eqb (Operation request) ""); [done|].
  destruct (Stat fs (FilePath request)) as [e|info].
  - destruct (IsNotExist e); [|done].
    destruct (nonempty (Content request)); [|done].
    by destruct (WriteFile fs _ _ _) as [[e'|] fs'].
  - destruct (IsDir info); [done|].
    destruct (ReadFile fs (FilePath request)) as [e|cur]; [done|].
    destruct (editContent request cur) as [new|e|m] eqn:He; try done.
    + by destruct (WriteFile fs _ _ _) as [[e'|] fs'].
    + by apply editContent_no_panic in He.
Qed.

Lemma SplitLines_app_nl (a b : string) :
  SplitLines (a +:+ nl +:+ b) = SplitLines a ++ SplitLines b.
Proof.
  induction a as [|c a IH].
  - by rewrite str_app_nil_l.
  - rewrite str_app_cons. simpl. rewrite IH.
    destruct (Ascii.eqb c newline); [done|].
    pose proof (SplitLines_nonempty a).
    by destruct (SplitLines a).
Qed.

Lemma SplitLines_Join (l : list string) :
  l <> [] -> SplitLines (Join l nl) = concat (map SplitLines l).
Proof.
  induction l as [|e l IH]; [done|]. intros _.
  destruct l as [|e' l].
  - simpl. by rewrite app_nil_r.
  - rewrite Join_cons by done. rewrite SplitLines_app_nl, IH by done. done.
Qed.

Lemma SplitLines_no_newline (s : string) :
  hasNewline s = false -> SplitLines s = [s].
Proof.
  induction s as [|c s IH]; [done|]. simpl.
  intros [Hc Hs]%orb_false_iff. rewrite Hc, (IH Hs). done.
Qed.

Lemma SplitLines_lines (s : string) :
  Forall (fun l => hasNewline l = false) (SplitLines s).
Proof.
  induction s as [|c s IH]; simpl.
  - by constructor.
  - destruct (Ascii.eqb c newline) eqn:Hc.
    + by constructor.
    + destruct (SplitLines s) as [|l ls]; [by repeat constructor; simpl; rewrite Hc|].
      inversion IH; subst. constructor; [|done]. simpl. by rewrite Hc.
Qed.

Lemma concat_SplitLines (l : list string) :
  Forall (fun l => hasNewline l = false) l -> concat (map SplitLines l) = l.
Proof.
  induction 1 as [|e l He _ IH]; [done|].
  simpl. by rewrite (SplitLines_no_newline _ He), IH.
Qed.

(** Splitting the join of lines gives the lines back. *)
Lemma SplitLines_Join_lines (l : list string) :
  l <> [] -> Forall (fun l => hasNewline l = false) l ->
  SplitLines (Join l nl) = l.
Proof. intros Hne Hl. by rewrite SplitLines_Join, concat_SplitLines. Qed.

Lemma effectiveEnd_range request n :
  1 <= StartLine request <= n ->
  StartLine request <= effectiveEnd request n <= n.
Proof.
  intros Hr. unfold effectiveEnd.
  destruct ((EndLine request <? StartLine request) || (n <? EndLine request)) eqn:He; [lia|].
  apply orb_false_iff in He as [?%Z.ltb_ge ?%Z.ltb_ge]. lia.
Qed.

(** The ranged replace in terms of [effectiveEnd]. *)
Lemma editContent_replace_effective request cur :
  Operation request = "replace" ->
  ~ (StartLine request = 0 /\ EndLine request = 0) ->
  1 <= StartLine request <= lineCount cur ->
  editContent request cur
  = Ok (Join (take (Z.to_nat (StartLine request - 1)) (SplitLines cur)
              ++ SplitLines (Content request)
              ++ drop (Z.to_nat (effectiveEnd request (lineCount cur))) (SplitLines cur)) nl).
Proof.
  intros Hop Hns Hr. rewrite editContent_replace_range by done.
  unfold statedReplace, clampEndLine, effectiveEnd.
  destruct ((EndLine request <? StartLine request) || (lineCount cur <? EndLine request));
    simpl.
  - assert ((StartLine request =? 0) && (lineCount cur =? 0) = false) as ->; [|done].
    apply andb_false_iff. left. apply Z.eqb_neq. lia.
  - assert ((StartLine request =? 0) && (EndLine request =? 0) = false) as ->; [|done].
    apply andb_false_iff. left. apply Z.eqb_neq. lia.
Qed.

(** X3.  After a replace with a line range (not both numbers zero) whose
    start_line lies in 1..lineCount, on an existing regular file, the file
    read back and split on newlines is exactly: the lines before start_line,
    the lines of the request's content, the lines after the effective end
    line (end_line, or lineCount when end_line is below start_line or above
    lineCount). The mode is kept, and the new line count is lineCount -
    (effectiveEnd - start_line + 1) + the number of lines of the content,
    which is at least one: an empty content leaves one empty line in place
    of the range. *)
Theorem replace_range_lines request (fs : FS) cur mode :
  FilePath request <> "" ->
  fs !! FilePath request = Some (File cur mode) ->
  Operation request = "replace" ->
  ~ (StartLine request = 0 /\ EndLine request = 0) ->
  1 <= StartLine request <= lineCount cur ->
  exists new,
    snd (ExecuteRequest request fs) !! FilePath request = Some (File new mode)
    /\ SplitLines new
       = take (Z.to_nat (StartLine request - 1)) (SplitLines cur)
         ++ SplitLines (Content request)
         ++ drop (Z.to_nat (effectiveEnd request (lineCount cur))) (SplitLines cur)
    /\ lineCount new
       = lineCount cur
         - (effectiveEnd request (lineCount cur) - StartLine request + 1)
         + lineCount (Content request).
Proof.
  intros Hp Hf Hop Hns Hr.
  rewrite (ExecuteRequest_file request fs cur mode) by (by rewrite ?Hop).
  rewrite editContent_replace_effective by done. simpl.
  rewrite lookup_insert_eq. eexists. split; [done|].
  pose proof (effectiveEnd_range request _ Hr) as He.
  assert (SplitLines
    (Join (take (Z.to_nat (StartLine request - 1)) (SplitLines cur) ++
       SplitLines (Content request) ++
       drop (Z.to_nat (effectiveEnd request (lineCount cur))) (SplitLines cur)) nl)
    = take (Z.to_nat (StartLine request - 1)) (SplitLines cur) ++
       SplitLines (Content request) ++
       drop (Z.to_nat (effectiveEnd request (lineCount cur))) (SplitLines cur)) as Hs.
  { apply SplitLines_Join_lines.
    - pose proof (SplitLines_nonempty (Content request)).
      destruct (SplitLines (Content request)); [done|].
      by destruct (take _ _).
    - pose proof (SplitLines_lines cur) as Hc.
      repeat apply Forall_app_2.
      + by apply Forall_take.
      + apply SplitLines_lines.
      + by apply Forall_drop. }
  split; [done|].
  unfold lineCount in *. rewrite Hs.
  rewrite !length_app, length_take, length_drop. lia.
Qed.

Lemma replace_range_lines_witness :
  exists new,
    snd (ExecuteRequest (Tools.mkRequest "notes.txt" "replace" "X" 2 9) fs_abc)
      !! "notes.txt" = Some (File new 420)
    /\ SplitLines new = ["A"; "X"]
    /\ lineCount new = 2.
Proof.
  apply (replace_range_lines (Tools.mkRequest "notes.txt" "replace" "X" 2 9) fs_abc abc 420).
  - discriminate.
  - reflexivity.
  - reflexivity.
  - simpl. lia.
  - vm_compute. split; discriminate.
Defined.

(** X4.  Replacing lines start_line..end_line (with 1 <= start_line <=
    end_line <= lineCount) of an existing regular file by those very lines,
    joined with newlines, succeeds and leaves the file system unchanged. *)
Theorem replace_range_identity request (fs : FS) cur mode :
  FilePath request <> "" ->
  fs !! FilePath request = Some (File cur mode) ->
  Operation request = "replace" ->
  1 <= StartLine request <= EndLine request ->
  EndLine request <= lineCount cur ->
  Content request
  = Join (take (Z.to_nat (EndLine request - StartLine request + 1))
            (drop (Z.to_nat (StartLine request - 1)) (SplitLines cur))) nl ->
  is_Ok (fst (ExecuteRequest request fs)) = true
  /\ snd (ExecuteRequest request fs) = fs.
Proof.
  intros Hp Hf Hop Hr He Hc.
  rewrite (ExecuteRequest_file request fs cur mode) by (by rewrite ?Hop).
  rewrite editContent_replace_effective by (done || lia). simpl. split; [done|].
  assert (effectiveEnd request (lineCount cur) = EndLine request) as ->.
  { unfold effectiveEnd.
    assert ((EndLine request <? StartLine request) = false) as -> by (apply Z.ltb_ge; lia).
    by assert ((lineCount cur <? EndLine request) = false) as -> by (apply Z.ltb_ge; lia). }
  set (lines := SplitLines cur) in *.
  set (s := Z.to_nat (StartLine request - 1)).
  set (k := Z.to_nat (EndLine request - StartLine request + 1)) in *.
  assert (Z.to_nat (EndLine request) = (s + k)%nat) as -> by lia.
  assert (SplitLines (Content request) = take k (drop s lines)) as ->.
  { rewrite Hc. apply SplitLines_Join_lines.
    - unfold lineCount in He. fold lines in He.
      intros Hnil. apply (f_equal length) in Hnil.
      rewrite length_take, length_drop in Hnil. simpl in Hnil. lia.
    - apply Forall_take, Forall_drop, SplitLines_lines. }
  assert (take s lines ++ take k (drop s lines) ++ drop (s + k) lines = lines) as ->.
  { rewrite <- drop_drop, take_drop. apply take_drop. }
  unfold lines. rewrite Join_SplitLines.
  apply insert_id. done.
Qed.

Lemma replace_range_identity_witness :
  is_Ok (fst (ExecuteRequest (Tools.mkRequest "notes.txt" "replace" ("B" +:+ nl +:+ "C") 2 3)
                fs_abc)) = true
  /\ snd (ExecuteRequest (Tools.mkRequest "notes.txt" "replace" ("B" +:+ nl +:+ "C") 2 3)
            fs_abc) = fs_abc.
Proof.
  apply (replace_range_identity
           (Tools.mkRequest "notes.txt" "replace" ("B" +:+ nl +:+ "C") 2 3) fs_abc abc 420).
  - discriminate.
  - reflexivity.
  - reflexivity.
  - simpl. lia.
  - vm_compute. discriminate.
  - vm_compute. reflexivity.
Defined.

(** X5.  A whole-file replace (operation replace, both line numbers zero) is
    idempotent: running the same request a second time leaves the file
    system as the first run left it, and succeeds if the first run
    succeeded. This holds whatever the path names (a regular file, nothing,
    a directory) and whatever the content. *)
Theorem replace_whole_idempotent request (fs : FS) :
  Operation request = "replace" ->
  StartLine request = 0 -> EndLine request = 0 ->
  snd (ExecuteRequest request (snd (ExecuteRequest request fs)))
  = snd (ExecuteRequest request fs)
  /\ (is_Ok (fst (ExecuteRequest request fs)) = true ->
      is_Ok (fst (ExecuteRequest request (snd (ExecuteRequest request fs)))) = true).
Proof.
  intros Hop Hs He.
  destruct (decide (FilePath request = "")) as [Hp|Hp].
  { unfold ExecuteRequest. rewrite Hp. simpl. done. }
  assert (Operation request <> "") as Ho by (by rewrite Hop).
  destruct (fs !! FilePath request) as [[cur mode|mode| |]|] eqn:Hf.
  - rewrite (ExecuteRequest_file request fs cur mode) by done.
    rewrite editContent_replace_whole by done. simpl.
    rewrite (ExecuteRequest_file request _ (Content request) mode)
      by (done || apply lookup_insert_eq).
    rewrite editContent_replace_whole by done. simpl.
    by rewrite insert_insert_eq.
  - assert (ExecuteRequest request fs = (Err (ErrIsDirectory (FilePath request)), fs)) as H.
    { unfold ExecuteRequest. rewrite (eqb_false _ _ Hp), (eqb_false _ _ Ho).
      unfold Stat. by rewrite Hf. }
    rewrite H. simpl. rewrite H. done.
  - assert (exists e, ExecuteRequest request fs = (Err e, fs)) as [e H].
    { unfold ExecuteRequest. rewrite (eqb_false _ _ Hp), (eqb_false _ _ Ho).
      unfold Stat, WriteFile. rewrite Hf. simpl.
      destruct (nonempty (Content request)); by eexists. }
    rewrite H. simpl. rewrite H. done.
  - assert (exists e, ExecuteRequest request fs = (Err e, fs)) as [e H].
    { unfold ExecuteRequest. rewrite (eqb_false _ _ Hp), (eqb_false _ _ Ho).
      unfold Stat. rewrite Hf. simpl. by eexists. }
    rewrite H. simpl. rewrite H. done.
  - destruct (decide (Content request = "")) as [Hc|Hc].
    + assert (ExecuteRequest request fs = (Err (ErrFileNotFound (FilePath request)), fs)) as H.
      { unfold ExecuteRequest. rewrite (eqb_false _ _ Hp), (eqb_false _ _ Ho).
        unfold Stat. rewrite Hf. simpl. unfold nonempty. by rewrite Hc. }
      rewrite H. simpl. rewrite H. done.
    + assert (ExecuteRequest request fs
              = (Ok ("Created new file " +:+ FilePath request +:+ " with "
                     +:+ fmt_d (len (Content request)) +:+ " bytes"),
                 <[FilePath request := File (Content request) 420]> fs)) as H.
      { unfold ExecuteRequest. rewrite (eqb_false _ _ Hp), (eqb_false _ _ Ho).
        unfold Stat, WriteFile, nonempty. rewrite Hf. simpl.
        by rewrite (eqb_false _ _ Hc). }
      rewrite H. simpl.
      rewrite (ExecuteRequest_file request _ (Content request) 420)
        by (done || apply lookup_insert_eq).
      rewrite editContent_replace_whole by done. simpl.
      by rewrite insert_insert_eq.
Qed.

Lemma replace_whole_idempotent_witness :
  snd (ExecuteRequest (Tools.mkRequest "new.txt" "replace" "hello" 0 0)
         (snd (ExecuteRequest (Tools.mkRequest "new.txt" "replace" "hello" 0 0) fs_abc)))
  = snd (ExecuteRequest (Tools.mkRequest "new.txt" "replace" "hello" 0 0) fs_abc).
Proof.
  destruct (replace_whole_idempotent
              (Tools.mkRequest "new.txt" "replace" "hello" 0 0) fs_abc) as [H _];
    [reflexivity|reflexivity|reflexivity|].
  exact H.
Defined.

Lemma SplitLines_trailing_newline (p : string) :
  SplitLines (p +:+ nl) = SplitLines p ++ [""].
Proof. by rewrite <- (str_app_nil_r (p +:+ nl)), str_app_assoc, SplitLines_app_nl. Qed.

(** X6.  After an append on an existing regular file, the file split on
    newlines is: the lines of the old content (without the empty piece after
    a final newline, when the old content ended with one) followed by the
    lines of the request's content. Its length is the old length plus the
    content's length, plus one when the old content did not end with a
    newline, so appending to an empty file writes a leading newline. The
    mode is kept. *)
Theorem append_lines request (fs : FS) cur mode :
  FilePath request <> "" ->
  fs !! FilePath request = Some (File cur mode) ->
  Operation request = "append" ->
  exists new,
    snd (ExecuteRequest request fs) !! FilePath request = Some (File new mode)
    /\ SplitLines new
       = (if HasSuffix cur nl then removelast (SplitLines cur) else SplitLines cur)
         ++ SplitLines (Content request)
    /\ len new
       = len cur + (if HasSuffix cur nl then 0 else 1) + len (Content request).
Proof.
  intros Hp Hf Hop.
  rewrite (ExecuteRequest_file request fs cur mode) by (by rewrite ?Hop).
  rewrite editContent_append by done. simpl. rewrite lookup_insert_eq.
  eexists. split; [done|].
  destruct (HasSuffix cur nl) eqn:Hs.
  - apply HasSuffix_spec in Hs as [p ->]. split.
    + rewrite str_app_assoc, SplitLines_app_nl, SplitLines_trailing_newline.
      by rewrite removelast_last.
    + unfold len. rewrite !str_length_app. lia.
  - split.
    + apply SplitLines_app_nl.
    + unfold len. rewrite !str_length_app. simpl. lia.
Qed.

Lemma append_lines_witness :
  exists new,
    snd (ExecuteRequest (Tools.mkRequest "notes.txt" "append" "D" 0 0) fs_abc)
      !! "notes.txt" = Some (File new 420)
    /\ SplitLines new = ["A"; "B"; "C"; "D"]
    /\ len new = 7.
Proof.
  apply (append_lines (Tools.mkRequest "notes.txt" "append" "D" 0 0) fs_abc abc 420).
  - discriminate.
  - reflexivity.
  - reflexivity.
Defined.

Lemma knownOperation_false (op : string) :
  knownOperation op = false <-> op <> "replace" /\ op <> "append".
Proof.
  unfold knownOperation. rewrite orb_false_iff.
  split; intros [H1 H2]; split.
  - intros ->. done.
  - intros ->. done.
  - by apply eqb_false.
  - by apply eqb_false.
Qed.






End FileEditExtra.

(** ** The other tools *)

Module ToolsExtra.
Import GoLib Tools Stated Notions Samples Samples2 StringFacts FileEditSpec.

Section Tools.

Variable TrimSpace : string -> string.
Variable MapToLower : string -> string.
Variable Walk : FS -> string -> list (string * (os_error + string)).
Variable UnmarshalRequest : string -> string + FileEditRequest.

Let ToLower := Tools.ToLower MapToLower.
Let newRegistry := Agent.newRegistry TrimSpace MapToLower Walk UnmarshalRequest.

(** The tools of the registry, by name. *)
Lemma newRegistry_lookup (name : string) (tool : Tool) :
  newRegistry !! name = Some tool ->
  name = "file_edit" /\ tool = FileEditTool UnmarshalRequest
  \/ name = "file_read" /\ tool = FileReadTool TrimSpace
  \/ name = "file_search" /\ tool = FileSearchTool TrimSpace MapToLower Walk "."
  \/ name = "web_search" /\ tool = WebSearchTool TrimSpace.
Proof.
  unfold newRegistry, Agent.newRegistry. simpl.
  rewrite !lookup_insert. repeat case_decide; try (rewrite lookup_empty; done).
  all: intros [= <-]; subst; tauto.
Qed.

Lemma FileReadTool_fs (input : string) (fs : FS) :
  snd (Execute (FileReadTool TrimSpace) input fs) = fs.
Proof.
  simpl. unfold Stat, ReadFile.
  by destruct (fs !! TrimSpace input) as [[d m|m| |]|].
Qed.

Lemma FileSearchTool_fs (root input : string) (fs : FS) :
  snd (Execute (FileSearchTool TrimSpace MapToLower Walk root) input fs) = fs.
Proof.
  simpl. destruct (matchedFiles _ _ _) as [e|[|f files]]; done.
Qed.

(** X9.  Of the tools NewAgent registers, every one but file_edit
    (web_search, file_search, file_read) leaves the file system unchanged,
    whatever its input and its outcome. *)
Theorem readonly_tools (name : string) (tool : Tool) (input : string) (fs : FS) :
  newRegistry !! name = Some tool ->
  name <> "file_edit" ->
  snd (Execute tool input fs) = fs.
Proof.
  intros Ht Hn.
  destruct (newRegistry_lookup name tool Ht) as [[-> _]|[[_ ->]|[[_ ->]|[_ ->]]]].
  - done.
  - apply FileReadTool_fs.
  - apply FileSearchTool_fs.
  - done.
Qed.

(** X10.  After a successful file-edit request whose path strings.TrimSpace
    leaves unchanged, the file-read tool called with that path succeeds,
    returns exactly the content the edit left in the file, and changes
    nothing. *)
Theorem read_after_edit request (fs : FS) :
  TrimSpace (FilePath request) = FilePath request ->
  is_Ok (fst (ExecuteRequest request fs)) = true ->
  exists data mode,
    snd (ExecuteRequest request fs) !! FilePath request = Some (File data mode)
    /\ Execute (FileReadTool TrimSpace) (FilePath request) (snd (ExecuteRequest request fs))
       = (Ok data, snd (ExecuteRequest request fs)).
Proof.
  intros Htrim Hok.
  assert (exists data mode,
             snd (ExecuteRequest request fs) !! FilePath request = Some (File data mode))
    as (data & mode & Hf).
  { revert Hok. unfold ExecuteRequest.
    destruct (String.eqb (FilePath request) ""); [done|].
    destruct (String.eqb (Operation request) ""); [done|].
    unfold Stat, ReadFile, WriteFile.
    destruct (fs !! FilePath request) as [[cur mode|mode| |]|]; simpl; try done.
    - destruct (editContent request cur) as [new|e|m]; try done.
      intros _. simpl. rewrite lookup_insert_eq. by eauto.
    - by destruct (nonempty (Content request)).
    - destruct (nonempty (Content request)); [|done].
      intros _. simpl. rewrite lookup_insert_eq. by eauto. }
  exists data, mode. split; [done|].
  simpl. rewrite Htrim. unfold Stat, ReadFile. by rewrite Hf.
Qed.

(** The matches of a walk without failing visit. *)
Lemma matchedFiles_entries (term : string) (entries : list (string * string)) :
  matchedFiles MapToLower term (map (fun e => (e.1, inr e.2)) entries)
  = inr (map fst (filter (fun e => Contains (ToLower e.2) (ToLower term) = true) entries)).
Proof.
  induction entries as [|[path name] entries IH]; [done|].
  simpl. rewrite IH. rewrite filter_cons. simpl. fold ToLower.
  destruct (Contains (ToLower name) (ToLower term)) eqn:Hc.
  - rewrite decide_True by done. done.
  - rewrite decide_False by done. done.
Qed.

(** A failing visit ends the walk with its error. *)
Lemma matchedFiles_failed (term : string) (entries : list (string * string))
    (path : string) (e : os_error) rest :
  matchedFiles MapToLower term (map (fun e => (e.1, inr e.2)) entries ++ (path, inl e) :: rest)
  = inl e.
Proof.
  induction entries as [|[p name] entries IH]; [done|].
  simpl. by rewrite IH.
Qed.

Lemma Contains_empty (s : string) : Contains s "" = true.
Proof. by destruct s. Qed.

(** X11.  When no visit of the walk fails, the file-search tool succeeds,
    leaves the file system unchanged, and lists exactly the paths of the
    visited entries whose name contains the trimmed search term, case
    ignored on both sides, in the order of the walk (or reports that nothing
    matched). With a blank search term it lists every visited path. *)
Theorem file_search_matches (root input : string) (fs : FS)
    (entries : list (string * string)) :
  Walk fs root = map (fun e => (e.1, inr e.2)) entries ->
  Execute (FileSearchTool TrimSpace MapToLower Walk root) input fs
  = (Ok (listing (TrimSpace input)
           (map fst (filter (fun e => Contains (ToLower e.2) (ToLower (TrimSpace input)) = true)
                       entries))), fs)
  /\ (TrimSpace input = "" ->
      Execute (FileSearchTool TrimSpace MapToLower Walk root) input fs
      = (Ok (listing "" (map fst entries)), fs)).
Proof.
  intros Hw.
  assert (Execute (FileSearchTool TrimSpace MapToLower Walk root) input fs
  = (Ok (listing (TrimSpace input)
           (map fst (filter (fun e => Contains (ToLower e.2) (ToLower (TrimSpace input)) = true)
                       entries))), fs)) as Hex.
  { simpl. rewrite Hw, matchedFiles_entries. fold ToLower. by destruct (map fst _). }
  split; [done|]. intros Ht. rewrite Hex, Ht.
  assert (filter (fun e : string * string => Contains (ToLower e.2) (ToLower "") = true)
            entries = entries) as ->; [|done].
  clear. induction entries as [|e entries IH]; [done|].
  rewrite filter_cons, decide_True by apply Contains_empty. by rewrite IH.
Qed.

(** X12.  When a visit of the walk fails, the file-search tool returns the
    error of the first failing visit, lists nothing of what matched before
    it, and leaves the file system unchanged. *)
Theorem file_search_failure (root input : string) (fs : FS)
    (entries : list (string * string)) (path : string) (e : os_error) rest :
  Walk fs root = map (fun e => (e.1, inr e.2)) entries ++ (path, inl e) :: rest ->
  Execute (FileSearchTool TrimSpace MapToLower Walk root) input fs = (Err (ErrOs e), fs).
Proof. intros Hw. simpl. by rewrite Hw, matchedFiles_failed. Qed.

(** X13.  The file-edit tool never panics: for every input, whatever the
    decoder makes of it, and every state of the file system, Execute returns
    a result or an error. After the checks on start_line and end_line the
    slice expressions lines[:start_line-1] and lines[end_line:] are always
    in range. *)
Theorem file_edit_never_panics (input : string) (fs : FS) (p : string) :
  fst (Execute (FileEditTool UnmarshalRequest) input fs) <> Panic p.
Proof.
  simpl. destruct (UnmarshalRequest input) as [detail|request]; [done|].
  apply FileEditExtra.ExecuteRequest_no_panic.
Qed.

End Tools.

Lemma readonly_tools_witness :
  snd (Execute (FileReadTool id) "notes.txt" fs_abc) = fs_abc.
Proof.
  apply (readonly_tools id id noWalk noDecode "file_read" (FileReadTool id) "notes.txt" fs_abc).
  - vm_compute. reflexivity.
  - discriminate.
Defined.

Lemma read_after_edit_witness :
  exists data mode,
    snd (ExecuteRequest (Tools.mkRequest "new.txt" "append" "hello" 0 0) fs_abc) !! "new.txt"
    = Some (File data mode)
    /\ Execute (FileReadTool id) "new.txt"
         (snd (ExecuteRequest (Tools.mkRequest "new.txt" "append" "hello" 0 0) fs_abc))
       = (Ok data, snd (ExecuteRequest (Tools.mkRequest "new.txt" "append" "hello" 0 0) fs_abc)).
Proof.
  apply (read_after_edit id (Tools.mkRequest "new.txt" "append" "hello" 0 0) fs_abc).
  - reflexivity.
  - vm_compute. reflexivity.
Defined.

(** Upper case in the term and in the name is ignored; the path is listed,
    not the name. *)
Lemma file_search_matches_witness :
  Execute (FileSearchTool id id walk3 ".") "MAIN" ∅
  = (Ok ("Files matching 'MAIN':" +:+ nl +:+ "- src/Main.go" +:+ nl), ∅).
Proof.
  destruct (file_search_matches id id walk3 "." "MAIN" ∅
              [(".", "."); ("notes.txt", "notes.txt"); ("src/Main.go", "Main.go")])
    as [H _]; [reflexivity|].
  rewrite H. vm_compute. reflexivity.
Defined.

Lemma file_search_failure_witness :
  Execute (FileSearchTool id id walkDenied ".") "MAIN" ∅
  = (Err (ErrOs (ErrOther "lstat" "secret" "permission denied")), ∅).
Proof.
  apply (file_search_failure id id walkDenied "." "MAIN" ∅ [(".", ".")] "secret"
           (ErrOther "lstat" "secret" "permission denied") [("src/Main.go", inr "Main.go")]).
  reflexivity.
Defined.

End ToolsExtra.

(** ** The gateway *)

Module GatewayExtra.
Import GoLib LLM Stated Notions Samples Samples2 StringFacts GatewaySpec.

Lemma combineText_loop (blocks : list ContentBlock) (acc : string) :
  fold_left
    (fun responseText b =>
       if String.eqb (Type_ b) "text" then responseText +:+ Text b else responseText)
    blocks acc
  = acc +:+ textOf blocks.
Proof.
  revert acc. induction blocks as [|b blocks IH]; intros acc.
  - simpl. unfold textOf. simpl. by rewrite str_app_nil_r.
  - simpl. rewrite IH. unfold textOf. rewrite filter_cons.
    destruct (String.eqb (Type_ b) "text") eqn:Ht.
    + apply eqb_eq in Ht. rewrite decide_True by done. simpl.
      by rewrite str_app_assoc.
    + rewrite decide_False; [done|]. intros H. apply eqb_eq in H. congruence.
Qed.

Lemma combineText_textOf (blocks : list ContentBlock) : combineText blocks = textOf blocks.
Proof. unfold combineText. by rewrite combineText_loop, str_app_nil_l. Qed.

Lemma lastMessage_Ok (msgs : list Message) (m : Message) :
  lastMessage msgs = Ok m <-> exists init, msgs = init ++ [m].
Proof.
  unfold lastMessage. split.
  - destruct (last msgs) as [x|] eqn:Hl; [|done].
    intros [= ->]. apply last_Some in Hl as [init ->]. by exists init.
  - intros [init ->]. by rewrite last_snoc.
Qed.

(** The reply [readResponse] accepts. *)
Lemma readResponse_Ok (resp : HttpOutcome) (reply : string) :
  readResponse resp = Ok reply
  <-> exists asMap blocks,
        resp = Response 200 asMap (inr blocks)
        /\ reply = textOf blocks /\ reply <> "".
Proof.
  split.
  - destruct resp as [d|code asMap [d|blocks]]; simpl; [done| |].
    + by destruct (negb (code =? 200)).
    + destruct (code =? 200) eqn:Hc; simpl; [|done].
      apply Z.eqb_eq in Hc as ->.
      destruct blocks as [|b blocks]; [done|].
      destruct (String.eqb (combineText (b :: blocks)) "") eqn:He; [done|].
      intros [= <-]. exists asMap, (b :: blocks).
      split; [done|]. split; [apply combineText_textOf|].
      intros H. rewrite H in He. done.
  - intros (asMap & blocks & -> & -> & Hne). simpl.
    destruct blocks as [|b blocks]; [done|].
    rewrite combineText_textOf. by rewrite (eqb_false _ _ Hne).
Qed.

Section Network.

Variable Net : Type.
Variable Do : Request -> Net -> HttpOutcome * Net.
Variable NewRequestOk : string -> bool.

Let Query := LLM.Query Net Do NewRequestOk.

(** X14.  Query panics exactly when the client has no API key and the
    transcript is empty (the index out of range of
    messages[len(messages)-1]); with an API key, or with a transcript that
    is not empty, it returns a reply or an error. *)
Theorem Query_panics_iff (c : Client) (msgs : list Message) (g : Gateway Net)
    (p : string) :
  fst (Query c msgs g) = Panic p
  <-> apiKey c = "" /\ msgs = [] /\ p = "index out of range [-1]".
Proof.
  unfold Query, LLM.Query. split.
  - destruct (String.eqb (apiKey c) "") eqn:Hk.
    + apply eqb_eq in Hk. unfold lastMessage.
      destruct (last msgs) as [m|] eqn:Hl; [done|].
      apply last_None in Hl. by intros [= <-].
    + destruct (negb (NewRequestOk (endpoint c))); [done|].
      destruct (Do _ _) as [resp n]. simpl.
      destruct resp as [d|code asMap [d|blocks]]; simpl; try done.
      * by destruct (negb (code =? 200)).
      * destruct (negb (code =? 200)); [done|].
        destruct blocks as [|b blocks]; [done|].
        by destruct (String.eqb (combineText (b :: blocks)) "").
  - intros (-> & -> & ->). done.
Qed.

(** Without an API key, or with an endpoint [http.NewRequest] rejects,
    [Query] does not use the network. *)
Lemma Query_offline (c : Client) (msgs : list Message) (g : Gateway Net) :
  apiKey c = "" \/ NewRequestOk (endpoint c) = false ->
  net (snd (Query c msgs g)) = net g.
Proof.
  unfold Query, LLM.Query. intros [Hk|Hr].
  - rewrite Hk. simpl. by destruct (lastMessage msgs).
  - rewrite Hr. simpl. by destruct (String.eqb (apiKey c) ""), (lastMessage msgs).
Qed.

(** X15.  Query returns a reply in exactly two cases. Without an API key, on
    a transcript that is not empty: the reply is 'Mock Claude response to: '
    followed by the content of the last message. With an API key and an
    accepted endpoint, when the response has status 200 and decodes to
    blocks: the reply is the concatenation, in order, of the texts of the
    blocks of type text, provided it is not empty. Hence a reply is never
    the empty string. *)
Theorem Query_reply (c : Client) (msgs : list Message) (g : Gateway Net)
    (reply : string) :
  (fst (Query c msgs g) = Ok reply
   <-> (apiKey c = ""
        /\ exists init m, msgs = init ++ [m]
                          /\ reply = "Mock Claude response to: " +:+ Content m)
       \/ (apiKey c <> "" /\ NewRequestOk (endpoint c) = true
           /\ exists asMap blocks,
                fst (Do (newRequest c (buildPayload msgs)) (net g))
                = Response 200 asMap (inr blocks)
                /\ reply = textOf blocks /\ reply <> ""))
  /\ (fst (Query c msgs g) = Ok reply -> reply <> "").
Proof.
  assert (fst (Query c msgs g) = Ok reply
   <-> (apiKey c = ""
        /\ exists init m, msgs = init ++ [m]
                          /\ reply = "Mock Claude response to: " +:+ Content m)
       \/ (apiKey c <> "" /\ NewRequestOk (endpoint c) = true
           /\ exists asMap blocks,
                fst (Do (newRequest c (buildPayload msgs)) (net g))
                = Response 200 asMap (inr blocks)
                /\ reply = textOf blocks /\ reply <> "")) as Hiff.
  { unfold Query, LLM.Query.
    destruct (String.eqb (apiKey c) "") eqn:Hk.
    - apply eqb_eq in Hk. split.
      + destruct (lastMessage msgs) as [m| |] eqn:Hl; try done.
        intros [= <-]. left. split; [done|].
        apply lastMessage_Ok in Hl as [init ->]. by exists init, m.
      + intros [(_ & init & m & -> & ->)|(H & _)]; [|done].
        assert (lastMessage (init ++ [m]) = Ok m) as -> by (apply lastMessage_Ok; eauto).
        done.
    - assert (apiKey c <> "") as Hne.
      { intros H. rewrite H in Hk. done. }
      destruct (NewRequestOk (endpoint c)) eqn:Hr; simpl.
      + destruct (Do _ _) as [resp n]. simpl. rewrite readResponse_Ok. split.
        * intros H. right. done.
        * intros [[H _]|(_ & _ & H)]; done.
      + split; [done|]. intros [[H _]|(_ & H & _)]; done. }
  split; [done|]. intros H. apply Hiff in H as [(_ & init & m & _ & ->)|(_ & _ & _ & _ & _ & _ & H)];
    done.
Qed.

End Network.

End GatewayExtra.

(** ** The agent *)

Module AgentExtra.
Import GoLib Stated Notions Samples Samples2 StringFacts AgentSpec.
Import Agent(rangeOrder, Agent, context, contextFile, llmClient, toolRegistry, World, fs,
             gateway, mkMessage, appendMessage, setContext, convertToLLMMessages).

Lemma HasPrefix_byte (s : string) (c : ascii) :
  HasPrefix s (String c "")
  = match s with String d _ => Ascii.eqb d c | "" => false end.
Proof. destruct s as [|d [|e s]]; [done| |]; simpl; by rewrite andb_true_r. Qed.

Lemma len_cons (c : ascii) (s : string) : len (String c s) = len s + 1.
Proof. unfold len. simpl. lia. Qed.

Lemma len_app (s t : string) : len (s +:+ t) = len s + len t.
Proof. unfold len. rewrite str_length_app. lia. Qed.

Lemma len_nonneg (s : string) : 0 <= len s.
Proof. unfold len. lia. Qed.

(** The first offset of a byte that [pre] does not hold. *)
Lemma Index_byte_app (pre : string) (c : ascii) (rest : string) :
  hasByte c pre = false ->
  Index (pre +:+ String c rest) (String c "") = len pre.
Proof.
  induction pre as [|d pre IH]; intros Hn.
  - rewrite str_app_nil_l. cbn [Index]. rewrite HasPrefix_byte.
    by rewrite Ascii.eqb_refl.
  - simpl in Hn. apply orb_false_iff in Hn as [Hd Hn].
    rewrite str_app_cons. cbn [Index]. rewrite HasPrefix_byte, Hd.
    rewrite (IH Hn), len_cons.
    pose proof (len_nonneg pre).
    assert ((len pre <? 0) = false) as -> by (apply Z.ltb_ge; lia). done.
Qed.

Lemma Index_byte_none (s : string) (c : ascii) :
  hasByte c s = false -> Index s (String c "") = -1.
Proof.
  induction s as [|d s IH]; intros Hn; [done|].
  simpl in Hn. apply orb_false_iff in Hn as [Hd Hn].
  cbn [Index]. rewrite HasPrefix_byte, Hd, (IH Hn). done.
Qed.

Lemma LastIndex_byte_none (s : string) (c : ascii) :
  hasByte c s = false -> LastIndex s (String c "") = -1.
Proof.
  induction s as [|d s IH]; intros Hn; [done|].
  simpl in Hn. apply orb_false_iff in Hn as [Hd Hn].
  cbn [LastIndex]. rewrite HasPrefix_byte, Hd, (IH Hn). done.
Qed.

(** The last offset of a byte that [post] does not hold. *)
Lemma LastIndex_byte_app (s : string) (c : ascii) (post : string) :
  hasByte c post = false ->
  LastIndex (s +:+ String c post) (String c "") = len s.
Proof.
  intros Hn. induction s as [|d s IH].
  - rewrite str_app_nil_l. cbn [LastIndex]. rewrite (LastIndex_byte_none _ _ Hn).
    rewrite HasPrefix_byte, Ascii.eqb_refl. done.
  - rewrite str_app_cons. cbn [LastIndex]. rewrite IH, len_cons.
    pose proof (len_nonneg s).
    assert ((0 <=? len s) = true) as -> by (apply Z.leb_le; lia). done.
Qed.

(** The last offset of a byte lies before any later part without it. *)
Lemma LastIndex_byte_bound (s : string) (c : ascii) :
  LastIndex s (String c "") < len s.
Proof.
  induction s as [|d s IH]; [done|].
  cbn [LastIndex]. rewrite HasPrefix_byte, len_cons.
  pose proof (len_nonneg s).
  destruct (0 <=? LastIndex s (String c "")) eqn:H0; [lia|].
  destruct (Ascii.eqb d c); lia.
Qed.

Lemma LastIndex_byte_app_none (s post : string) (c : ascii) :
  hasByte c post = false ->
  LastIndex (s +:+ post) (String c "") = LastIndex s (String c "").
Proof.
  intros Hn. induction s as [|d s IH].
  - rewrite str_app_nil_l. by rewrite LastIndex_byte_none.
  - rewrite str_app_cons. cbn [LastIndex]. rewrite IH, !HasPrefix_byte. done.
Qed.

Lemma str_slice_span (pre span post : string) :
  str_slice (pre +:+ span +:+ post) (len pre) (len pre + len span) = Ok span.
Proof.
  unfold str_slice. rewrite !len_app.
  pose proof (len_nonneg pre). pose proof (len_nonneg span). pose proof (len_nonneg post).
  assert ((0 <=? len pre) && (len pre <=? len pre + len span)
          && (len pre + len span <=? len pre + (len span + len post)) = true) as ->.
  { rewrite !andb_true_iff, !Z.leb_le. lia. }
  unfold len.
  replace (Z.to_nat (Z.of_nat (String.length pre))) with (String.length pre) by lia.
  replace (Z.to_nat (Z.of_nat (String.length pre) + Z.of_nat (String.length span)
                     - Z.of_nat (String.length pre))) with (String.length span) by lia.
  by rewrite drop_bytes_app, take_bytes_app.
Qed.

(** The offset [Index] returns is one at which the substring starts. *)
Lemma Index_found (s sub : string) :
  Index s sub <> -1 ->
  0 <= Index s sub /\ Index s sub + len sub <= len s.
Proof.
  induction s as [|d s IH]; cbn [Index].
  - destruct (HasPrefix "" sub) eqn:Hp; [|done]. intros _.
    destruct sub; [done|done].
  - destruct (HasPrefix (String d s) sub) eqn:Hp.
    + intros _. apply HasPrefix_spec in Hp as [r Hr].
      rewrite Hr, len_app. pose proof (len_nonneg r). lia.
    + destruct (Index s sub <? 0) eqn:Hi; [done|]. intros _.
      apply Z.ltb_ge in Hi. rewrite len_cons.
      destruct IH as [_ IH]; lia.
Qed.

Lemma Index_none (s sub : string) :
  Index s sub = -1 <-> Contains s sub = false.
Proof.
  induction s as [|d s IH]; rewrite Contains_unfold; cbn [Index].
  - destruct (HasPrefix "" sub); [by split|]. by split.
  - destruct (HasPrefix (String d s) sub); [by split|]. simpl.
    destruct (Index s sub <? 0) eqn:Hi.
    + apply Z.ltb_lt in Hi. split; [intros _|done].
      apply IH. destruct (decide (Index s sub = -1)) as [|Hne]; [done|].
      apply Index_found in Hne. lia.
    + apply Z.ltb_ge in Hi. rewrite <- IH. split; lia.
Qed.

Lemma length_lower_bytes (s : string) : String.length (lower_bytes s) = String.length s.
Proof. induction s as [|c s IH]; [done|]. simpl. by rewrite IH. Qed.

Section Extraction.

Variable TrimSpace : string -> string.
Variable MapToLower : string -> string.

Let ToLower := Tools.ToLower MapToLower.
Let extractToolInput := Agent.extractToolInput TrimSpace MapToLower.

Lemma extract_file_edit_found (pre mid post : string) :
  hasByte "{" pre = false ->
  hasByte "}" post = false ->
  extractToolInput "file_edit" (pre +:+ "{" +:+ mid +:+ "}" +:+ post)
  = Ok ("{" +:+ mid +:+ "}").
Proof.
  intros Hpre Hpost. unfold extractToolInput, Agent.extractToolInput.
  simpl String.eqb. cbv iota zeta.
  assert (Index (pre +:+ "{" +:+ mid +:+ "}" +:+ post) "{" = len pre) as ->.
  { change ("{" +:+ mid +:+ "}" +:+ post) with (String "{" (mid +:+ "}" +:+ post)).
    by apply Index_byte_app. }
  assert (LastIndex (pre +:+ "{" +:+ mid +:+ "}" +:+ post) "}" = len pre + 1 + len mid) as ->.
  { rewrite <- (str_app_assoc pre "{" _), <- (str_app_assoc (pre +:+ "{") mid _).
    change ("}" +:+ post) with (String "}" post).
    rewrite LastIndex_byte_app by done. rewrite !len_app. done. }
  pose proof (len_nonneg pre). pose proof (len_nonneg mid).
  assert (negb (len pre =? -1) && negb (len pre + 1 + len mid =? -1)
          && (len pre <? len pre + 1 + len mid) = true) as ->.
  { rewrite !andb_true_iff, !negb_true_iff, !Z.eqb_neq, Z.ltb_lt. lia. }
  replace (len pre + 1 + len mid + 1) with (len pre + len ("{" +:+ mid +:+ "}"))
    by (rewrite !len_app; change (len "{") with 1; change (len "}") with 1; lia).
  rewrite <- (str_slice_span pre ("{" +:+ mid +:+ "}") post).
  by rewrite !str_app_assoc.
Qed.

Lemma extract_file_edit_no_open (input : string) :
  hasByte "{" input = false ->
  extractToolInput "file_edit" input = Ok extractionError.
Proof.
  intros Hn. unfold extractToolInput, Agent.extractToolInput.
  simpl String.eqb. cbv iota zeta.
  by rewrite (Index_byte_none _ _ Hn).
Qed.

Lemma extract_file_edit_no_close (pre post : string) :
  hasByte "{" pre = false ->
  hasByte "}" post = false ->
  extractToolInput "file_edit" (pre +:+ "{" +:+ post) = Ok extractionError.
Proof.
  intros Hpre Hpost. unfold extractToolInput, Agent.extractToolInput.
  simpl String.eqb. cbv iota zeta.
  assert (Index (pre +:+ "{" +:+ post) "{" = len pre) as ->.
  { change ("{" +:+ post) with (String "{" post). by apply Index_byte_app. }
  assert (LastIndex (pre +:+ "{" +:+ post) "}" = LastIndex pre "}") as ->.
  { apply LastIndex_byte_app_none.
    change ("{" +:+ post) with (String "{" post). simpl. done. }
  pose proof (LastIndex_byte_bound pre "}").
  assert ((len pre <? LastIndex pre "}") = false) as -> by (apply Z.ltb_ge; lia).
  by rewrite andb_false_r.
Qed.

(** X16.  For the file_edit tool, extractToolInput returns the part of the
    reply from its first '{' to its last '}', both included, when the first
    '{' comes before the last '}'; when the reply has no '{', or no '}'
    after its first '{', it returns the fixed JSON payload with the key
    error. *)
Theorem extract_file_edit (input : string) :
  (forall pre mid post,
     input = pre +:+ "{" +:+ mid +:+ "}" +:+ post ->
     hasByte "{" pre = false -> hasByte "}" post = false ->
     extractToolInput "file_edit" input = Ok ("{" +:+ mid +:+ "}"))
  /\ (hasByte "{" input = false
      \/ (exists pre post, input = pre +:+ "{" +:+ post
                           /\ hasByte "{" pre = false /\ hasByte "}" post = false) ->
      extractToolInput "file_edit" input = Ok extractionError).
Proof.
  split.
  - intros pre mid post -> Hpre Hpost. by apply extract_file_edit_found.
  - intros [Hn|(pre & post & -> & Hpre & Hpost)].
    + by apply extract_file_edit_no_open.
    + by apply extract_file_edit_no_close.
Qed.

Lemma ToLower_ascii (s : string) : isASCII s = true -> ToLower s = lower_bytes s.
Proof. intros H. unfold ToLower, Tools.ToLower. by rewrite H. Qed.

(** On ASCII text the slice after the tool name is in range. *)
Lemma extract_ascii (toolName input : string) :
  toolName <> "file_edit" ->
  isASCII input = true -> isASCII toolName = true ->
  extractToolInput toolName input
  = Ok (if Contains (ToLower input) (ToLower toolName)
        then TrimSpace
               (fold_left RemoveAll Agent.phrases
                  (drop_bytes
                     (Z.to_nat (Index (ToLower input) (ToLower toolName) + len toolName))
                     input))
        else input).
Proof.
  intros Hne Hin Hname. unfold extractToolInput, Agent.extractToolInput.
  rewrite (eqb_false _ _ Hne). cbv zeta. fold ToLower.
  destruct (Index (ToLower input) (ToLower toolName) =? -1) eqn:Hi.
  - apply Z.eqb_eq in Hi. apply Index_none in Hi. by rewrite Hi.
  - apply Z.eqb_neq in Hi.
    assert (Contains (ToLower input) (ToLower toolName) = true) as ->.
    { destruct (Contains _ _) eqn:Hc; [done|]. by apply Index_none in Hc. }
    pose proof (Index_found _ _ Hi) as [H0 Hle].
    rewrite !ToLower_ascii in * by done.
    unfold len in Hle. rewrite !length_lower_bytes in Hle.
    unfold str_slice.
    set (i := Index (lower_bytes input) (lower_bytes toolName)) in *.
    assert ((0 <=? i + len toolName) && (i + len toolName <=? len input)
            && (len input <=? len input) = true) as ->.
    { rewrite !andb_true_iff, !Z.leb_le. unfold len. lia. }
    do 3 f_equal.
    set (n := Z.to_nat (i + len toolName)).
    assert (Z.to_nat (len input - (i + len toolName))
            = (String.length (drop_bytes n input))) as ->.
    { assert (forall k s, (k <= String.length s)%nat ->
                String.length (drop_bytes k s) = (String.length s - k)%nat) as Hd.
      { induction k as [|k IHk]; intros [|c s] Hk; simpl in *; try lia.
        apply IHk. lia. }
      rewrite Hd; unfold n, len; lia. }
    rewrite <- (str_app_nil_r (drop_bytes n input)) at 2.
    by rewrite take_bytes_app.
Qed.

(** X17.  For a tool other than file_edit, an ASCII reply and an ASCII tool
    name, extractToolInput does not panic. When the name does not occur in
    the reply (case ignored) it returns the reply unchanged; otherwise it
    returns strings.TrimSpace of what follows the first occurrence of the
    name, after the removal of the phrases tool, to, with, for, using, use,
    the and ':' in this order. *)
Theorem extract_after_name (toolName input : string) :
  toolName <> "file_edit" ->
  isASCII input = true -> isASCII toolName = true ->
  exists toolInput,
    extractToolInput toolName input = Ok toolInput
    /\ (Contains (ToLower input) (ToLower toolName) = false -> toolInput = input)
    /\ (forall pre mention post,
          input = pre +:+ mention +:+ post ->
          len mention = len toolName ->
          Index (ToLower input) (ToLower toolName) = len pre ->
          toolInput = TrimSpace (fold_left RemoveAll Agent.phrases post)).
Proof.
  intros Hne Hin Hname. rewrite extract_ascii by done.
  eexists. split; [done|]. split.
  - by intros ->.
  - intros pre mention post -> Hlen Hidx.
    assert (Contains (ToLower (pre +:+ mention +:+ post)) (ToLower toolName) = true) as ->.
    { destruct (Contains _ _) eqn:Hc; [done|]. apply Index_none in Hc.
      rewrite Hc in Hidx. pose proof (len_nonneg pre). lia. }
    rewrite Hidx, <- Hlen.
    replace (Z.to_nat (len pre + len mention)) with (String.length (pre +:+ mention))
      by (rewrite str_length_app; unfold len; lia).
    by rewrite <- str_app_assoc, drop_bytes_app.
Qed.

End Extraction.

Lemma extract_file_edit_witness :
  Agent.extractToolInput id id "file_edit" "I'll use file_edit: {x} now {y} done"
  = Ok "{x} now {y}".
Proof.
  destruct (extract_file_edit id id "I'll use file_edit: {x} now {y} done") as [H _].
  apply (H "I'll use file_edit: " "x} now {y" " done"); reflexivity.
Defined.

(** The phrases are removed inside words too: of [tomatoes] there remains
    [maes]. *)
Lemma extract_after_name_witness :
  Agent.extractToolInput id id "web_search" "Use WEB_SEARCH for tomatoes" = Ok "  maes".
Proof.
  destruct (extract_after_name id id "web_search" "Use WEB_SEARCH for tomatoes")
    as (toolInput & Hout & _ & Hpost); [discriminate|reflexivity|reflexivity|].
  rewrite Hout.
  rewrite (Hpost "Use " "WEB_SEARCH" " for tomatoes"); reflexivity.
Defined.

(** A visiting order can start at any key. *)
Lemma rangeOrder_front {V} (m : gmap string V) (order : list string) (n : string) :
  rangeOrder m order -> n ∈ order ->
  rangeOrder m (n :: filter (fun k => k <> n) order).
Proof.
  intros [Hnd Hk] Hn. split.
  - constructor.
    + intros [H _]%list_elem_of_filter. done.
    + by apply NoDup_filter.
  - intros k. rewrite <- Hk. rewrite elem_of_cons, list_elem_of_filter.
    destruct (decide (k = n)) as [->|Hne]; [tauto|]. tauto.
Qed.

Section Detection.

Variable MapToLower : string -> string.

Let ToLower := Tools.ToLower MapToLower.
Let detectToolName := Agent.detectToolName MapToLower.

(** X18.  When exactly one registered tool name occurs in the reply (lower
    case on both sides), detectToolName returns that name, in whatever order
    the loop visits the registry. *)
Theorem detect_unique_mention {V} (registry : gmap string V) (order : list string)
    (reply name : string) :
  rangeOrder registry order ->
  is_Some (registry !! name) ->
  Contains (ToLower reply) (ToLower name) = true ->
  (forall other, is_Some (registry !! other) -> other <> name ->
                 Contains (ToLower reply) (ToLower other) = false) ->
  detectToolName order reply = name.
Proof.
  intros [_ Hk] Hreg Hin Hothers.
  unfold detectToolName, Agent.detectToolName, ToLower in *.
  destruct (Agent.firstMentioned MapToLower reply order) as [n|] eqn:Hf.
  - apply firstMentioned_Some in Hf as [Hn Hc].
    destruct (decide (n = name)) as [|Hne]; [done|].
    rewrite Hothers in Hc; [done| |done]. by apply Hk.
  - pose proof (firstMentioned_None _ _ _ Hf name) as Hc.
    rewrite Hc in Hin; [done|]. by apply Hk.
Qed.

Lemma detect_first (order : list string) (reply name : string) :
  Contains (ToLower reply) (ToLower name) = true ->
  detectToolName (name :: order) reply = name.
Proof.
  intros Hc. unfold detectToolName, Agent.detectToolName. simpl.
  fold ToLower. by rewrite Hc.
Qed.

End Detection.

Section Registry.

Variable TrimSpace : string -> string.
Variable MapToLower : string -> string.
Variable Walk : FS -> string -> list (string * (os_error + string)).
Variable UnmarshalRequest : string -> string + Tools.FileEditRequest.

Let ToLower := Tools.ToLower MapToLower.
Let newRegistry := Agent.newRegistry TrimSpace MapToLower Walk UnmarshalRequest.
Let detectToolName := Agent.detectToolName MapToLower.

(** X19.  When two registered tool names both occur in the lower-cased
    reply, the result of detectToolName depends on the order in which the
    loop visits the registry: there is a visiting order for which it returns
    the one name and a visiting order for which it returns the other. *)
Theorem detect_order_dependent (reply n1 n2 : string) :
  n1 ∈ registeredNames -> n2 ∈ registeredNames ->
  Contains (ToLower reply) n1 = true ->
  Contains (ToLower reply) n2 = true ->
  exists order1 order2,
    rangeOrder newRegistry order1 /\ rangeOrder newRegistry order2
    /\ detectToolName order1 reply = n1
    /\ detectToolName order2 reply = n2.
Proof.
  intros H1 H2 Hc1 Hc2.
  pose proof (newRegistry_rangeOrder TrimSpace MapToLower Walk UnmarshalRequest) as Hord.
  exists (n1 :: filter (fun k => k <> n1) registeredNames),
         (n2 :: filter (fun k => k <> n2) registeredNames).
  split; [by apply rangeOrder_front|]. split; [by apply rangeOrder_front|].
  split; apply detect_first.
  - by rewrite (registered_lower MapToLower n1 H1).
  - by rewrite (registered_lower MapToLower n2 H2).
Qed.

End Registry.

Lemma detect_unique_mention_witness :
  Agent.detectToolName id ["file_edit"; "web_search"; "file_read"; "file_search"]
    "I will use FILE_READ on it" = "file_read".
Proof.
  apply (detect_unique_mention id registry0
           ["file_edit"; "web_search"; "file_read"; "file_search"]
           "I will use FILE_READ on it" "file_read").
  - split.
    + apply (bool_decide_unpack _). by vm_compute.
    + intros k. destruct (newRegistry_rangeOrder id id noWalk noDecode) as [_ Hk].
      rewrite <- Hk. unfold registeredNames. rewrite !elem_of_cons. tauto.
  - vm_compute. eauto.
  - vm_compute. reflexivity.
  - intros other Ho Hne.
    apply (newRegistry_keys id id noWalk noDecode) in Ho.
    unfold registeredNames in Ho. rewrite !elem_of_cons, elem_of_nil in Ho.
    destruct Ho as [->|[->|[->|[->|[]]]]]; try done; vm_compute; reflexivity.
Defined.

(** A reply that names the reading and the editing of a file runs the one
    or the other. *)
Lemma detect_order_dependent_witness :
  exists order1 order2,
    rangeOrder registry0 order1 /\ rangeOrder registry0 order2
    /\ Agent.detectToolName id order1 "file_read it, then file_edit it" = "file_read"
    /\ Agent.detectToolName id order2 "file_read it, then file_edit it" = "file_edit".
Proof.
  apply (detect_order_dependent id id noWalk noDecode
           "file_read it, then file_edit it" "file_read" "file_edit").
  - apply (bool_decide_unpack _). by vm_compute.
  - apply (bool_decide_unpack _). by vm_compute.
  - vm_compute. reflexivity.
  - vm_compute. reflexivity.
Defined.


(** The cases of a turn: the outcome of the first query, whether a tool is
    asked for, the outcome of the tool and of the second query. *)
Ltac turn_cases :=
  unfold Agent.Process;
  match goal with
  | |- context [LLM.Query ?N ?D ?K ?c ?ms ?g] =>
      let r := fresh "r" in let g1 := fresh "g1" in let HQ1 := fresh "HQ1" in
      destruct (LLM.Query N D K c ms g) as [r g1] eqn:HQ1; destruct r as [reply|e|p]
  end;
  [ match goal with
    | |- context [Agent.shouldUseTool ?M ?o ?r] =>
        let Hs := fresh "Hs" in destruct (Agent.shouldUseTool M o r) eqn:Hs
    end;
    [ match goal with
      | |- context [Agent.executeTool ?T ?M ?a ?n ?i ?f] =>
          let tr := fresh "tr" in let fs' := fresh "fs'" in let HT := fresh "HT" in
          destruct (Agent.executeTool T M a n i f) as [tr fs'] eqn:HT;
          destruct tr as [output|e|p]
      end;
      [ match goal with
        | |- context [LLM.Query ?N ?D ?K ?c ?ms ?g] =>
            let r2 := fresh "r" in let g2 := fresh "g2" in let HQ2 := fresh "HQ2" in
            destruct (LLM.Query N D K c ms g) as [r2 g2] eqn:HQ2;
            destruct r2 as [final|e|p]
        end
      | | ]
    | ]
  | | ]; cbn [fst snd context contextFile llmClient toolRegistry fs gateway
              appendMessage setContext].

Section Turn.

Variable TrimSpace : string -> string.
Variable MapToLower : string -> string.
Variable Walk : FS -> string -> list (string * (os_error + string)).
Variable UnmarshalRequest : string -> string + Tools.FileEditRequest.
Variable Net : Type.
Variable Do : LLM.Request -> Net -> LLM.HttpOutcome * Net.
Variable NewRequestOk : string -> bool.

Let Process := Agent.Process TrimSpace MapToLower Net Do NewRequestOk.

(** X20.  A turn never changes the agent's context file, client or registry,
    and only appends to the transcript: the user message, then, on success,
    either the assistant's reply, or the assistant's tool request, the tool
    message and the assistant's final reply (the reply returned is the last
    message); on an error, either nothing more (the first query failed), or
    the assistant's tool request, the error being wrapped as a tool
    execution error (the tool failed), or the tool request and the tool
    message (the second query failed); on a panic, at most two more
    messages. The user message stays in the transcript when the turn fails. *)
Theorem Process_transcript (a : Agent) (input : string) (order1 order2 : list string)
    (w : World Net) :
  contextFile (snd (fst (Process a input order1 order2 w))) = contextFile a
  /\ llmClient (snd (fst (Process a input order1 order2 w))) = llmClient a
  /\ toolRegistry (snd (fst (Process a input order1 order2 w))) = toolRegistry a
  /\ exists added,
       context (snd (fst (Process a input order1 order2 w)))
       = context a ++ mkMessage "user" input :: added
       /\ match fst (fst (Process a input order1 order2 w)) with
          | Ok reply =>
              added = [mkMessage "assistant" reply]
              \/ exists request output,
                   added = [mkMessage "assistant" request; mkMessage "tool" output;
                            mkMessage "assistant" reply]
          | Err e =>
              added = []
              \/ (exists request e',
                    added = [mkMessage "assistant" request] /\ e = ErrToolExecution e')
              \/ exists request output,
                   added = [mkMessage "assistant" request; mkMessage "tool" output]
          | Panic _ => (length added <= 2)%nat
          end.
Proof.
  unfold Process. turn_cases; repeat split; try done;
    rewrite <- ?List.app_assoc; simpl; eexists; (split; [reflexivity|]); simpl; eauto 8.
Qed.

End Turn.


Lemma readResponse_no_panic (resp : LLM.HttpOutcome) (p : string) :
  LLM.readResponse resp <> Panic p.
Proof.
  destruct resp as [d|code asMap [d|blocks]]; simpl; try done.
  - by destruct (negb (code =? 200)).
  - destruct (negb (code =? 200)); [done|].
    destruct blocks as [|b blocks]; [done|].
    by destruct (String.eqb (LLM.combineText (b :: blocks)) "").
Qed.

Section Turn.

Variable TrimSpace : string -> string.
Variable MapToLower : string -> string.
Variable Walk : FS -> string -> list (string * (os_error + string)).
Variable UnmarshalRequest : string -> string + Tools.FileEditRequest.
Variable Net : Type.
Variable Do : LLM.Request -> Net -> LLM.HttpOutcome * Net.
Variable NewRequestOk : string -> bool.

Let ToLower := Tools.ToLower MapToLower.
Let Query := LLM.Query Net Do NewRequestOk.
Let newRegistry := Agent.newRegistry TrimSpace MapToLower Walk UnmarshalRequest.
Let Process := Agent.Process TrimSpace MapToLower Net Do NewRequestOk.
Let executeTool := Agent.executeTool TrimSpace MapToLower.
Let extractToolInput := Agent.extractToolInput TrimSpace MapToLower.
Let detectToolName := Agent.detectToolName MapToLower.

(** A transcript that is not empty is answered without a panic. *)
Lemma Query_nonempty_no_panic (c : LLM.Client) (msgs : list LLM.Message)
    (g : LLM.Gateway Net) (p : string) :
  msgs <> [] -> fst (Query c msgs g) <> Panic p.
Proof.
  intros Hne. unfold Query, LLM.Query, LLM.lastMessage.
  destruct (String.eqb (LLM.apiKey c) "").
  - destruct (last msgs) as [m|] eqn:Hl; [done|]. by apply last_None in Hl.
  - destruct (negb (NewRequestOk (LLM.endpoint c))); [done|].
    destruct (Do _ _) as [resp n]. simpl. apply readResponse_no_panic.
Qed.

Lemma convert_snoc (ms : list Agent.Message) (m : Agent.Message) :
  convertToLLMMessages (ms ++ [m]) <> [].
Proof.
  unfold convertToLLMMessages. rewrite map_app. simpl. by destruct (map _ ms).
Qed.

(** X21.  Every turn adds one or two queries to the log of the gateway: the
    first is always the transcript with the user message appended; a second
    one, if there is one, is that transcript followed by the assistant's
    tool request and the tool message. *)
Theorem Process_queries (a : Agent) (input : string) (order1 order2 : list string)
    (w : World Net) :
  exists more,
    LLM.queries (gateway (snd (Process a input order1 order2 w)))
    = LLM.queries (gateway w)
      ++ convertToLLMMessages (context a ++ [mkMessage "user" input]) :: more
    /\ (more = []
        \/ exists request output,
             more = [convertToLLMMessages
                       (context a ++ [mkMessage "user" input; mkMessage "assistant" request;
                                      mkMessage "tool" output])]).
Proof.
  unfold Process. turn_cases;
    repeat match goal with
           | H : LLM.Query _ _ _ _ _ _ = _ |- _ =>
               apply (Query_log Net Do NewRequestOk) in H; cbn [gateway] in H
           end;
    rewrite <- ?List.app_assoc in *; simpl in *;
    try (exists []; split; [done|by left]).
  all: eexists; split; [rewrite HQ2, HQ1, <- List.app_assoc; reflexivity|]; right.
  all: do 2 eexists; by rewrite <- !List.app_assoc.
Qed.

Lemma executeTool_fs (a : Agent) (toolName input : string) (fs0 : FS) :
  toolRegistry a = newRegistry ->
  snd (executeTool a toolName input fs0) = fs0
  \/ exists request, snd (executeTool a toolName input fs0)
                     = snd (Tools.ExecuteRequest request fs0).
Proof.
  intros Hreg. unfold executeTool, Agent.executeTool, newRegistry in *. rewrite Hreg.
  destruct (Agent.newRegistry TrimSpace MapToLower Walk UnmarshalRequest !! toolName)
    as [tool|] eqn:Ht; [|by left].
  destruct (Agent.extractToolInput TrimSpace MapToLower toolName input)
    as [toolInput|e|p]; [|by left|by left].
  destruct (ToolsExtra.newRegistry_lookup TrimSpace MapToLower Walk UnmarshalRequest _ _ Ht)
    as [[_ ->]|[[_ ->]|[[_ ->]|[_ ->]]]].
  - simpl. destruct (UnmarshalRequest toolInput) as [d|request]; [by left|].
    right. by exists request.
  - left. apply ToolsExtra.FileReadTool_fs.
  - left. apply ToolsExtra.FileSearchTool_fs.
  - by left.
Qed.

Lemma Process_fs (a : Agent) (input : string) (order1 order2 : list string)
    (w : World Net) :
  toolRegistry a = newRegistry ->
  fs (snd (Process a input order1 order2 w)) = fs w
  \/ exists request, fs (snd (Process a input order1 order2 w))
                     = snd (Tools.ExecuteRequest request (fs w)).
Proof.
  intros Hreg. unfold Process. turn_cases; try by left.
  all: match goal with
       | H : Agent.executeTool _ _ ?a' ?n ?i ?f = (_, ?f') |- _ =>
           destruct (executeTool_fs a' n i f Hreg) as [Hfs|[request Hfs]];
           unfold executeTool in Hfs; rewrite H in Hfs; simpl in Hfs
       end.
  all: first [left; exact Hfs | right; by exists request].
Qed.


End Turn.


Lemma registered_ascii (k : string) : k ∈ registeredNames -> isASCII k = true.
Proof.
  unfold registeredNames. rewrite !elem_of_cons, elem_of_nil.
  intros [->|[->|[->|[->|[]]]]]; reflexivity.
Qed.

Section Turn.

Variable TrimSpace : string -> string.
Variable MapToLower : string -> string.
Variable Walk : FS -> string -> list (string * (os_error + string)).
Variable UnmarshalRequest : string -> string + Tools.FileEditRequest.
Variable Net : Type.
Variable Do : LLM.Request -> Net -> LLM.HttpOutcome * Net.
Variable NewRequestOk : string -> bool.

Let ToLower := Tools.ToLower MapToLower.
Let Query := LLM.Query Net Do NewRequestOk.
Let newRegistry := Agent.newRegistry TrimSpace MapToLower Walk UnmarshalRequest.
Let Process := Agent.Process TrimSpace MapToLower Net Do NewRequestOk.
Let executeTool := Agent.executeTool TrimSpace MapToLower.
Let extractToolInput := Agent.extractToolInput TrimSpace MapToLower.
Let detectToolName := Agent.detectToolName MapToLower.

(** The slice of the reply handed to the file-edit tool is in range. *)
Lemma extract_file_edit_no_panic (input p : string) :
  extractToolInput "file_edit" input <> Panic p.
Proof.
  unfold extractToolInput, Agent.extractToolInput. simpl String.eqb. cbv iota zeta.
  destruct (negb (Index input "{" =? -1) && negb (LastIndex input "}" =? -1)
            && (Index input "{" <? LastIndex input "}")) eqn:Hc; [|done].
  apply andb_true_iff in Hc as [[Hs _]%andb_true_iff Hlt].
  apply negb_true_iff, Z.eqb_neq in Hs. apply Z.ltb_lt in Hlt.
  pose proof (Index_found _ _ Hs) as [H0 _].
  pose proof (LastIndex_byte_bound input "}") as Hb.
  unfold str_slice.
  assert ((0 <=? Index input "{") && (Index input "{" <=? LastIndex input "}" + 1)
          && (LastIndex input "}" + 1 <=? len input) = true) as ->; [|done].
  rewrite !andb_true_iff, !Z.leb_le. lia.
Qed.

(** None of the four tools panics. *)
Lemma registered_tool_no_panic (name : string) (tool : Tools.Tool) (input : string)
    (fs0 : FS) (p : string) :
  newRegistry !! name = Some tool ->
  fst (Tools.Execute tool input fs0) <> Panic p.
Proof.
  intros Ht.
  destruct (ToolsExtra.newRegistry_lookup TrimSpace MapToLower Walk UnmarshalRequest _ _ Ht)
    as [[_ ->]|[[_ ->]|[[_ ->]|[_ ->]]]]; simpl.
  - destruct (UnmarshalRequest input) as [d|request]; [done|].
    apply FileEditExtra.ExecuteRequest_no_panic.
  - unfold Stat, ReadFile. by destruct (fs0 !! TrimSpace input) as [[d m|m| |]|].
  - by destruct (Tools.matchedFiles _ _ _) as [e|[|f files]].
  - done.
Qed.

Lemma executeTool_no_panic (a : Agent) (toolName reply : string) (fs0 : FS) (p : string) :
  toolRegistry a = newRegistry ->
  isASCII reply = true ->
  fst (executeTool a toolName reply fs0) <> Panic p.
Proof.
  intros Hreg Hascii. unfold executeTool, Agent.executeTool, newRegistry in *. rewrite Hreg.
  destruct (Agent.newRegistry TrimSpace MapToLower Walk UnmarshalRequest !! toolName)
    as [tool|] eqn:Ht; [|done].
  destruct (decide (toolName = "file_edit")) as [->|Hne].
  - destruct (Agent.extractToolInput TrimSpace MapToLower "file_edit" reply)
      as [toolInput|e|p'] eqn:Hx.
    + by eapply registered_tool_no_panic.
    + done.
    + by apply extract_file_edit_no_panic in Hx.
  - assert (isASCII toolName = true) as Hname.
    { apply registered_ascii.
      apply (newRegistry_keys TrimSpace MapToLower Walk UnmarshalRequest). by eexists. }
    rewrite (extract_ascii TrimSpace MapToLower toolName reply Hne Hascii Hname).
    by eapply registered_tool_no_panic.
Qed.

(** X23.  For an agent with the registry of NewAgent, a turn whose first
    reply is ASCII does not panic: the transcript sent to the gateway is
    never empty, the slice of the reply taken after the tool name or between
    the braces is in range, and no registered tool panics. *)
Theorem Process_no_panic (a : Agent) (input : string) (order1 order2 : list string)
    (w : World Net) (p : string) :
  toolRegistry a = newRegistry ->
  (forall reply,
     fst (Query (llmClient a) (convertToLLMMessages (context a ++ [mkMessage "user" input]))
            (gateway w)) = Ok reply ->
     isASCII reply = true) ->
  fst (fst (Process a input order1 order2 w)) <> Panic p.
Proof.
  intros Hreg Hascii. unfold Process, Query in *.
  revert p. turn_cases; intros why; try done.
  - intros [= ->].
    exact (Query_nonempty_no_panic Net Do NewRequestOk _ _ _ why
             (convert_snoc _ _) (f_equal fst HQ2)).
  - intros [= ->].
    assert (isASCII reply = true) as Hr by (apply Hascii; exact (f_equal fst HQ1)).
    exact (executeTool_no_panic _ _ reply _ why Hreg Hr (f_equal fst HT)).
  - intros [= ->].
    exact (Query_nonempty_no_panic Net Do NewRequestOk _ _ _ why
             (convert_snoc _ _) (f_equal fst HQ1)).
Qed.

End Turn.



Lemma Process_no_panic_witness :
  fst (fst (process1 editInput)) <> Panic "slice bounds out of range".
Proof.
  apply (Process_no_panic id id noWalk decodePayload unit offline (fun _ => true)
           agent1 editInput registeredNames registeredNames world0).
  - reflexivity.
  - intros reply H. vm_compute in H. injection H as <-. vm_compute. reflexivity.
Defined.

Section Start.

Variable TrimSpace : string -> string.
Variable MapToLower : string -> string.
Variable Walk : FS -> string -> list (string * (os_error + string)).
Variable UnmarshalRequest : string -> string + Tools.FileEditRequest.

Let newRegistry := Agent.newRegistry TrimSpace MapToLower Walk UnmarshalRequest.
Let NewAgent := Agent.NewAgent TrimSpace MapToLower Walk UnmarshalRequest.

Lemma occursIn_app_r (sub s t : string) : occursIn sub s -> occursIn sub (s +:+ t).
Proof.
  intros (before & after & ->). exists before, (after +:+ t).
  by rewrite !str_app_assoc.
Qed.

Lemma occursIn_suffix (s t : string) : occursIn t (s +:+ t).
Proof. exists s, "". by rewrite str_app_nil_r. Qed.

(** The loop of [NewAgent] over the registry keeps what is written and
    writes the line of every tool it visits. *)
Lemma listing_loop (registry : gmap string Tools.Tool) (order : list string)
    (acc : string) :
  let step := fun (msg name : string) =>
    match registry !! name with
    | Some tool =>
        msg +:+ "- " +:+ Tools.GetName tool +:+ ": " +:+ Tools.GetDescription tool +:+ nl
    | None => msg
    end in
  (forall sub, occursIn sub acc -> occursIn sub (fold_left step order acc))
  /\ forall name tool, name ∈ order -> registry !! name = Some tool ->
       occursIn ("- " +:+ Tools.GetName tool +:+ ": " +:+ Tools.GetDescription tool +:+ nl)
         (fold_left step order acc).
Proof.
  intros step. revert acc. induction order as [|n order IH]; intros acc.
  - split; [done|]. intros name tool H. by apply elem_of_nil in H.
  - destruct (IH (step acc n)) as [IH1 IH2]. simpl. split.
    + intros sub Hs. apply IH1. unfold step.
      destruct (registry !! n); [|done]. by apply occursIn_app_r.
    + intros name tool [->|Hin]%elem_of_cons Ht.
      * apply IH1. unfold step. rewrite Ht. apply occursIn_suffix.
      * by apply (IH2 name tool).
Qed.

Lemma registered_name (name : string) (tool : Tools.Tool) :
  newRegistry !! name = Some tool -> Tools.GetName tool = name.
Proof.
  intros Ht.
  by destruct (ToolsExtra.newRegistry_lookup TrimSpace MapToLower Walk UnmarshalRequest _ _ Ht)
    as [[-> ->]|[[-> ->]|[[-> ->]|[-> ->]]]].
Qed.

(** X24.  When the context file does not exist, NewAgent succeeds with a
    transcript of exactly one message, of role system, whose content
    contains, for every registered tool, the line '- <name>: <description>'
    ended by a newline, in whatever order the loop visits the registry. *)
Theorem NewAgent_first_start (contextFile : string) (Getenv : string -> string)
    (order : list string) (fs0 : FS) :
  fs0 !! contextFile = None ->
  rangeOrder newRegistry order ->
  exists a prompt,
    NewAgent contextFile Getenv order fs0 = Ok a
    /\ context a = [mkMessage "system" prompt]
    /\ forall name tool,
         newRegistry !! name = Some tool ->
         occursIn ("- " +:+ name +:+ ": " +:+ Tools.GetDescription tool +:+ nl) prompt.
Proof.
  intros Hf [_ Hk]. unfold NewAgent, Agent.NewAgent, Agent.loadContext, ReadFile.
  cbn [Agent.contextFile]. rewrite Hf. cbn [IsNotExist].
  eexists _, _. split; [reflexivity|]. split; [reflexivity|].
  intros name tool Ht. unfold Agent.systemMessage.
  apply occursIn_app_r.
  rewrite <- (registered_name name tool Ht) at 1.
  match goal with
  | |- occursIn _ (fold_left _ ?o ?acc) =>
      destruct (listing_loop (Agent.newRegistry TrimSpace MapToLower Walk UnmarshalRequest)
                  o acc) as [_ H]
  end.
  apply (H name tool); [|done]. apply Hk. by eexists.
Qed.

Lemma skipSpace_blank_Unmarshal (data : string) (old : list Agent.Message) :
  JSON.skipSpace data = "" ->
  exists detail, Agent.Unmarshal data old = inl detail.
Proof. intros H. unfold Agent.Unmarshal. rewrite H. simpl. by eexists. Qed.

(** X25.  When the context file is a regular file that is empty or holds
    only JSON white space, NewAgent fails with the decoding error: an empty
    conversation file is not treated as a missing one. *)
Theorem NewAgent_blank_file (contextFile : string) (Getenv : string -> string)
    (order : list string) (fs0 : FS) (data : string) (mode : Z) :
  fs0 !! contextFile = Some (File data mode) ->
  JSON.skipSpace data = "" ->
  exists detail,
    NewAgent contextFile Getenv order fs0 = Err (ErrUnmarshal detail).
Proof.
  intros Hf Hb. unfold NewAgent, Agent.NewAgent, Agent.loadContext, ReadFile.
  cbn [Agent.contextFile]. rewrite Hf.
  destruct (skipSpace_blank_Unmarshal data
              [mkMessage "system"
                 (Agent.systemMessage
                    (Agent.newRegistry TrimSpace MapToLower Walk UnmarshalRequest) order)] Hb)
    as [detail Hd].
  cbn [context]. rewrite Hd. by exists detail.
Qed.

End Start.

Lemma NewAgent_first_start_witness :
  exists a prompt,
    Agent.NewAgent id id noWalk noDecode "conversation.json" noEnv
      ["file_edit"; "web_search"; "file_read"; "file_search"] fs_abc = Ok a
    /\ context a = [mkMessage "system" prompt]
    /\ forall name tool,
         registry0 !! name = Some tool ->
         occursIn ("- " +:+ name +:+ ": " +:+ Tools.GetDescription tool +:+ nl) prompt.
Proof.
  apply (NewAgent_first_start id id noWalk noDecode "conversation.json" noEnv
           ["file_edit"; "web_search"; "file_read"; "file_search"] fs_abc).
  - reflexivity.
  - split.
    + apply (bool_decide_unpack _). by vm_compute.
    + intros k. destruct (newRegistry_rangeOrder id id noWalk noDecode) as [_ Hk].
      rewrite <- Hk. unfold registeredNames. rewrite !elem_of_cons. tauto.
Defined.

(** A conversation file that holds a line break and nothing else. *)
Lemma NewAgent_blank_file_witness :
  exists detail,
    Agent.NewAgent id id noWalk noDecode "conversation.json" noEnv registeredNames
      (<["conversation.json" := File nl 420]> ∅)
    = Err (ErrUnmarshal detail).
Proof.
  apply (NewAgent_blank_file id id noWalk noDecode "conversation.json" noEnv registeredNames
           (<["conversation.json" := File nl 420]> ∅) nl 420).
  - reflexivity.
  - reflexivity.
Defined.

End AgentExtra.

(** ** The program *)

Module MainSpec.
Import GoLib Stated Notions Samples Samples2 StringFacts AgentSpec AgentExtra PersistenceSpec.
Import Agent(rangeOrder, Agent, context, contextFile, llmClient, toolRegistry, World, fs,
             gateway, mkMessage, appendMessage, setContext, convertToLLMMessages).
Import Main(State, core, agent, world, out, Run, status, held, after, written,
            Exit1, Returned, Panicked, EndOfInput, ExitLine, Panicking, Stdout, Stderr).


Section Session.

Variable TrimSpace : string -> string.
Variable MapToLower : string -> string.
Variable Walk : FS -> string -> list (string * (os_error + string)).
Variable UnmarshalRequest : string -> string + Tools.FileEditRequest.
Variable Net : Type.
Variable Do : LLM.Request -> Net -> LLM.HttpOutcome * Net.
Variable NewRequestOk : string -> bool.
Variable orders : nat -> list string * list string.

Let newRegistry := Agent.newRegistry TrimSpace MapToLower Walk UnmarshalRequest.
Let NewAgent := Agent.NewAgent TrimSpace MapToLower Walk UnmarshalRequest.
Let Process := Agent.Process TrimSpace MapToLower Net Do NewRequestOk.
Let loop := Main.loop TrimSpace MapToLower Net Do NewRequestOk orders.
Let main := Main.main TrimSpace MapToLower Walk UnmarshalRequest Net Do NewRequestOk orders.

(** The output does not steer the loop. *)
Lemma loop_core (lines : list string) (turn : nat) (st1 st2 : State Net) :
  agent st1 = agent st2 -> world st1 = world st2 ->
  core (loop lines turn st1) = core (loop lines turn st2).
Proof.
  revert turn st1 st2. induction lines as [|line rest IH]; intros turn st1 st2 Ha Hw.
  - unfold core. simpl. by rewrite Ha, Hw.
  - unfold loop in *. cbn [Main.loop].
    destruct (String.eqb (TrimSpace line) "exit").
    { unfold core. simpl. by rewrite Ha, Hw. }
    destruct (String.eqb (TrimSpace line) "").
    { by apply IH. }
    cbn [Main.print agent world]. rewrite Ha, Hw.
    destruct (Agent.Process _ _ _ _ _ _ _ _ _ _) as [[r a] w]. 
    destruct r as [response|err|p].
    + by apply IH.
    + by apply IH.
    + done.
Qed.

Lemma loop_filter (lines : list string) (turn : nat) (st : State Net) :
  core (loop (filter (fun line => TrimSpace line <> "") lines) turn st)
  = core (loop lines turn st).
Proof.
  revert turn st. induction lines as [|line rest IH]; intros turn st; [done|].
  rewrite filter_cons. destruct (decide (TrimSpace line <> "")) as [Hne|Heq].
  - unfold loop in *. cbn [Main.loop].
    destruct (String.eqb (TrimSpace line) "exit"); [done|].
    destruct (String.eqb (TrimSpace line) ""); [apply IH|].
    destruct (Agent.Process _ _ _ _ _ _ _ _ _ _) as [[r a] w].
    destruct r as [response|err|p]; [apply IH|apply IH|done].
  - apply dec_stable in Heq. rewrite IH.
    unfold loop. cbn [Main.loop]. rewrite Heq. simpl String.eqb. cbv iota.
    by apply loop_core.
Qed.

(** The report of the scanner's error changes the output only. *)
Lemma reportErr_agent (e : Main.ending) (scanErr : option string) (st : State Net) :
  agent (Main.reportErr e scanErr st) = agent st.
Proof. by destruct e, scanErr. Qed.

Lemma reportErr_world (e : Main.ending) (scanErr : option string) (st : State Net) :
  world (Main.reportErr e scanErr st) = world st.
Proof. by destruct e, scanErr. Qed.

(** What [main] leaves apart from the output is settled by the core of
    the loop. *)
Lemma main_core (Getenv : string -> string) (order0 lines1 lines2 : list string)
    (scanErr1 scanErr2 : option string) (w : World Net) :
  (forall st, core (loop lines1 0 st) = core (loop lines2 0 st)) ->
  status (main Getenv order0 lines1 scanErr1 w) = status (main Getenv order0 lines2 scanErr2 w)
  /\ held (main Getenv order0 lines1 scanErr1 w) = held (main Getenv order0 lines2 scanErr2 w)
  /\ after (main Getenv order0 lines1 scanErr1 w) = after (main Getenv order0 lines2 scanErr2 w).
Proof.
  intros Hcore. unfold main, Main.main.
  destruct (Agent.NewAgent _ _ _ _ _ _ _ _) as [ag|err|p]; [|done|done].
  specialize (Hcore {| agent := ag; world := w; out := [Stdout (Main.welcome +:+ nl)] |}).
  unfold loop, core in Hcore.
  destruct (Main.loop _ _ _ _ _ _ lines1 _ _) as [e1 st1].
  destruct (Main.loop _ _ _ _ _ _ lines2 _ _) as [e2 st2].
  simpl in Hcore. injection Hcore as -> Ha Hw.
  rewrite !reportErr_agent, !reportErr_world, Ha, Hw.
  by destruct (Agent.SaveContext (agent st2) (fs (world st2))) as [err fs'].
Qed.

(** X26.  Lines that are blank after trimming do not count: removing them
    from the input leaves the exit status, the agent held at the end and the
    final world (file system, network, log of queries) unchanged, so no
    query is made for them. *)
Theorem main_skips_blank_lines (Getenv : string -> string) (order0 lines : list string)
    (scanErr : option string) (w : World Net) :
  status (main Getenv order0 (filter (fun line => TrimSpace line <> "") lines) scanErr w)
  = status (main Getenv order0 lines scanErr w)
  /\ held (main Getenv order0 (filter (fun line => TrimSpace line <> "") lines) scanErr w)
     = held (main Getenv order0 lines scanErr w)
  /\ after (main Getenv order0 (filter (fun line => TrimSpace line <> "") lines) scanErr w)
     = after (main Getenv order0 lines scanErr w).
Proof. apply main_core. intros st. apply loop_filter. Qed.

Lemma loop_exit (before : list string) (exitLine : string) (rest : list string)
    (turn : nat) (st : State Net) :
  TrimSpace exitLine = "exit" ->
  loop (before ++ exitLine :: rest) turn st = loop (before ++ [exitLine]) turn st
  /\ (loop (before ++ [exitLine]) turn st).1 <> EndOfInput.
Proof.
  intros Hx. revert turn st. induction before as [|line before IH]; intros turn st.
  - unfold loop. simpl. rewrite Hx. simpl. done.
  - unfold loop in *. cbn [app Main.loop].
    destruct (String.eqb (TrimSpace line) "exit"); [done|].
    destruct (String.eqb (TrimSpace line) ""); [apply IH|].
    destruct (Agent.Process _ _ _ _ _ _ _ _ _ _) as [[r a] w].
    destruct r as [response|err|p]; [apply IH|apply IH|done].
Qed.

(** X27.  Once a line that trims to exit is read, nothing behind it matters:
    with the same value of scanner.Err(), the run is, output included, the
    run on the input cut after that line. scanner.Err() is looked at after
    the line exit as after the end of the input: when it is an error and
    main returns, 'Error reading input: <error>' is the last line written. *)
Theorem main_stops_at_exit (Getenv : string -> string) (order0 before : list string)
    (exitLine : string) (rest : list string) (scanErr : option string) (w : World Net) :
  TrimSpace exitLine = "exit" ->
  main Getenv order0 (before ++ exitLine :: rest) scanErr w
  = main Getenv order0 (before ++ [exitLine]) scanErr w
  /\ forall err,
       scanErr = Some err ->
       status (main Getenv order0 (before ++ exitLine :: rest) scanErr w) = Returned ->
       last (written (main Getenv order0 (before ++ exitLine :: rest) scanErr w))
       = Some (Stderr ("Error reading input: " +:+ err +:+ nl)).
Proof.
  intros Hx. unfold main, Main.main.
  destruct (Agent.NewAgent _ _ _ _ _ _ _ _) as [ag|err|p]; [|done|done].
  destruct (loop_exit before exitLine rest 0
              {| agent := ag; world := w; out := [Stdout (Main.welcome +:+ nl)] |} Hx)
    as [Heq _].
  unfold loop in *. rewrite Heq. clear Heq. split; [done|].
  intros err ->.
  destruct (Main.loop _ _ _ _ _ _ (before ++ [exitLine]) _ _) as [e st].
  destruct e as [| |p]; cbn [Main.reportErr];
    destruct (Agent.SaveContext _ _) as [serr fs']; cbn [status written Main.print out];
    try done; intros _; apply last_snoc.
Qed.

End Session.


Section Session.

Variable TrimSpace : string -> string.
Variable MapToLower : string -> string.
Variable Walk : FS -> string -> list (string * (os_error + string)).
Variable UnmarshalRequest : string -> string + Tools.FileEditRequest.
Variable Net : Type.
Variable Do : LLM.Request -> Net -> LLM.HttpOutcome * Net.
Variable NewRequestOk : string -> bool.
Variable orders : nat -> list string * list string.

Let newRegistry := Agent.newRegistry TrimSpace MapToLower Walk UnmarshalRequest.
Let NewAgent := Agent.NewAgent TrimSpace MapToLower Walk UnmarshalRequest.
Let Process := Agent.Process TrimSpace MapToLower Net Do NewRequestOk.
Let loop := Main.loop TrimSpace MapToLower Net Do NewRequestOk orders.
Let main := Main.main TrimSpace MapToLower Walk UnmarshalRequest Net Do NewRequestOk orders.

(** A turn keeps the file, the client and the registry of the agent; it
    adds one to four messages and makes one or two queries. *)
Lemma Process_bounds (a : Agent) (input : string) (order1 order2 : list string)
    (w : World Net) :
  contextFile (snd (fst (Process a input order1 order2 w))) = contextFile a
  /\ toolRegistry (snd (fst (Process a input order1 order2 w))) = toolRegistry a
  /\ (exists added,
        context (snd (fst (Process a input order1 order2 w))) = context a ++ added
        /\ (1 <= length added <= 4)%nat)
  /\ exists made,
       LLM.queries (gateway (snd (Process a input order1 order2 w)))
       = LLM.queries (gateway w) ++ made
       /\ (1 <= length made <= 2)%nat.
Proof.
  unfold Process. turn_cases;
    repeat match goal with
           | H : LLM.Query _ _ _ _ _ _ = _ |- _ =>
               apply (Query_log Net Do NewRequestOk) in H; cbn [gateway] in H
           end;
    (split; [done|]); (split; [done|]); split.
  all: try (rewrite <- ?List.app_assoc; eexists; split; [reflexivity|simpl; lia]).
  all: try (eexists; split; [eassumption|simpl; lia]).
  all: eexists; split; [rewrite HQ2, HQ1, <- List.app_assoc; reflexivity|simpl; lia].
Qed.

(** The file can be written: it is a regular file, or it names nothing
    in a directory that exists. *)
Let writable (fs0 : FS) (file : string) : Prop :=
  fs0 !! file = None \/ exists data mode, fs0 !! file = Some (File data mode).

(** What [NewAgent] returns. *)
Lemma NewAgent_Ok (file : string) (Getenv : string -> string) (order : list string)
    (fs0 : FS) (a : Agent) :
  NewAgent file Getenv order fs0 = Ok a ->
  contextFile a = file /\ toolRegistry a = newRegistry
  /\ (fs0 !! file <> Some Orphan -> writable fs0 file).
Proof.
  unfold NewAgent, Agent.NewAgent, Agent.loadContext, ReadFile, writable.
  cbn [contextFile].
  destruct (fs0 !! file) as [[data mode|mode| |]|]; cbn [IsNotExist]; try done.
  - destruct (Agent.Unmarshal data _) as [detail|ms]; [done|].
    intros [= <-]. by eauto 6.
  - by intros [= <-].
  - intros [= <-]. by eauto.
Qed.

Lemma NewAgent_no_panic (file : string) (Getenv : string -> string) (order : list string)
    (fs0 : FS) (p : string) :
  NewAgent file Getenv order fs0 <> Panic p.
Proof.
  unfold NewAgent, Agent.NewAgent, Agent.loadContext, ReadFile. cbn [contextFile].
  destruct (fs0 !! file) as [[data mode|mode| |]|]; cbn [IsNotExist]; try done.
  by destruct (Agent.Unmarshal data _) as [detail|ms].
Qed.

(** What the loop keeps: the file and the registry of the agent, and that
    the file can be written. *)
Let kept (file : string) (st : State Net) : Prop :=
  contextFile (agent st) = file
  /\ toolRegistry (agent st) = newRegistry
  /\ writable (fs (world st)) file.

Lemma Process_kept (file : string) (a : Agent) (input : string)
    (order1 order2 : list string) (w : World Net) :
  toolRegistry a = newRegistry ->
  writable (fs w) file ->
  writable (fs (snd (Process a input order1 order2 w))) file.
Proof.
  intros Hreg Hw. unfold writable in *.
  destruct (Process_fs TrimSpace MapToLower Walk UnmarshalRequest Net Do NewRequestOk
              a input order1 order2 w Hreg) as [Hfs|[request Hfs]];
    unfold Process; rewrite Hfs; [done|].
  destruct (FileEditExtra.ExecuteRequest_nodes request (fs w) file)
    as [->|(d & md & -> & _)]; [done|]. right. by eauto.
Qed.

Lemma loop_kept (file : string) (lines : list string) (turn : nat) (st : State Net) :
  kept file st -> kept file (loop lines turn st).2.
Proof.
  revert turn st. induction lines as [|line rest IH]; intros turn st Hk; [done|].
  unfold loop in *. cbn [Main.loop].
  destruct (String.eqb (TrimSpace line) "exit"); [done|].
  destruct (String.eqb (TrimSpace line) ""); [by apply IH|].
  destruct Hk as (Hfile & Hreg & Hdir).
  pose proof (Process_bounds (agent st) (TrimSpace line) (orders turn).1 (orders turn).2
                (world st)) as (Hf' & Hr' & _).
  pose proof (Process_kept file (agent st) (TrimSpace line) (orders turn).1 (orders turn).2
                (world st) Hreg Hdir) as Hd'.
  unfold Process in *. cbn [Main.print agent world].
  destruct (Agent.Process _ _ _ _ _ _ _ _ _ _) as [[r a] w]. simpl in Hf', Hr', Hd'.
  assert (kept file {| agent := a; world := w; out := out st ++ [Stdout "> "] |}) as Hk'.
  { unfold kept. simpl. by rewrite Hf', Hr'. }
  destruct r as [response|err|p]; [by apply IH|by apply IH|done].
Qed.

(** Saving to a file that can be written writes the transcript. *)
Lemma SaveContext_kept (a : Agent) (fs0 : FS) :
  writable fs0 (contextFile a) ->
  exists mode,
    (Agent.SaveContext a fs0).2 !! contextFile a
    = Some (File (Agent.MarshalIndent (context a)) mode).
Proof.
  unfold Agent.SaveContext, WriteFile.
  intros [Hf|(data & mode & Hf)]; rewrite Hf; simpl.
  - exists 420. by rewrite lookup_insert_eq.
  - exists mode. by rewrite lookup_insert_eq.
Qed.

(** The held agent and the world of a run that got its agent. *)
Lemma main_run (Getenv : string -> string) (order0 lines : list string)
    (scanErr : option string) (w : World Net) :
  status (main Getenv order0 lines scanErr w) <> Exit1 ->
  exists ag st,
    NewAgent "conversation.json" Getenv order0 (fs w) = Ok ag
    /\ st = (loop lines 0
               {| agent := ag; world := w; out := [Stdout (Main.welcome +:+ nl)] |}).2
    /\ held (main Getenv order0 lines scanErr w) = Some (agent st)
    /\ after (main Getenv order0 lines scanErr w)
       = {| fs := (Agent.SaveContext (agent st) (fs (world st))).2;
            gateway := gateway (world st) |}.
Proof.
  unfold main, Main.main, NewAgent.
  destruct (Agent.NewAgent _ _ _ _ _ _ _ _) as [ag|err|p] eqn:Hnew; [|done|].
  - intros _. exists ag. eexists. split; [done|]. split; [reflexivity|].
    unfold loop.
    destruct (Main.loop _ _ _ _ _ _ _ _ _) as [e st].
    rewrite !reportErr_agent, !reportErr_world.
    simpl. by destruct (Agent.SaveContext (agent st) (fs (world st))).
  - by apply NewAgent_no_panic in Hnew.
Qed.

(** X28.  Whenever main gets its agent (conversation.json is missing, or
    holds an array of objects with string or null members, as SaveContext
    writes it) and conversation.json can be created or rewritten (no
    directory on its way is missing), conversation.json is a regular file
    when main ends, also when turns failed or a turn panicked: the deferred
    SaveContext wrote it. When the transcript the agent holds is not empty
    and all its roles and contents are well-formed UTF-8, the file holds the
    indented JSON of that transcript, and a later NewAgent on that file
    system succeeds with exactly this transcript. *)
Theorem main_saves_conversation (Getenv : string -> string) (order0 lines : list string)
    (scanErr : option string) (w : World Net) :
  status (main Getenv order0 lines scanErr w) <> Exit1 ->
  fs w !! "conversation.json" <> Some Orphan ->
  exists a data mode,
    held (main Getenv order0 lines scanErr w) = Some a
    /\ fs (after (main Getenv order0 lines scanErr w)) !! "conversation.json"
       = Some (File data mode)
    /\ (context a <> [] ->
        Forall (fun m => validMessage m = true) (context a) ->
        data = Agent.MarshalIndent (context a)
        /\ forall Getenv' order',
           exists a',
             NewAgent "conversation.json" Getenv' order'
               (fs (after (main Getenv order0 lines scanErr w))) = Ok a'
             /\ context a' = context a).
Proof.
  intros Hst Hdir.
  destruct (main_run Getenv order0 lines scanErr w Hst) as (ag & st & Hnew & Hloop & Hheld & Hafter).
  apply NewAgent_Ok in Hnew as (Hfile & Hreg & Hw).
  assert (kept "conversation.json" st) as (Hfile' & Hreg' & Hw').
  { rewrite Hloop. apply loop_kept. split; [done|]. split; [done|]. by apply Hw. }
  destruct (SaveContext_kept (agent st) (fs (world st))) as [mode Hsaved].
  { by rewrite Hfile'. }
  rewrite Hfile' in Hsaved.
  exists (agent st), (Agent.MarshalIndent (context (agent st))), mode.
  split; [done|]. rewrite Hafter. cbn [fs]. split; [done|].
  intros _ Hvalid. split; [done|]. intros Getenv' order'.
  unfold NewAgent, Agent.NewAgent, Agent.loadContext, ReadFile. cbn [contextFile].
  rewrite Hsaved, Unmarshal_MarshalIndent by done.
  eexists. split; reflexivity.
Qed.

(** The loop only adds to the transcript and to the log of queries. *)
Lemma loop_grows (lines : list string) (turn : nat) (st : State Net) :
  exists added made,
    context (agent (loop lines turn st).2) = context (agent st) ++ added
    /\ (length added <= 4 * length lines)%nat
    /\ LLM.queries (gateway (world (loop lines turn st).2))
       = LLM.queries (gateway (world st)) ++ made
    /\ (length made <= 2 * length lines)%nat.
Proof.
  revert turn st. induction lines as [|line rest IH]; intros turn st.
  { exists [], []. simpl. by rewrite !app_nil_r. }
  unfold loop in *. cbn [Main.loop].
  destruct (String.eqb (TrimSpace line) "exit").
  { exists [], []. simpl. rewrite !app_nil_r. repeat split; lia. }
  destruct (String.eqb (TrimSpace line) "").
  { destruct (IH turn (Main.print st (Stdout "> "))) as (added & made & H1 & H2 & H3 & H4).
    exists added, made. simpl in *. repeat split; try done; lia. }
  pose proof (Process_bounds (agent st) (TrimSpace line) (orders turn).1 (orders turn).2
                (world st)) as (_ & _ & (added1 & Hc & Hlc) & (made1 & Hq & Hlq)).
  unfold Process in *. cbn [Main.print agent world].
  destruct (Agent.Process _ _ _ _ _ _ _ _ _ _) as [[r a] w]. simpl in Hc, Hq.
  assert (forall st', agent st' = a -> world st' = w ->
            exists added made,
              context (agent (Main.loop TrimSpace MapToLower Net Do NewRequestOk orders
                                rest (S turn) st').2) = context (agent st) ++ added
              /\ (length added <= 4 * length (line :: rest))%nat
              /\ LLM.queries (gateway (world (Main.loop TrimSpace MapToLower Net Do
                                                NewRequestOk orders rest (S turn) st').2))
                 = LLM.queries (gateway (world st)) ++ made
              /\ (length made <= 2 * length (line :: rest))%nat) as Hrest.
  { intros st' Ha Hw.
    destruct (IH (S turn) st') as (added & made & H1 & H2 & H3 & H4).
    rewrite Ha, Hw, Hc, Hq in *.
    exists (added1 ++ added), (made1 ++ made).
    rewrite H1, H3, <- !List.app_assoc, !length_app. simpl. repeat split; lia. }
  destruct r as [response|err|p].
  - by apply Hrest.
  - by apply Hrest.
  - exists added1, made1. simpl. repeat split; try done; lia.
Qed.

(** X29.  A run that gets its agent only appends: the final transcript is
    the one NewAgent started from followed by at most four messages per
    input line, and the log of queries grows by at most two queries per
    input line. *)
Theorem main_appends (Getenv : string -> string) (order0 lines : list string)
    (scanErr : option string) (w : World Net) :
  status (main Getenv order0 lines scanErr w) <> Exit1 ->
  exists ag a added made,
    NewAgent "conversation.json" Getenv order0 (fs w) = Ok ag
    /\ held (main Getenv order0 lines scanErr w) = Some a
    /\ context a = context ag ++ added
    /\ (length added <= 4 * length lines)%nat
    /\ LLM.queries (gateway (after (main Getenv order0 lines scanErr w)))
       = LLM.queries (gateway w) ++ made
    /\ (length made <= 2 * length lines)%nat.
Proof.
  intros Hst.
  destruct (main_run Getenv order0 lines scanErr w Hst) as (ag & st & Hnew & Hloop & Hheld & Hafter).
  destruct (loop_grows lines 0
              {| agent := ag; world := w; out := [Stdout (Main.welcome +:+ nl)] |})
    as (added & made & H1 & H2 & H3 & H4).
  rewrite <- Hloop in H1, H3.
  exists ag, (agent st), added, made. rewrite Hafter. by repeat split.
Qed.

End Session.


(** Nothing behind the line [exit] is read, and the error of the scanner
    is the last line written. *)
Lemma main_stops_at_exit_witness :
  run session (Some "read error") = run [""; editInput; "exit"] (Some "read error")
  /\ forall err,
       Some "read error" = Some err ->
       status (run session (Some "read error")) = Returned ->
       last (written (run session (Some "read error")))
       = Some (Stderr ("Error reading input: " +:+ err +:+ nl)).
Proof.
  apply (main_stops_at_exit id id noWalk decodePayload unit offline (fun _ => true)
           sameOrders noEnv registeredNames [""; editInput] "exit" ["never read"]
           (Some "read error") world0).
  reflexivity.
Defined.

Lemma main_saves_conversation_witness :
  exists a data mode,
    held (run session None) = Some a
    /\ fs (after (run session None)) !! "conversation.json" = Some (File data mode)
    /\ (context a <> [] ->
        Forall (fun m => validMessage m = true) (context a) ->
        data = Agent.MarshalIndent (context a)
        /\ forall Getenv' order',
           exists a',
             Agent.NewAgent id id noWalk decodePayload "conversation.json" Getenv' order'
               (fs (after (run session None))) = Ok a'
             /\ context a' = context a).
Proof.
  apply (main_saves_conversation id id noWalk decodePayload unit offline (fun _ => true)
           sameOrders noEnv registeredNames session None world0).
  - vm_compute. discriminate.
  - vm_compute. discriminate.
Defined.

Lemma main_appends_witness :
  exists ag a added made,
    Agent.NewAgent id id noWalk decodePayload "conversation.json" noEnv registeredNames
      (fs world0) = Ok ag
    /\ held (run session None) = Some a
    /\ context a = context ag ++ added
    /\ (length added <= 4 * length session)%nat
    /\ LLM.queries (gateway (after (run session None)))
       = LLM.queries (gateway world0) ++ made
    /\ (length made <= 2 * length session)%nat.
Proof.
  apply (main_appends id id noWalk decodePayload unit offline (fun _ => true)
           sameOrders noEnv registeredNames session None world0).
  vm_compute. discriminate.
Defined.


Section Offline.

Variable TrimSpace : string -> string.
Variable MapToLower : string -> string.
Variable Walk : FS -> string -> list (string * (os_error + string)).
Variable UnmarshalRequest : string -> string + Tools.FileEditRequest.
Variable Net : Type.
Variable Do : LLM.Request -> Net -> LLM.HttpOutcome * Net.
Variable NewRequestOk : string -> bool.
Variable orders : nat -> list string * list string.

Let NewAgent := Agent.NewAgent TrimSpace MapToLower Walk UnmarshalRequest.
Let Process := Agent.Process TrimSpace MapToLower Net Do NewRequestOk.
Let loop := Main.loop TrimSpace MapToLower Net Do NewRequestOk orders.
Let main := Main.main TrimSpace MapToLower Walk UnmarshalRequest Net Do NewRequestOk orders.

(** A turn of an agent without API key keeps the client and does not use
    the network. *)
Lemma Process_offline (a : Agent) (input : string) (order1 order2 : list string)
    (w : World Net) :
  LLM.apiKey (llmClient a) = "" ->
  llmClient (snd (fst (Process a input order1 order2 w))) = llmClient a
  /\ LLM.net (gateway (snd (Process a input order1 order2 w))) = LLM.net (gateway w).
Proof.
  intros Hkey. unfold Process. turn_cases;
    repeat match goal with
           | H : LLM.Query ?N ?D ?K ?c ?ms ?g = (_, ?g') |- _ =>
               let Hn := fresh "Hn" in
               pose proof (GatewayExtra.Query_offline N D K c ms g (or_introl Hkey)) as Hn;
               rewrite H in Hn; cbn [snd gateway] in Hn; clear H
           end;
    (split; [done|]); congruence.
Qed.

Lemma loop_offline (lines : list string) (turn : nat) (st : State Net) :
  LLM.apiKey (llmClient (agent st)) = "" ->
  LLM.net (gateway (world (loop lines turn st).2)) = LLM.net (gateway (world st)).
Proof.
  revert turn st. induction lines as [|line rest IH]; intros turn st Hkey; [done|].
  unfold loop in *. cbn [Main.loop].
  destruct (String.eqb (TrimSpace line) "exit"); [done|].
  destruct (String.eqb (TrimSpace line) ""); [by rewrite IH|].
  pose proof (Process_offline (agent st) (TrimSpace line) (orders turn).1 (orders turn).2
                (world st) Hkey) as [Hc Hn].
  unfold Process in *. cbn [Main.print agent world].
  destruct (Agent.Process _ _ _ _ _ _ _ _ _ _) as [[r a] w]. simpl in Hc, Hn.
  destruct r as [response|err|p]; [| |done].
  - rewrite IH; [done|]. simpl. by rewrite Hc.
  - rewrite IH; [done|]. simpl. by rewrite Hc.
Qed.

(** X30.  A run of the program without an API key in the environment never
    uses the network: whatever the input lines, the tools that run and the
    errors of the turns, the state of the network at the end is the one at
    the start. *)
Theorem main_offline (Getenv : string -> string) (order0 lines : list string)
    (scanErr : option string) (w : World Net) :
  Getenv "ANTHROPIC_API_KEY" = "" ->
  LLM.net (gateway (after (main Getenv order0 lines scanErr w))) = LLM.net (gateway w).
Proof.
  intros Hkey. unfold main, Main.main.
  destruct (Agent.NewAgent _ _ _ _ _ _ _ _) as [ag|err|p] eqn:Hnew; [|done|done].
  assert (LLM.apiKey (llmClient ag) = "") as Hag.
  { revert Hnew. unfold Agent.NewAgent, Agent.loadContext, ReadFile.
    cbn [contextFile]. 
    destruct (fs w !! "conversation.json") as [[data mode|mode| |]|]; cbn [IsNotExist];
      try done.
    - destruct (Agent.Unmarshal data _) as [detail|ms]; [done|]. by intros [= <-].
    - by intros [= <-].
    - by intros [= <-]. }
  pose proof (loop_offline lines 0
                {| agent := ag; world := w; out := [Stdout (Main.welcome +:+ nl)] |} Hag) as Hn.
  unfold loop in Hn.
  destruct (Main.loop _ _ _ _ _ _ _ _ _) as [e st]. simpl in Hn.
  rewrite !reportErr_agent, !reportErr_world.
  by destruct (Agent.SaveContext (agent st) (fs (world st))).
Qed.

End Offline.

(** The network would answer, and is never asked. *)
Lemma main_offline_witness :
  LLM.net (gateway (after
    (Main.main id id noWalk decodePayload nat answering (fun _ => true) sameOrders
       noEnv registeredNames session None
       {| fs := ∅; gateway := LLM.mkGateway 0%nat [] |}))) = 0%nat.
Proof.
  apply (main_offline id id noWalk decodePayload nat answering (fun _ => true) sameOrders
           noEnv registeredNames session None
           {| fs := ∅; gateway := LLM.mkGateway 0%nat [] |}).
  reflexivity.
Defined.

End MainSpec.
